(** * pycg/obj.py: a reader and writer for Wavefront OBJ scenes

    A shallow embedding of [src/pycg/obj.py] and the properties of its
    parser ([_parse_objs]), its serializer ([_dump_objs]) and the session
    object ([ObjFile]) that ties them to a file.

    Conventions of the embedding.
    - Python exceptions are values of [exn]; a computation that may raise
      returns a [result].
    - Python [str] is [string]; only the ASCII range is modelled.
    - A Python [dict] is an association list in insertion order ([dict]),
      since the serializer iterates over keys.
    - A text file is the string it holds; iterating over it yields its
      lines.
    - [float], the formatting of a float and the classes of the [graphics]
      module are not part of [obj.py]; what the code needs from them is
      collected in the class [Externals]. *)

From Stdlib Require Import String Ascii List ZArith Lia Bool.
Import ListNotations.
Open Scope string_scope.
Open Scope list_scope.
Open Scope Z_scope.

(** [s +++ t] is the concatenation of two strings, [xs ++ ys] of two
    lists. *)
Infix "+++" := String.append (right associativity, at level 60).

Set Implicit Arguments.

(** ** Exceptions and the error monad *)

Inductive exn : Type :=
| ValueError (msg : string)
| IndexError
| KeyError (key : string)
| TypeError
| AssertionError
| AttributeError
| FileNotFoundError (path : string).

Inductive result (A : Type) : Type :=
| Ok (a : A)
| Raise (e : exn).
Arguments Ok {A} a.
Arguments Raise {A} e.

Definition bind {A B} (m : result A) (k : A -> result B) : result B :=
  match m with
  | Ok a => k a
  | Raise e => Raise e
  end.

Declare Scope py_scope.
Delimit Scope py_scope with py.
Notation "x <- m ;; k" := (bind m (fun x => k))
  (at level 61, m at next level, right associativity) : py_scope.
Notation "' p <- m ;; k" := (bind m (fun x => let p := x in k))
  (at level 61, p pattern, m at next level, right associativity) : py_scope.
Open Scope py_scope.

(** [assert c] *)
Definition assert (c : bool) : result unit :=
  if c then Ok tt else Raise AssertionError.

(** [for x in xs: body], threading the loop state and stopping at the
    first exception. *)
Fixpoint for_each {A S} (xs : list A) (body : A -> S -> result S) (s : S)
  : result S :=
  match xs with
  | [] => Ok s
  | x :: xs' => s' <- body x s ;; for_each xs' body s'
  end.

(** [[f(x) for x in xs]] with a body that may raise. *)
Fixpoint map_result {A B} (f : A -> result B) (xs : list A) : result (list B) :=
  match xs with
  | [] => Ok []
  | x :: xs' => y <- f x ;; ys <- map_result f xs' ;; Ok (y :: ys)
  end.

(** ** Strings *)

Definition ascii_in (c : ascii) (codes : list nat) : bool :=
  existsb (Nat.eqb (nat_of_ascii c)) codes.

(** The ASCII characters for which [str.isspace] holds: tab, line feed,
    vertical tab, form feed, carriage return, the four separators
    0x1c-0x1f and the space. *)
Definition is_space (c : ascii) : bool :=
  ascii_in c [9; 10; 11; 12; 13; 28; 29; 30; 31; 32]%nat.

(** The characters that end a line of a file opened in text mode (universal
    newlines). *)
Definition is_newline (c : ascii) : bool :=
  ascii_in c [10; 13]%nat.

(** [line.strip().split()]: the maximal runs of non-space characters. *)
Fixpoint split (s : string) : list string :=
  match s with
  | EmptyString => []
  | String c s' =>
      if is_space c then split s'
      else match s' with
           | EmptyString => [String c EmptyString]
           | String c' _ =>
               if is_space c' then String c EmptyString :: split s'
               else match split s' with
                    | w :: ws => String c w :: ws
                    | [] => [String c EmptyString]
                    end
           end
  end.

(** [for line in file]: the lines of a text, without their terminators
    (which [strip] would remove anyway; a carriage return followed by a
    line feed gives one more empty line, which the parsers skip). *)
Fixpoint lines (s : string) : list string :=
  match s with
  | EmptyString => []
  | String c s' =>
      if is_newline c then EmptyString :: lines s'
      else match lines s' with
           | l :: ls => String c l :: ls
           | [] => [String c EmptyString]
           end
  end.

(** [s.lower()] *)
Definition lower_char (c : ascii) : ascii :=
  let n := nat_of_ascii c in
  if ((65 <=? n) && (n <=? 90))%nat then ascii_of_nat (n + 32) else c.

Fixpoint lower (s : string) : string :=
  match s with
  | EmptyString => EmptyString
  | String c s' => String (lower_char c) (lower s')
  end.

(** [sep.join(xs)] *)
Fixpoint join (sep : string) (xs : list string) : string :=
  match xs with
  | [] => ""
  | [x] => x
  | x :: xs' => x +++ sep +++ join sep xs'
  end.

(** [s.split('.')[0]]: the part of [s] before its first dot. *)
Fixpoint before_dot (s : string) : string :=
  match s with
  | EmptyString => EmptyString
  | String c s' => if Ascii.eqb c "." then EmptyString else String c (before_dot s')
  end.

(** [os.path.basename] on a POSIX path: what follows the last slash. *)
Fixpoint basename (p : string) : string :=
  match p with
  | EmptyString => EmptyString
  | String c p' =>
      if Ascii.eqb c "/" then basename p'
      else if existsb (Ascii.eqb "/") (list_ascii_of_string p') then basename p'
      else p
  end.

(** A string without white space. *)
Definition plain (s : string) : bool :=
  forallb (fun c => negb (is_space c)) (list_ascii_of_string s).

(** A token: a non-empty string without white space, the unit that [split]
    gives back unchanged. *)
Definition is_token (s : string) : bool :=
  negb (String.eqb s "") && plain s.

(** A string that stays on one line. *)
Definition one_line (s : string) : bool :=
  forallb (fun c => negb (is_newline c)) (list_ascii_of_string s).

(** [int(s)] for a token [s]: an optional sign, then decimal digits, where
    single underscores may separate digits. *)
Definition digit_of (c : ascii) : option Z :=
  let n := nat_of_ascii c in
  if ((48 <=? n) && (n <=? 57))%nat then Some (Z.of_nat (n - 48)) else None.

Fixpoint int_digits (acc : Z) (after_digit : bool) (s : string) : option Z :=
  match s with
  | EmptyString => if after_digit then Some acc else None
  | String c s' =>
      if Ascii.eqb c "_" then
        if after_digit then int_digits acc false s' else None
      else match digit_of c with
           | Some d => int_digits (10 * acc + d) true s'
           | None => None
           end
  end.

Definition int (s : string) : result Z :=
  let parsed :=
    match s with
    | String "-" s' => option_map Z.opp (int_digits 0 false s')
    | String "+" s' => int_digits 0 false s'
    | _ => int_digits 0 false s
    end in
  match parsed with
  | Some z => Ok z
  | None => Raise (ValueError "invalid literal for int() with base 10")
  end.

(** [str(n)] for an integer. *)
Definition digit_char (d : Z) : ascii := ascii_of_nat (48 + Z.to_nat d).

Fixpoint digits_of (fuel : nat) (n : Z) (acc : string) : string :=
  match fuel with
  | O => acc
  | S fuel' =>
      let acc' := String (digit_char (n mod 10)) acc in
      if n <? 10 then acc' else digits_of fuel' (n / 10) acc'
  end.

Definition str (n : Z) : string :=
  if n <? 0 then String "-" (digits_of (S (Z.to_nat (- n))) (- n) "")
  else digits_of (S (Z.to_nat n)) n "".

(** ** Python containers *)

(** [xs[i]], with Python's negative indices. *)
Definition getitem {A} (xs : list A) (i : Z) : result A :=
  let n := Z.of_nat (length xs) in
  let j := if i <? 0 then i + n else i in
  if (0 <=? j) && (j <? n) then
    match nth_error xs (Z.to_nat j) with
    | Some x => Ok x
    | None => Raise IndexError
    end
  else Raise IndexError.

(** A [dict] with string keys, in insertion order. *)
Definition dict (V : Type) : Type := list (string * V).

Fixpoint dict_get {V} (d : dict V) (k : string) : option V :=
  match d with
  | [] => None
  | (k', v) :: d' => if String.eqb k' k then Some v else dict_get d' k
  end.

(** [d[k] = v]: an existing key keeps its place, a new one goes last. *)
Fixpoint dict_set {V} (d : dict V) (k : string) (v : V) : dict V :=
  match d with
  | [] => [(k, v)]
  | (k', v') :: d' =>
      if String.eqb k' k then (k, v) :: d' else (k', v') :: dict_set d' k v
  end.

(** [d[k]] *)
Definition dict_item {V} (d : dict V) (k : string) : result V :=
  match dict_get d k with
  | Some v => Ok v
  | None => Raise (KeyError k)
  end.

Definition keys {V} (d : dict V) : list string := map fst d.

(** ** What [obj.py] imports *)

(** Modelled from the spec: [graphics.Color] is not under src/. The parser
    calls it with one argument per field of a [Kd] line; the number of
    arguments the class accepts is not checked here. *)
Inductive Color : Type :=
| mkColor (channels : list Z).

(** Modelled from the spec: [graphics.Point] is not under src/. A point is
    an ordered pair or triple of numbers: the serializer unpacks it as
    [x, y, *z]. *)
Record PointOf (N : Type) : Type := mkPoint {
  px : N;
  py : N;
  pz : list N
}.
Arguments mkPoint {N} px py pz.

(** [float], the text of a float in an f-string, and the way the drawables
    of [graphics] enumerate their points. *)
Class Externals : Type := {
  (** the numbers held by a point *)
  number : Type;
  (** [float(s)] for a token [s] *)
  float : string -> result number;
  (** the text of [x] in an f-string *)
  format : number -> string;
  (** [int(x * 0xFF)] *)
  times_0xFF : number -> result Z;
  (** the points that [for p in drawable] yields for [Wireframe(ps)] and
      for [Polygon(ps)]; the tests unpack a polygon built from four points
      into five, so neither is taken to be the identity *)
  iter_Wireframe : list (PointOf number) -> list (PointOf number);
  iter_Polygon : list (PointOf number) -> list (PointOf number)
}.

Section Obj.
Context {E : Externals}.

Abbreviation Point := (PointOf number).

(** [Point(x, y)] *)
Definition Point2 (x y : number) : Point := mkPoint x y [].

(** Modelled from the spec: the drawables of [graphics], not under src/,
    as [obj.py] tells them apart with [isinstance]. [Polygon] is a subclass
    of [Wireframe]; [DOther] stands for any other drawable. *)
Inductive Drawable : Type :=
| DPoint (p : Point)
| DLine (a b : Point)
| DWireframe (ps : list Point)
| DPolygon (ps : list Point)
| DOther.

(** The value of an attribute or of a global directive. *)
Inductive value : Type :=
| VStr (s : string)
| VList (l : list string)
| VColor (c : Color).

(** Modelled from the spec: [utilities.iter_no_str] is not under src/. A
    string is yielded whole and any other iterable is flattened item by
    item; the items of a colour are integers, and adding [" "] to one is a
    [TypeError]. *)
Definition iter_no_str (v : value) : result (list string) :=
  match v with
  | VStr s => Ok [s]
  | VList l => Ok l
  | VColor _ => Raise TypeError
  end.

(** *** [_ObjDescriptor] *)

Inductive Kind : Type := point | line | wireframe | polygon.

Record _ObjDescriptor : Type := mkObj {
  kind : option Kind;
  vertex_indexes : list Z;
  attributes : dict value
}.

(** [x or []], [x or {}]: an argument left out is [None], and an empty
    one is replaced by a fresh empty one. *)
Definition or_empty {A} (x : option (list A)) : list A :=
  match x with
  | Some l => l
  | None => []
  end.

(** [_ObjDescriptor(name, kind, vertex_indexes, attributes)] *)
Definition new_ObjDescriptor (name : string) (kind : option Kind)
    (vertex_indexes : option (list Z)) (attributes : option (dict value))
  : _ObjDescriptor :=
  {| kind := kind;
     vertex_indexes := or_empty vertex_indexes;
     attributes := dict_set (or_empty attributes) "name" (VStr name) |}.

Definition set_kind (o : _ObjDescriptor) (k : Kind) : _ObjDescriptor :=
  {| kind := Some k; vertex_indexes := vertex_indexes o; attributes := attributes o |}.

Definition set_vertex_indexes (o : _ObjDescriptor) (l : list Z) : _ObjDescriptor :=
  {| kind := kind o; vertex_indexes := l; attributes := attributes o |}.

Definition set_attribute (o : _ObjDescriptor) (k : string) (v : value) : _ObjDescriptor :=
  {| kind := kind o; vertex_indexes := vertex_indexes o;
     attributes := dict_set (attributes o) k v |}.

(** *** Files *)

(** An open text file: its [name] and what it holds. *)
Record File : Type := mkFile {
  name : string;
  text : string
}.

(** The file system: the text of each path, and the directory that
    [path.dirname(path.abspath(name))] gives for a file name. *)
Record FileSystem : Type := mkFS {
  files : dict string;
  absdir : string -> string
}.

Definition in_ (s : string) (l : list string) : bool :=
  existsb (String.eqb s) l.

(** [builtins.open(path, mode)] for the modes of this module: a file read
    must exist, a file written is created empty. Returns the file and
    the file system after the call. *)
Definition builtins_open (fs : FileSystem) (path mode : string)
  : result (File * FileSystem) :=
  if in_ mode ["r"; "r+"] then
    match dict_get (files fs) path with
    | Some t => Ok (mkFile path t, fs)
    | None => Raise (FileNotFoundError path)
    end
  else if in_ mode ["w"; "w+"] then
    Ok (mkFile path "", mkFS (dict_set (files fs) path "") (absdir fs))
  else Raise (ValueError "invalid mode").

(** *** [_parse_objs] *)

Record parser : Type := mkParser {
  descriptors : list _ObjDescriptor;
  vertices : list (option Point);
  globals_ : dict value;
  materials : dict Color;
  current_obj : option _ObjDescriptor
}.

(** One line of a material library; [mtl] is the pending material name.
    The test [head == '#'] reads the head of the [mtllib] line of the
    primary file, as the source does. *)
Definition parse_mtl_line (head : string) (ln : string)
    (st : option string * dict Color) : result (option string * dict Color) :=
  let '(mtl, materials) := st in
  let words := split ln in
  match words with
  | [] => Ok st
  | w0 :: rest =>
      if String.eqb head "#" then Ok st
      else if String.eqb w0 "newmtl" then
        m <- getitem words 1 ;; Ok (Some m, materials)
      else if String.eqb w0 "Kd" then
        _ <- assert (match mtl with Some _ => true | None => false end) ;;
        channels <- map_result (fun x => f <- float x ;; times_0xFF f) rest ;;
        match mtl with
        | Some m => Ok (None, dict_set materials m (mkColor channels))
        | None => Raise AssertionError
        end
      else Ok st
  end.

(** The body of [for libname in body] in the [mtllib] branch. *)
Definition load_mtllib (fs : FileSystem) (dirname head : string) (body : list string)
    (libname : string) (st : dict value * dict Color)
  : result (dict value * dict Color) :=
  let '(globals_, materials) := st in
  let globals_ := dict_set globals_ "mtllib" (VList body) in
  let libpath := dirname +++ "/" +++ libname in
  '(lib, _) <- builtins_open fs libpath "r" ;;
  '(_, materials) <- for_each (lines (text lib)) (parse_mtl_line head) (None, materials) ;;
  Ok (globals_, materials).

Definition with_current (st : parser) (o : _ObjDescriptor) : parser :=
  mkParser (descriptors st) (vertices st) (globals_ st) (materials st) (Some o).

(** [current_obj], after [assert current_obj is not None]. *)
Definition the_current (st : parser) : result _ObjDescriptor :=
  match current_obj st with
  | Some o => Ok o
  | None => Raise AssertionError
  end.

(** [for v in body: current_obj.vertex_indexes.append(int(v))] *)
Definition append_indexes (o : _ObjDescriptor) (body : list string)
  : result _ObjDescriptor :=
  for_each body
    (fun v o => i <- int v ;; Ok (set_vertex_indexes o (vertex_indexes o ++ [i]))) o.

(** The body of [for line in file]. *)
Definition parse_line (fs : FileSystem) (file : File) (ln : string) (st : parser)
  : result parser :=
  match split ln with
  | [] => Ok st
  | head :: body =>
      if String.eqb head "#" then Ok st
      else if String.eqb head "mtllib" then
        let dirname := absdir fs (name file) in
        '(g, m) <- for_each body (load_mtllib fs dirname head body)
                            (globals_ st, materials st) ;;
        Ok (mkParser (descriptors st) (vertices st) g m (current_obj st))
      else if String.eqb head "v" then
        match body with
        | x :: y :: _ =>
            fx <- float x ;;
            fy <- float y ;;
            Ok (mkParser (descriptors st) (vertices st ++ [Some (Point2 fx fy)])
                         (globals_ st) (materials st) (current_obj st))
        | _ => Raise (ValueError "not enough values to unpack")
        end
      else if String.eqb head "o" then
        let descriptors :=
          match current_obj st with
          | Some o => match kind o with
                      | Some _ => descriptors st ++ [o]
                      | None => descriptors st
                      end
          | None => descriptors st
          end in
        n <- getitem body 0 ;;
        Ok (mkParser descriptors (vertices st) (globals_ st) (materials st)
                     (Some (new_ObjDescriptor n None None None)))
      else if String.eqb head "usemtl" then
        o <- the_current st ;;
        mtl <- getitem body 0 ;;
        let o := set_attribute o "usemtl" (VStr mtl) in
        color <- dict_item (materials st) mtl ;;
        Ok (with_current st (set_attribute o "color" (VColor color)))
      else if String.eqb head "p" then
        o <- the_current st ;;
        let o := set_kind o point in
        b0 <- getitem body 0 ;;
        i <- int b0 ;;
        Ok (with_current st (set_vertex_indexes o (vertex_indexes o ++ [i])))
      else if String.eqb head "l" then
        o <- the_current st ;;
        let o := set_kind o (if (2 <? Z.of_nat (length body)) then wireframe else line) in
        o <- append_indexes o body ;;
        Ok (with_current st o)
      else if String.eqb head "f" then
        o <- the_current st ;;
        let o := set_kind o polygon in
        o <- append_indexes o body ;;
        Ok (with_current st o)
      else Ok st
  end.

Definition parser_init (file : File) : parser :=
  mkParser [] [None] [] []
    (Some (new_ObjDescriptor (before_dot (basename (name file))) None None None)).

(** What the parser returns: at the end of the file the current object is
    closed too. *)
Definition parser_result (st : parser)
  : list _ObjDescriptor * list (option Point) * dict value :=
  let descriptors :=
    match current_obj st with
    | Some o => descriptors st ++ [o]
    | None => descriptors st
    end in
  (descriptors, vertices st, globals_ st).

Definition _parse_objs (fs : FileSystem) (file : File)
  : result (list _ObjDescriptor * list (option Point) * dict value) :=
  st <- for_each (lines (text file)) (parse_line fs file) (parser_init file) ;;
  Ok (parser_result st).

(** *** [_dump_objs] *)

(** What a run of [file.write] calls leaves behind: the text written, and
    the exception that stopped the run, if any. *)
Definition writes : Type := (string * result unit)%type.

Definition emit (s : string) : writes := (s, Ok tt).

Definition stop (e : exn) : writes := ("", Raise e).

Definition and_then (a b : writes) : writes :=
  match a with
  | (s, Ok _) => (s +++ fst b, snd b)
  | (s, Raise e) => (s, Raise e)
  end.

Infix ">>" := and_then (at level 62, right associativity) : py_scope.

Fixpoint emit_each {A} (f : A -> writes) (xs : list A) : writes :=
  match xs with
  | [] => emit ""
  | x :: xs' => f x >> emit_each f xs'
  end.

Definition nl : string := String "010" "".

(** [for x in iter_no_str(v): file.write(x + " ")] *)
Definition emit_values (v : value) : writes :=
  match iter_no_str v with
  | Ok l => emit_each (fun x => emit (x +++ " ")) l
  | Raise e => stop e
  end.

(** One [v] line; the slot of the table may hold [None], which does not
    unpack. *)
Definition dump_vertex (vertex : option Point) : writes :=
  match vertex with
  | None => stop TypeError
  | Some p =>
      let z := match pz p with
               | z0 :: _ => format z0
               | [] => "1.0"
               end in
      emit ("v " +++ format (px p) +++ " " +++ format (py p) +++ " " +++ z +++ " 1.0" +++ nl)
  end.

Definition dump_global (globals_ : dict value) (head : string) : writes :=
  emit (head +++ " ") >>
  match dict_item globals_ head with
  | Ok v => emit_values v
  | Raise e => stop e
  end >>
  emit nl.

(** The text of the name in [f"o {obj.attributes['name']}"]. A descriptor
    is only ever built with a string for a name ([new_ObjDescriptor]); the
    text Python prints for a list or a colour is not spelled out, the model
    stops there. *)
Definition dump_name (obj : _ObjDescriptor) : writes :=
  match dict_item (attributes obj) "name" with
  | Ok (VStr n) => emit ("o " +++ n +++ nl)
  | Ok _ => stop TypeError
  | Raise e => stop e
  end.

Definition dump_attribute (obj : _ObjDescriptor) (key : string) : writes :=
  if in_ key ["name"; "color"] then emit ""
  else
    emit (key +++ " ") >>
    match dict_item (attributes obj) key with
    | Ok v => emit_values v
    | Raise e => stop e
    end >>
    emit nl.

(** The geometry line, chosen by [obj.kind.lower()]. *)
Definition dump_geometry (obj : _ObjDescriptor) : writes :=
  match kind obj with
  | None => stop AttributeError
  | Some point =>
      match getitem (vertex_indexes obj) 0 with
      | Ok i => emit ("p " +++ str i +++ nl)
      | Raise e => stop e
      end
  | Some line =>
      match vertex_indexes obj with
      | [a; b] => emit ("l " +++ str a +++ " " +++ str b +++ nl)
      | _ => stop (ValueError "wrong number of values to unpack")
      end
  | Some wireframe =>
      emit (join " " ("l" :: map str (vertex_indexes obj))) >> emit nl
  | Some polygon =>
      emit (join " " ("f" :: map str (vertex_indexes obj))) >> emit nl
  end.

Definition dump_obj (obj : _ObjDescriptor) : writes :=
  dump_name obj >>
  emit_each (dump_attribute obj) (keys (attributes obj)) >>
  dump_geometry obj.

Definition _dump_objs (descriptors : list _ObjDescriptor)
    (vertices : list (option Point)) (globals_ : dict value) : writes :=
  emit_each dump_vertex (tl vertices) >>
  emit_each (dump_global globals_) (keys globals_) >>
  emit_each dump_obj descriptors.

(** *** [ObjFile] *)

Record ObjFile : Type := mkObjFile {
  file : File;
  mode : string;
  _descriptors : list _ObjDescriptor;
  _vertices : list (option Point);
  _globals : dict value
}.

(** [ObjFile(file, mode, **kwargs)] *)
Definition new_ObjFile (fs : FileSystem) (file : File) (mode : string)
    (kwargs : dict value) : result ObjFile :=
  if in_ mode ["r"; "r+"] then
    '(d, v, g) <- _parse_objs fs file ;;
    Ok (mkObjFile file mode d v g)
  else
    _ <- assert (in_ mode ["w"; "w+"]) ;;
    Ok (mkObjFile file mode [] [None] kwargs).

(** A copy of the point in a slot [v] of the vertex table, which unpacks
    [v]: the slot may hold [None]. *)
Definition Point_of (v : option Point) : result Point :=
  match v with
  | Some p => Ok p
  | None => Raise TypeError
  end.

Definition vertex (self : ObjFile) (i : Z) : result Point :=
  v <- getitem (_vertices self) i ;; Point_of v.

Definition _obj_to_drawable (self : ObjFile) (obj : _ObjDescriptor)
  : result (option Drawable * dict value) :=
  drawable <-
    match kind obj with
    | Some point =>
        i <- getitem (vertex_indexes obj) 0 ;;
        p <- vertex self i ;;
        Ok (Some (DPoint p))
    | Some line =>
        i <- getitem (vertex_indexes obj) 0 ;;
        a <- getitem (_vertices self) i ;;
        j <- getitem (vertex_indexes obj) 1 ;;
        b <- getitem (_vertices self) j ;;
        a <- Point_of a ;;
        b <- Point_of b ;;
        Ok (Some (DLine a b))
    | Some wireframe =>
        points <- map_result (vertex self) (vertex_indexes obj) ;;
        Ok (Some (DWireframe points))
    | Some polygon =>
        points <- map_result (vertex self) (vertex_indexes obj) ;;
        Ok (Some (DPolygon points))
    | None => Ok None
    end ;;
  Ok (drawable, attributes obj).

(** [__iter__], run to its end. *)
Definition iterate (self : ObjFile) : result (list (option Drawable * dict value)) :=
  map_result (_obj_to_drawable self) (_descriptors self).

Definition read (self : ObjFile) : result (list (option Drawable * dict value)) :=
  _ <- assert (in_ (mode self) ["r"; "r+"]) ;;
  iterate self.

(** [for p in drawable]: append a copy of [p] to the vertex table, then
    [obj.vertex_indexes.append(len(self._vertices) - 1)]. *)
Fixpoint register (ps : list Point) (vertices : list (option Point)) (indexes : list Z)
  : list (option Point) * list Z :=
  match ps with
  | [] => (vertices, indexes)
  | p :: ps' =>
      let vertices := vertices ++ [Some p] in
      register ps' vertices (indexes ++ [Z.of_nat (length vertices) - 1])
  end.

(** Returns the descriptor and the vertex table of the session after the
    call. *)
Definition _drawable_to_obj (self : ObjFile) (drawable : Drawable) (name : string)
    (kwargs : dict value) : _ObjDescriptor * list (option Point) :=
  let obj := new_ObjDescriptor name None None (Some kwargs) in
  match drawable with
  | DPoint p =>
      let obj := set_kind obj point in
      let vertices := _vertices self ++ [Some p] in
      (set_vertex_indexes obj [Z.of_nat (length vertices) - 1], vertices)
  | DLine a b =>
      let obj := set_kind obj line in
      let vertices := _vertices self ++ [Some a; Some b] in
      let n := Z.of_nat (length vertices) - 1 in
      (set_vertex_indexes obj [n - 1; n], vertices)
  | DWireframe ps =>
      let obj := set_kind obj wireframe in
      let '(vertices, indexes) :=
        register (iter_Wireframe ps) (_vertices self) (vertex_indexes obj) in
      (set_vertex_indexes obj indexes, vertices)
  | DPolygon ps =>
      let obj := set_kind obj polygon in
      let '(vertices, indexes) :=
        register (iter_Polygon ps) (_vertices self) (vertex_indexes obj) in
      (set_vertex_indexes obj indexes, vertices)
  | DOther => (obj, _vertices self)
  end.

Definition write (self : ObjFile) (drawable : Drawable) (name : string)
    (kwargs : dict value) : result ObjFile :=
  _ <- assert (in_ (mode self) ["w"; "w+"; "r+"]) ;;
  let '(obj, vertices) := _drawable_to_obj self drawable name kwargs in
  Ok (mkObjFile (file self) (mode self) (_descriptors self ++ [obj]) vertices
                (_globals self)).

(** [close()]: the file as it is left, and the exception raised while
    serializing, if any. A file opened for reading has been read to its
    end, so what is written comes after what it held. *)
Definition close (self : ObjFile) : File * result unit :=
  if in_ (mode self) ["w"; "w+"; "r+"] && (0 <? Z.of_nat (length (_descriptors self))) then
    let '(out, r) := _dump_objs (_descriptors self) (_vertices self) (_globals self) in
    (mkFile (name (file self)) (text (file self) +++ out), r)
  else (file self, Ok tt).

(** *** [open] *)

Definition invalid_mode : exn :=
  ValueError "File mode should be one of 'r', 'r+', 'w' or 'w+'".

(** The tuple of the test reads [('r', 'r+' 'w', 'w+')]: Python joins the
    two adjacent literals into ['r+w']. Returns the session, if any, and the
    file system after the call. *)
Definition open (fs : FileSystem) (path : string) (mode : string) (kwargs : dict value)
  : result ObjFile * FileSystem :=
  if negb (in_ (lower mode) ["r"; "r+" +++ "w"; "w+"]) then
    (Raise invalid_mode, fs)
  else
    match builtins_open fs path mode with
    | Ok (f, fs') => (new_ObjFile fs' f mode kwargs, fs')
    | Raise e => (Raise e, fs)
    end.

(** ** Vocabulary of the properties *)

(** The accumulator after a geometry directive: the kind is set and the
    indices of the line are added to those already there. *)
Definition with_geometry (o : _ObjDescriptor) (k : Kind) (ixs : list Z)
  : _ObjDescriptor :=
  set_vertex_indexes (set_kind o k) (vertex_indexes o ++ ixs).

(** The list of descriptors after an [o] line: the current object joins
    it when its kind is set. *)
Definition closed_by_o (st : parser) : list _ObjDescriptor :=
  match current_obj st with
  | Some o => match kind o with
              | Some _ => descriptors st ++ [o]
              | None => descriptors st
              end
  | None => descriptors st
  end.

Definition ok {A} (r : result A) : bool :=
  match r with
  | Ok _ => true
  | Raise _ => false
  end.

(** A blank line, a [v] line or a geometry line. *)
Definition geometry_only (ln : string) : bool :=
  match split ln with
  | [] => true
  | head :: _ => in_ head ["v"; "p"; "l"; "f"]
  end.

(** A line that the parser accepts without looking at the file system or
    at the material table: the numbers of a [v] line are floats, the
    indices of a geometry line are integers of any value, an [o] line has
    a name; any line that is not a directive is accepted too. *)
Definition well_formed (ln : string) : bool :=
  match split ln with
  | [] => true
  | head :: body =>
      if String.eqb head "v" then
        match body with
        | x :: y :: _ => ok (float x) && ok (float y)
        | _ => false
        end
      else if String.eqb head "o" then
        match body with
        | _ :: _ => true
        | [] => false
        end
      else if String.eqb head "p" then
        match body with
        | b0 :: _ => ok (int b0)
        | [] => false
        end
      else if in_ head ["l"; "f"] then forallb (fun v => ok (int v)) body
      else negb (in_ head ["mtllib"; "usemtl"])
  end.

(** The indices that [_obj_to_drawable] looks up, in the order in which it
    does: the first for a point, the first two for a line, all of them for
    a wireframe or a polygon. *)
Definition used_indexes (obj : _ObjDescriptor) : list Z :=
  match kind obj with
  | Some point => firstn 1 (vertex_indexes obj)
  | Some line => firstn 2 (vertex_indexes obj)
  | Some _ => vertex_indexes obj
  | None => []
  end.

(** [write], once for each item of a list. *)
Definition write_all (self : ObjFile) (items : list (Drawable * string * dict value))
  : result ObjFile :=
  for_each items (fun '(drawable, name, kwargs) s => write s drawable name kwargs) self.

(** Every index of a descriptor points at a vertex of the table, past the
    placeholder of slot 0. *)
Definition indexes_within (vs : list (option Point)) (o : _ObjDescriptor) : Prop :=
  Forall (fun i => 1 <= i < Z.of_nat (length vs)) (vertex_indexes o).

Definition indexed (self : ObjFile) : Prop :=
  Forall (indexes_within (_vertices self)) (_descriptors self).

(** An index that Python cannot look up in a list: past its end, or below
    minus its length. *)
Definition out_of_table {A} (vs : list A) (i : Z) : bool :=
  (Z.of_nat (length vs) <=? i) || (i <? - Z.of_nat (length vs)).

(** *** The round trip *)

(** Write the items to a new file opened with the keyword arguments
    [kwargs], the globals of the session; close it, open the file again
    and read it. *)
Definition round_trip (fs : FileSystem) (path : string) (kwargs : dict value)
    (items : list (Drawable * string * dict value))
  : result (list (option Drawable * dict value)) :=
  w <- new_ObjFile fs (mkFile path "") "w" kwargs ;;
  w <- write_all w items ;;
  let '(written, raised) := close w in
  _ <- raised ;;
  r <- new_ObjFile fs written "r" [] ;;
  read r.

(** The point that comes back: its first two numbers. *)
Definition flat (p : Point) : Point := Point2 (px p) (py p).

(** The points that a drawable registers in the vertex table. *)
Definition points_of (d : Drawable) : list Point :=
  match d with
  | DPoint p => [p]
  | DLine a b => [a; b]
  | DWireframe ps => iter_Wireframe ps
  | DPolygon ps => iter_Polygon ps
  | DOther => []
  end.

Definition kind_of (d : Drawable) : option Kind :=
  match d with
  | DPoint _ => Some point
  | DLine _ _ => Some line
  | DWireframe _ => Some wireframe
  | DPolygon _ => Some polygon
  | DOther => None
  end.

(** The drawable that comes back for a drawable written. *)
Definition read_back (d : Drawable) : option Drawable :=
  match d with
  | DPoint p => Some (DPoint (flat p))
  | DLine a b => Some (DLine (flat a) (flat b))
  | DWireframe ps => Some (DWireframe (map flat (iter_Wireframe ps)))
  | DPolygon ps => Some (DPolygon (map flat (iter_Polygon ps)))
  | DOther => None
  end.

(** A value that is written on the line of its key. *)
Definition inert_value (v : value) : bool :=
  match v with
  | VStr s => one_line s
  | VList l => forallb one_line l
  | VColor _ => false
  end.

(** An attribute that the serializer skips, or writes as a line that the
    parser takes for none of its directives. *)
Definition inert_attribute (kv : string * value) : bool :=
  let '(k, v) := kv in
  String.eqb k "color" ||
  (is_token k && negb (in_ k ["name"; "mtllib"; "v"; "o"; "usemtl"; "p"; "l"; "f"])
   && inert_value v).

(** The keys of a descriptor that the serializer writes have a value that
    fits on their line. *)
Definition printable (attrs : dict value) : Prop :=
  Forall (fun key => in_ key ["name"; "color"] = true \/
                     exists v, dict_get attrs key = Some v /\ inert_value v = true)
         (keys attrs).

(** What can be written and read back: a point, a line, a wireframe that
    enumerates more than two points or a polygon, under a name that is one
    token, with attributes that are inert. *)
Definition writable (item : Drawable * string * dict value) : bool :=
  let '(drawable, name, kwargs) := item in
  is_token name && forallb inert_attribute kwargs &&
  match drawable with
  | DWireframe ps => 2 <? Z.of_nat (length (iter_Wireframe ps))
  | DOther => false
  | _ => true
  end.

(** What [read] gives for an item written. *)
Definition item_read_back (item : Drawable * string * dict value)
  : option Drawable * dict value :=
  let '(drawable, name, _) := item in
  (read_back drawable, [("name", VStr name)]).

(** *** The layout of a written session and of its text *)

(** The indices [off], [off + 1], ... of [n] consecutive slots. *)
Definition slots (off n : nat) : list Z := map Z.of_nat (seq off n).

(** The descriptor of an item whose points start at slot [off]. *)
Definition descriptor_at (off : nat) (item : Drawable * string * dict value)
  : _ObjDescriptor :=
  let '(drawable, name, kwargs) := item in
  mkObj (kind_of drawable) (slots off (length (points_of drawable)))
        (dict_set kwargs "name" (VStr name)).

Fixpoint descriptors_from (off : nat) (items : list (Drawable * string * dict value))
  : list _ObjDescriptor :=
  match items with
  | [] => []
  | item :: items' =>
      descriptor_at off item
      :: descriptors_from (off + length (points_of (fst (fst item)))) items'
  end.

Definition all_points (items : list (Drawable * string * dict value)) : list Point :=
  flat_map (fun item => points_of (fst (fst item))) items.

(** Lines, each with its terminator. *)
Fixpoint unlines (ls : list string) : string :=
  match ls with
  | [] => ""
  | l :: ls' => l +++ nl +++ unlines ls'
  end.

Definition vertex_line (p : Point) : string :=
  "v " +++ format (px p) +++ " " +++ format (py p) +++ " " +++
  match pz p with
  | z0 :: _ => format z0
  | [] => "1.0"
  end +++ " 1.0".

Fixpoint spaced (xs : list string) : string :=
  match xs with
  | [] => ""
  | x :: xs' => (x +++ " ") +++ spaced xs'
  end.

Definition attribute_lines (attrs : dict value) (key : string) : list string :=
  if in_ key ["name"; "color"] then []
  else match dict_get attrs key with
       | Some (VStr s) => [(key +++ " ") +++ spaced [s]]
       | Some (VList l) => [(key +++ " ") +++ spaced l]
       | _ => []
       end.

Definition geometry_line (k : Kind) (ixs : list Z) : string :=
  match k, ixs with
  | point, i :: _ => "p " +++ str i
  | line, [a; b] => "l " +++ str a +++ " " +++ str b
  | wireframe, _ => join " " ("l" :: map str ixs)
  | polygon, _ => join " " ("f" :: map str ixs)
  | _, _ => ""
  end.

Definition object_lines (name : string) (obj : _ObjDescriptor) : list string :=
  ("o " +++ name)
  :: flat_map (attribute_lines (attributes obj)) (keys (attributes obj))
  ++ match kind obj with
     | Some k => [geometry_line k (vertex_indexes obj)]
     | None => []
     end.

(** The lines of the descriptors of the items, the points of the first
    one starting at slot [off]. *)
Fixpoint object_lines_from (off : nat) (items : list (Drawable * string * dict value))
  : list string :=
  match items with
  | [] => []
  | item :: items' =>
      object_lines (snd (fst item)) (descriptor_at off item)
      ++ object_lines_from (off + length (points_of (fst (fst item)))) items'
  end.

(** The descriptor that the parser rebuilds for an item: its kind, its
    indices and its name. *)
Definition parsed_at (off : nat) (item : Drawable * string * dict value)
  : _ObjDescriptor :=
  let '(drawable, name, _) := item in
  mkObj (kind_of drawable) (slots off (length (points_of drawable)))
        [("name", VStr name)].

Fixpoint parsed_from (off : nat) (items : list (Drawable * string * dict value))
  : list _ObjDescriptor :=
  match items with
  | [] => []
  | item :: items' =>
      parsed_at off item
      :: parsed_from (off + length (points_of (fst (fst item)))) items'
  end.

(** ** Vocabulary of further properties *)

(** A line whose first word is [v]. *)
Definition is_v (ln : string) : bool :=
  match split ln with
  | head :: _ => String.eqb head "v"
  | [] => false
  end.

(** A line that the parser passes over: blank, or with a first word that
    is none of the directives that change its state (a comment is one). *)
Definition ignored (ln : string) : bool :=
  match split ln with
  | [] => true
  | head :: _ => negb (in_ head ["mtllib"; "v"; "o"; "usemtl"; "p"; "l"; "f"])
  end.

(** The two shapes of the attributes of a descriptor that the parser
    builds: a name, or a name, a material and its colour. *)
Definition parsed_keys (o : _ObjDescriptor) : Prop :=
  (exists n, attributes o = [("name", VStr n)]) \/
  (exists n m c, attributes o
                 = [("name", VStr n); ("usemtl", VStr m); ("color", VColor c)]).

(** [int(float(x) * 0xFF)] *)
Definition channel (x : string) : result Z :=
  f <- float x ;; times_0xFF f.

(** A material of a library: its name, the fields of its [Kd] line and
    the channels they stand for. *)
Definition material : Type := (string * list string * list Z)%type.

Definition material_lines (m : material) : list string :=
  let '(n, cs, _) := m in ["newmtl " +++ n; join " " ("Kd" :: cs)].

Definition define_material (table : dict Color) (m : material) : dict Color :=
  let '(n, _, zs) := m in dict_set table n (mkColor zs).

Definition well_defined (m : material) : Prop :=
  let '(n, cs, zs) := m in
  is_token n = true /\ forallb is_token cs = true /\ map_result channel cs = Ok zs.

(** A descriptor with as many indices as the geometry line of its kind
    carries: one for a point, two for a line, more than two for a
    wireframe. *)
Definition canonical (obj : _ObjDescriptor) : bool :=
  match kind obj, vertex_indexes obj with
  | Some point, [_] => true
  | Some line, [_; _] => true
  | Some wireframe, _ :: _ :: _ :: _ => true
  | Some polygon, _ => true
  | _, _ => false
  end.

(** The drawable that a descriptor built by [write] translates to: the
    original, built again from the points it enumerates. *)
Definition rebuilt (d : Drawable) : option Drawable :=
  match d with
  | DPoint p => Some (DPoint p)
  | DLine a b => Some (DLine a b)
  | DWireframe ps => Some (DWireframe (iter_Wireframe ps))
  | DPolygon ps => Some (DPolygon (iter_Polygon ps))
  | DOther => None
  end.

(** Globals that are empty, or hold the libraries of a [mtllib] line and
    nothing else. *)
Definition only_mtllib (g : dict value) : Prop :=
  g = [] \/ exists body, g = [("mtllib", VList body)].

(** Write the items to a new file and close it: the file that is left. *)
Definition write_file (fs : FileSystem) (path : string)
    (items : list (Drawable * string * dict value)) : result File :=
  w <- new_ObjFile fs (mkFile path "") "w" [] ;;
  w <- write_all w items ;;
  let '(written, raised) := close w in
  _ <- raised ;;
  Ok written.

(** Open a file in mode ['r+'] and close it at once: the file that is
    left. *)
Definition reopen_and_close (fs : FileSystem) (file : File) : result File :=
  s <- new_ObjFile fs file "r+" [] ;;
  let '(written, raised) := close s in
  _ <- raised ;;
  Ok written.

(** Open a file in mode ['r'] and read it. *)
Definition read_file (fs : FileSystem) (file : File)
  : result (list (option Drawable * dict value)) :=
  r <- new_ObjFile fs file "r" [] ;;
  read r.

(** The lines that the serializer writes for the descriptors that the
    parser rebuilt for the items. *)
Fixpoint reparsed_lines_from (off : nat) (items : list (Drawable * string * dict value))
  : list string :=
  match items with
  | [] => []
  | item :: items' =>
      object_lines (snd (fst item)) (parsed_at off item)
      ++ reparsed_lines_from (off + length (points_of (fst (fst item)))) items'
  end.

(** ** Vocabulary of the round trip with materials *)

(** A global that the serializer writes as a line that the parser passes
    over: its key is one word and none of the directives, its value a
    string or a list of strings without line breaks. *)
Definition inert_global (kv : string * value) : bool :=
  let '(k, v) := kv in
  is_token k && negb (in_ k ["mtllib"; "v"; "o"; "usemtl"; "p"; "l"; "f"])
  && inert_value v.

(** The libraries of a written session and the materials they define:
    no [mtllib] among the globals and no material, or one [mtllib] whose
    value enumerates the names [libs], each one word, of libraries that
    the [mtllib] branch of the parser loads one after the other, from
    the directory [dir] and an empty table, into [table]. *)
Inductive loadable (fs : FileSystem) (dir : string) : dict value -> dict Color -> Prop :=
| no_library : loadable fs dir [] []
| libraries (v : value) (libs : list string) (g : dict value) (table : dict Color) :
    iter_no_str v = Ok libs ->
    forallb is_token libs = true ->
    for_each libs (load_mtllib fs dir "mtllib" libs) ([], []) = Ok (g, table) ->
    loadable fs dir [("mtllib", v)] table.

(** An attribute [usemtl] whose value is the name, one word, of a
    material of the table. *)
Definition resolvable (table : dict Color) (kv : string * value) : bool :=
  let '(k, v) := kv in
  String.eqb k "usemtl" &&
  match v with
  | VStr m => is_token m && match dict_get table m with
                            | Some _ => true
                            | None => false
                            end
  | _ => false
  end.

(** What can be written and read back when the materials of [table] are
    loaded: as [writable], with attributes that are inert or a resolvable
    [usemtl]. *)
Definition restorable (table : dict Color) (item : Drawable * string * dict value)
  : bool :=
  let '(drawable, name, kwargs) := item in
  is_token name &&
  forallb (fun kv => inert_attribute kv || resolvable table kv) kwargs &&
  match drawable with
  | DWireframe ps => 2 <? Z.of_nat (length (iter_Wireframe ps))
  | DOther => false
  | _ => true
  end.

(** The attributes that come back: the name and, for an item written
    with [usemtl], the material and the colour that the table has for
    it. *)
Definition attributes_restored (table : dict Color) (name : string)
    (kwargs : dict value) : dict value :=
  match dict_get kwargs "usemtl" with
  | Some (VStr m) =>
      match dict_get table m with
      | Some c => [("name", VStr name); ("usemtl", VStr m); ("color", VColor c)]
      | None => [("name", VStr name)]
      end
  | _ => [("name", VStr name)]
  end.

(** What [read] gives for an item written, with the materials of
    [table]. *)
Definition restored (table : dict Color) (item : Drawable * string * dict value)
  : option Drawable * dict value :=
  let '(drawable, name, kwargs) := item in
  (read_back drawable, attributes_restored table name kwargs).

(** The descriptor that the parser rebuilds for an item, with the
    materials of [table]. *)
Definition restored_at (table : dict Color) (off : nat)
    (item : Drawable * string * dict value) : _ObjDescriptor :=
  let '(drawable, name, kwargs) := item in
  mkObj (kind_of drawable) (slots off (length (points_of drawable)))
        (attributes_restored table name kwargs).

Fixpoint restored_from (table : dict Color) (off : nat)
    (items : list (Drawable * string * dict value)) : list _ObjDescriptor :=
  match items with
  | [] => []
  | item :: items' =>
      restored_at table off item
      :: restored_from table (off + length (points_of (fst (fst item)))) items'
  end.

(** The line of a global of a session, and the lines of all of them. *)
Definition global_line (g : dict value) (key : string) : list string :=
  match dict_get g key with
  | Some v => match iter_no_str v with
              | Ok l => [(key +++ " ") +++ spaced l]
              | Raise _ => []
              end
  | None => []
  end.

Definition global_lines (g : dict value) : list string :=
  flat_map (global_line g) (keys g).

End Obj.

Infix ">>" := and_then (at level 62, right associativity) : py_scope.

(** ** A reference instance of the externals

    Numbers are exact decimals [mantissa / 10 ^ places], read from and
    printed as plain decimal literals (no exponent, no infinity); a polygon
    enumerates its points and then its first point again, as the tests of
    the repository observe, a wireframe just its points. The instance makes
    the model run on concrete files. *)

Record decimal : Type := mkDecimal {
  mantissa : Z;
  places : nat
}.

Fixpoint scan_digits (acc : Z) (count : nat) (s : string) : Z * nat * string :=
  match s with
  | EmptyString => (acc, count, s)
  | String c s' =>
      match digit_of c with
      | Some d => scan_digits (10 * acc + d) (S count) s'
      | None => (acc, count, s)
      end
  end.

(** The digits of a literal, after its sign: a whole part, then possibly
    a dot and a fraction, with a digit somewhere. *)
Definition decimal_body (neg : bool) (body : string) : result decimal :=
  let '(w, n, rest) := scan_digits 0 0 body in
  let '(m, k, rest') :=
    match rest with
    | String "." r => scan_digits w 0 r
    | _ => (w, 0%nat, rest)
    end in
  if String.eqb rest' "" && (0 <? n + k)%nat then
    Ok (mkDecimal (if neg then - m else m) k)
  else Raise (ValueError "could not convert string to float").

Definition decimal_of_string (s : string) : result decimal :=
  match s with
  | String "-" s' => decimal_body true s'
  | String "+" s' => decimal_body false s'
  | _ => decimal_body false s
  end.

Fixpoint frac_digits (k : nat) (f : Z) (acc : string) : string :=
  match k with
  | O => acc
  | S k' => frac_digits k' (f / 10) (String (digit_char (f mod 10)) acc)
  end.

Definition string_of_decimal (d : decimal) : string :=
  let m := Z.abs (mantissa d) in
  let p := 10 ^ Z.of_nat (places d) in
  (if mantissa d <? 0 then "-" else "") +++ str (m / p) +++
  match places d with
  | O => ""
  | S _ => "." +++ frac_digits (places d) (m mod p) ""
  end.

Definition closing {A} (ps : list A) : list A :=
  match ps with
  | [] => []
  | p :: _ => ps ++ [p]
  end.

#[export] Instance decimal_externals : Externals := {|
  number := decimal;
  float := decimal_of_string;
  format := string_of_decimal;
  times_0xFF := fun d => Ok (Z.quot (mantissa d * 255) (10 ^ Z.of_nat (places d)));
  iter_Wireframe := fun ps => ps;
  iter_Polygon := fun ps => closing ps
|}.

(** ** Sample scenes *)

Definition at_ (x y : Z) : PointOf decimal :=
  mkPoint (mkDecimal x 0) (mkDecimal y 0) [].

Definition red : Color := mkColor [255; 0; 0].

(** A directory [/scenes] with a material library. *)
Definition scenes : FileSystem :=
  mkFS [("/scenes/lib.mtl", "newmtl red" +++ nl +++ "Kd 1.0 0.0 0.0" +++ nl)]
       (fun _ => "/scenes").

(** Three vertices and a wireframe, without an [o] line. *)
Definition triangle : File :=
  mkFile "/scenes/triangle.v2.obj"
    ("v 0 0" +++ nl +++ "v 1 0" +++ nl +++ "v 1 1" +++ nl +++ "l 1 2 3" +++ nl).

(** A point at an index that the empty vertex table does not have. *)
Definition far_index : File := mkFile "/scenes/far.obj" ("p 7" +++ nl).

(** A point with a second index, beyond the vertex table, that the
    translation never looks up. *)
Definition spare_index : File :=
  mkFile "/scenes/spare.obj" ("v 1 2" +++ nl +++ "p 1" +++ nl +++ "p 2" +++ nl).

(** A point at index 0, the placeholder slot. *)
Definition slot_zero : File :=
  mkFile "/scenes/zero.obj" ("v 1 2" +++ nl +++ "p 0" +++ nl).

(** An object that takes a material and no geometry, then another
    object. *)
Definition dropped_material : File :=
  mkFile "/scenes/dropped.obj"
    ("mtllib lib.mtl" +++ nl +++ "v 1 2" +++ nl +++ "o a" +++ nl +++
     "usemtl red" +++ nl +++ "o b" +++ nl +++ "p 1" +++ nl).

(** An object that takes a material and a point. *)
Definition red_point : File :=
  mkFile "/scenes/red.obj"
    ("mtllib lib.mtl" +++ nl +++ "v 1 2" +++ nl +++ "o a" +++ nl +++
     "usemtl red" +++ nl +++ "p 1" +++ nl).

(** The state of the parser with a current object that has a material and
    no kind. *)
Definition pending_material : parser :=
  mkParser [] [None] [] [("red", red)]
    (Some (set_attribute
             (set_attribute (new_ObjDescriptor "a" None None None) "usemtl" (VStr "red"))
             "color" (VColor red))).

(** One point written with an attribute. *)
Definition tagged_point : list (Drawable * string * dict value) :=
  [(DPoint (at_ 1 2), "a", [("layer", VStr "x")])].

(** One drawable of each variant. *)
Definition gallery : list (Drawable * string * dict value) :=
  [(DPoint (mkPoint (mkDecimal 15 1) (mkDecimal (-25) 2) [mkDecimal 7 0]), "dot",
    [("layer", VStr "top"); ("tags", VList ["a"; "b"])]);
   (DLine (at_ 0 0) (at_ 3 4), "edge", []);
   (DWireframe [at_ 0 0; at_ 1 0; at_ 1 1], "path", [("color", VColor red)]);
   (DPolygon [at_ 0 0; at_ 2 0; at_ 2 2], "face", [])].

(** The file [red_point] with a comment, a blank line and a directive
    that the parser does not know. *)
Definition red_point_commented : File :=
  mkFile "/scenes/red.obj"
    ("# a red point" +++ nl +++ "mtllib lib.mtl" +++ nl +++ nl +++ "v 1 2" +++ nl +++
     "o a" +++ nl +++ "s off" +++ nl +++ "usemtl red" +++ nl +++ "p 1" +++ nl).

(** What [red_point] parses into. *)
Definition red_point_result
  : list _ObjDescriptor * list (option (PointOf decimal)) * dict value :=
  ([mkObj (Some point) [1]
      [("name", VStr "a"); ("usemtl", VStr "red"); ("color", VColor red)]],
   [None; Some (at_ 1 2)],
   [("mtllib", VList ["lib.mtl"])]).

(** The material of the library of [scenes]. *)
Definition red_material : material := ("red", ["1.0"; "0.0"; "0.0"], [255; 0; 0]).

(** A point, a line and a polygon. *)
Definition dot : Drawable := DPoint (at_ 1 2).

Definition edge : Drawable := DLine (at_ 0 0) (at_ 3 4).

Definition face : Drawable := DPolygon [at_ 0 0; at_ 2 0; at_ 2 2].

(** A session opened for writing, with nothing written. *)
Definition blank_session : ObjFile :=
  mkObjFile (mkFile "/scenes/out.obj" "") "w" [] [None] [].

(** A session read from [red_point], in mode ['r+']. *)
Definition red_session : ObjFile :=
  mkObjFile red_point "r+"
    [mkObj (Some point) [1]
       [("name", VStr "a"); ("usemtl", VStr "red"); ("color", VColor red)]]
    [None; Some (at_ 1 2)]
    [("mtllib", VList ["lib.mtl"])].

(** What is read from [red_session]. *)
Definition red_pairs : list (option Drawable * dict value) :=
  [(Some dot, [("name", VStr "a"); ("usemtl", VStr "red"); ("color", VColor red)])].

(** Globals with the library of [scenes] among two directives that the
    parser does not know. *)
Definition painted_globals : dict value :=
  [("s", VStr "off")] ++ [("mtllib", VList ["lib.mtl"])] ++ [("g", VList ["a"; "b"])].

(** One drawable of each variant; the point and the polygon take the
    material [red], the polygon with a colour of its own. *)
Definition painted_gallery : list (Drawable * string * dict value) :=
  [(DPoint (mkPoint (mkDecimal 15 1) (mkDecimal (-25) 2) [mkDecimal 7 0]), "dot",
    [("layer", VStr "top"); ("usemtl", VStr "red"); ("tags", VList ["a"; "b"])]);
   (DLine (at_ 0 0) (at_ 3 4), "edge", []);
   (DWireframe [at_ 0 0; at_ 1 0; at_ 1 1], "path", [("color", VColor red)]);
   (DPolygon [at_ 0 0; at_ 2 0; at_ 2 2], "face",
    [("color", VColor (mkColor [0; 0; 255])); ("usemtl", VStr "red")])].

(** What is read back from [painted_gallery]. *)
Definition painted_pairs : list (option Drawable * dict value) :=
  [(Some (DPoint (mkPoint (mkDecimal 15 1) (mkDecimal (-25) 2) [])),
    [("name", VStr "dot"); ("usemtl", VStr "red"); ("color", VColor red)]);
   (Some (DLine (at_ 0 0) (at_ 3 4)), [("name", VStr "edge")]);
   (Some (DWireframe [at_ 0 0; at_ 1 0; at_ 1 1]), [("name", VStr "path")]);
   (Some (DPolygon [at_ 0 0; at_ 2 0; at_ 2 2; at_ 0 0]),
    [("name", VStr "face"); ("usemtl", VStr "red"); ("color", VColor red)])].

(** * Properties *)

Example split_ex : split "  v 1.0   2.5 " = ["v"; "1.0"; "2.5"].
Proof. reflexivity. Qed.

Example lines_ex : lines ("o a" +++ nl +++ "p 1" +++ nl) = ["o a"; "p 1"].
Proof. reflexivity. Qed.

Example basename_ex : before_dot (basename "/tmp/scenes/cube.v2.obj") = "cube".
Proof. reflexivity. Qed.

Example int_ex : int "-1_000" = Ok (-1000) /\ int "12" = Ok 12 /\ int "1__0" = Raise (ValueError "invalid literal for int() with base 10").
Proof. repeat split. Qed.

Example str_ex : str 1203 = "1203" /\ str (-7) = "-7" /\ str 0 = "0".
Proof. repeat split. Qed.

Example decimal_ex :
  decimal_of_string "-12.50" = Ok (mkDecimal (-1250) 2) /\
  string_of_decimal (mkDecimal (-1250) 2) = "-12.50" /\
  string_of_decimal (mkDecimal 5 3) = "0.005" /\
  string_of_decimal (mkDecimal 10 1) = "1.0".
Proof. repeat split. Qed.

(** ** Strings: splitting what was joined *)

Lemma append_assoc (a b c : string) : (a +++ b) +++ c = a +++ b +++ c.
Proof. induction a as [|x a IH]; simpl; [reflexivity | now rewrite IH]. Qed.

Lemma append_nil_r (a : string) : a +++ "" = a.
Proof. induction a as [|x a IH]; simpl; [reflexivity | now rewrite IH]. Qed.

Lemma is_token_cons (c : ascii) (s : string) :
  is_token (String c s) = true ->
  is_space c = false /\ (s = "" \/ is_token s = true).
Proof.
  unfold is_token, plain. simpl. intros H.
  apply andb_prop in H as [Hc Hs]. split.
  - now apply negb_true_iff.
  - destruct s as [|c' s']; [now left | right; exact Hs].
Qed.

Lemma split_space (c : ascii) (s : string) :
  is_space c = true -> split (String c s) = split s.
Proof. intros H. cbn [split]. now rewrite H. Qed.

(** A token followed by a space is the first word of the line. *)
Lemma split_token_then (t : string) (c : ascii) (r : string) :
  is_token t = true -> is_space c = true ->
  split (t +++ String c r) = t :: split r.
Proof.
  intros Ht Hc. induction t as [|x t IH]; [discriminate|].
  apply is_token_cons in Ht as [Hx [-> | Ht]].
  - cbn [split append]. now rewrite Hx, Hc.
  - specialize (IH Ht). destruct t as [|y t]; [discriminate|].
    apply is_token_cons in Ht as [Hy _].
    cbn [append] in *.
    change (split (String x (String y (t +++ String c r))))
      with (if is_space x then split (String y (t +++ String c r))
            else if is_space y then String x "" :: split (String y (t +++ String c r))
            else match split (String y (t +++ String c r)) with
                 | w :: ws => String x w :: ws
                 | [] => [String x ""]
                 end).
    now rewrite Hx, Hy, IH.
Qed.

Lemma split_token (t : string) : is_token t = true -> split t = [t].
Proof.
  intros Ht. induction t as [|x t IH]; [discriminate|].
  apply is_token_cons in Ht as [Hx [-> | Ht]].
  - cbn [split]. now rewrite Hx.
  - specialize (IH Ht). destruct t as [|y t]; [discriminate|].
    apply is_token_cons in Ht as [Hy _].
    change (split (String x (String y t)))
      with (if is_space x then split (String y t)
            else if is_space y then String x "" :: split (String y t)
            else match split (String y t) with
                 | w :: ws => String x w :: ws
                 | [] => [String x ""]
                 end).
    now rewrite Hx, Hy, IH.
Qed.

Lemma split_token_space (t r : string) :
  is_token t = true -> split (t +++ " " +++ r) = t :: split r.
Proof. intros Ht. now apply split_token_then. Qed.

(** Tokens joined by single spaces split back into themselves. *)
Lemma split_join (ts : list string) :
  forallb is_token ts = true -> split (join " " ts) = ts.
Proof.
  induction ts as [|t ts IH]; [reflexivity|].
  simpl forallb. intros H. apply andb_prop in H as [Ht Hts].
  destruct ts as [|u ts].
  - now apply split_token.
  - change (join " " (t :: u :: ts)) with (t +++ " " +++ join " " (u :: ts)).
    rewrite split_token_space by exact Ht. now rewrite IH.
Qed.

Lemma token_one_line (t : string) : is_token t = true -> one_line t = true.
Proof.
  unfold is_token, plain, one_line. intros H. apply andb_prop in H as [_ H].
  induction (list_ascii_of_string t) as [|c l IH]; [reflexivity|].
  simpl in *. apply andb_prop in H as [Hc Hl]. rewrite (IH Hl), andb_true_r.
  apply negb_true_iff in Hc. apply negb_true_iff.
  unfold is_space, is_newline, ascii_in in *. simpl in *.
  repeat (apply orb_false_elim in Hc as [? Hc]).
  repeat (apply orb_false_intro; try assumption).
Qed.

Lemma one_line_append (a b : string) :
  one_line (a +++ b) = one_line a && one_line b.
Proof.
  unfold one_line. induction a as [|x a IH]; [reflexivity|].
  simpl. now rewrite IH, andb_assoc.
Qed.

(** A line and its terminator, then the rest of the text. *)
Lemma lines_line (l r : string) :
  one_line l = true -> lines (l +++ nl +++ r) = l :: lines r.
Proof.
  unfold one_line. induction l as [|c l IH]; intros H.
  - reflexivity.
  - simpl in H. apply andb_prop in H as [Hc Hl].
    apply negb_true_iff in Hc. simpl. rewrite Hc.
    change (String "010" r) with (nl +++ r). now rewrite (IH Hl).
Qed.

(** ** Integers: reading what was printed *)

Lemma digit_cases (d : Z) :
  0 <= d < 10 ->
  d = 0 \/ d = 1 \/ d = 2 \/ d = 3 \/ d = 4 \/ d = 5 \/ d = 6 \/ d = 7 \/ d = 8 \/ d = 9.
Proof. lia. Qed.

Ltac each_digit H :=
  apply digit_cases in H;
  repeat (destruct H as [H | H]; [subst; try reflexivity|]); subst; try reflexivity.

Lemma digit_of_char (d : Z) : 0 <= d < 10 -> digit_of (digit_char d) = Some d.
Proof. intros H. each_digit H. Qed.

Lemma digit_char_plain (d : Z) :
  0 <= d < 10 ->
  is_space (digit_char d) = false /\ Ascii.eqb (digit_char d) "_" = false.
Proof. intros H. each_digit H; split; reflexivity. Qed.

Lemma int_unsigned (d : Z) (s : string) :
  0 <= d < 10 ->
  int (String (digit_char d) s) =
  match int_digits 0 false (String (digit_char d) s) with
  | Some z => Ok z
  | None => Raise (ValueError "invalid literal for int() with base 10")
  end.
Proof. intros H. each_digit H. Qed.

Lemma mod10_digit (n : Z) : 0 <= n mod 10 < 10.
Proof. apply Z.mod_pos_bound. lia. Qed.

(** Reading the digits of [n] in front of [s] shifts the number read so
    far and adds [n]. *)
Lemma int_digits_digits_of (fuel : nat) :
  forall n a b s, 0 <= n -> (Z.to_nat n < fuel)%nat ->
  exists K, int_digits a b (digits_of fuel n s) = int_digits (a * K + n) true s.
Proof.
  induction fuel as [|fuel IH]; intros n a b s Hn Hfuel; [lia|].
  cbn [digits_of].
  assert (Hstep : forall a b s,
             int_digits a b (String (digit_char (n mod 10)) s)
             = int_digits (10 * a + n mod 10) true s).
  { intros a' b' s'. cbn [int_digits].
    destruct (digit_char_plain (mod10_digit n)) as [_ ->].
    now rewrite (digit_of_char (mod10_digit n)). }
  destruct (n <? 10) eqn:Hlt.
  - apply Z.ltb_lt in Hlt. exists 10. rewrite Hstep.
    rewrite Z.mod_small by lia. f_equal. lia.
  - apply Z.ltb_ge in Hlt.
    assert (Hdiv : 0 <= n / 10 < n) by (split; [apply Z.div_pos; lia | apply Z.div_lt; lia]).
    destruct (IH (n / 10) a b (String (digit_char (n mod 10)) s)) as [K HK];
      [lia | lia |].
    exists (10 * K). rewrite HK, Hstep. f_equal.
    pose proof (Z.div_mod n 10). lia.
Qed.

Lemma digits_of_head (fuel : nat) (n : Z) (acc : string) :
  exists d r, 0 <= d < 10 /\ digits_of (S fuel) n acc = String (digit_char d) r.
Proof.
  revert n acc. induction fuel as [|fuel IH]; intros n acc.
  - exists (n mod 10), acc. split; [apply mod10_digit|].
    cbn [digits_of]. now destruct (n <? 10).
  - change (digits_of (S (S fuel)) n acc)
      with (if n <? 10 then String (digit_char (n mod 10)) acc
            else digits_of (S fuel) (n / 10) (String (digit_char (n mod 10)) acc)).
    destruct (n <? 10).
    + exists (n mod 10), acc. split; [apply mod10_digit | reflexivity].
    + apply IH.
Qed.

Lemma int_digits_of (n : Z) :
  0 <= n -> int (digits_of (S (Z.to_nat n)) n "") = Ok n.
Proof.
  intros Hn.
  destruct (digits_of_head (Z.to_nat n) n "") as (d & r & Hd & Heq).
  destruct (@int_digits_digits_of (S (Z.to_nat n)) n 0 false "" Hn) as [K HK]; [lia|].
  rewrite Heq in *. rewrite (int_unsigned r Hd), HK. now cbn.
Qed.

(** [int(str(n)) == n] *)
Lemma int_str (n : Z) : int (str n) = Ok n.
Proof.
  unfold str. destruct (n <? 0) eqn:Hneg.
  - apply Z.ltb_lt in Hneg.
    destruct (@int_digits_digits_of (S (Z.to_nat (- n))) (- n) 0 false "") as [K HK];
      [lia | lia |].
    unfold int. rewrite HK. cbn. f_equal. lia.
  - apply Z.ltb_ge in Hneg. now apply int_digits_of.
Qed.

Lemma is_token_plain (s : string) :
  is_token s = true <-> s <> "" /\ plain s = true.
Proof.
  unfold is_token, plain. rewrite andb_true_iff, negb_true_iff, String.eqb_neq.
  reflexivity.
Qed.

Lemma digits_of_plain (fuel : nat) :
  forall n acc, plain acc = true -> plain (digits_of fuel n acc) = true.
Proof.
  induction fuel as [|fuel IH]; intros n acc Hacc; [exact Hacc|].
  cbn [digits_of].
  assert (Hd : plain (String (digit_char (n mod 10)) acc) = true).
  { unfold plain in *. cbn [list_ascii_of_string forallb].
    destruct (digit_char_plain (mod10_digit n)) as [-> _]. exact Hacc. }
  destruct (n <? 10); [exact Hd | now apply IH].
Qed.

(** The text of an integer is one token. *)
Lemma is_token_str (n : Z) : is_token (str n) = true.
Proof.
  apply is_token_plain. unfold str. destruct (n <? 0).
  - split; [discriminate|]. unfold plain. cbn [list_ascii_of_string forallb].
    apply andb_true_iff. split; [reflexivity|].
    now apply digits_of_plain.
  - split; [| now apply digits_of_plain].
    destruct (digits_of_head (Z.to_nat n) n "") as (d & r & _ & ->). discriminate.
Qed.

(** ** Opening a session and the modes *)

Section Sessions.
Context {E : Externals}.

(** The test of [open] lets a mode through when its lower-case form is one
    of the three strings of the tuple. *)
Lemma open_checks (fs : FileSystem) (path mode : string) (kwargs : dict value) :
  in_ (lower mode) ["r"; "r+w"; "w+"] = false ->
  open fs path mode kwargs = (Raise invalid_mode, fs).
Proof. unfold open. cbn [append]. now intros ->. Qed.

(** C2, on the code: [open] refuses two of the four modes that its own
    message lists. The modes ['w'] and ['r+'] raise the invalid-mode
    [ValueError] and leave the file system as it was, whatever the path;
    the mode ['r+w'], which is none of the four, passes the test. *)
Theorem open_refuses_w_and_r_plus (fs : FileSystem) (path : string) (kwargs : dict value) :
  open fs path "w" kwargs = (Raise invalid_mode, fs) /\
  open fs path "r+" kwargs = (Raise invalid_mode, fs) /\
  in_ (lower "r+w") ["r"; "r+" +++ "w"; "w+"] = true.
Proof. repeat split. Qed.

(** C6: [read] on a session whose mode is ['w'] or ['w+'] and [write] on a
    session whose mode is ['r'] fail on their assertion, whatever the
    session holds and whatever is written. *)
Theorem mode_enforcement (f : File) (d : list _ObjDescriptor)
    (v : list (option (PointOf number))) (g : dict value) :
  read (mkObjFile f "w" d v g) = Raise AssertionError /\
  read (mkObjFile f "w+" d v g) = Raise AssertionError /\
  forall drawable name kwargs,
    write (mkObjFile f "r" d v g) drawable name kwargs = Raise AssertionError.
Proof. repeat split. Qed.

(** The other combinations pass the assertion: a session in mode ['r'] or
    ['r+'] is read, a session in mode ['w'], ['w+'] or ['r+'] is written. *)
Lemma mode_allowed (self : ObjFile) :
  (in_ (mode self) ["r"; "r+"] = true -> read self = iterate self) /\
  (in_ (mode self) ["w"; "w+"; "r+"] = true ->
   forall drawable name kwargs, exists s, write self drawable name kwargs = Ok s).
Proof.
  split.
  - unfold read. now intros ->.
  - intros H drawable nm kwargs. unfold write. rewrite H. cbn [assert bind].
    destruct (_drawable_to_obj self drawable nm kwargs) as [obj vs]. eauto.
Qed.

(** C3, on the code: a descriptor without a kind reaches the serializer.
    A file that holds the single line [o a], opened in mode ['r+'], parses
    into one descriptor whose kind is unset; [close] passes it to
    [_dump_objs], which writes its [o] line after the text already in the
    file and then raises [AttributeError]. *)
Theorem kindless_descriptor_is_serialized (fs : FileSystem) (path : string) :
  exists self,
    new_ObjFile fs (mkFile path ("o a" +++ nl)) "r+" [] = Ok self /\
    _descriptors self = [new_ObjDescriptor "a" None None None] /\
    close self =
      (mkFile path ("o a" +++ nl +++ "o a" +++ nl), Raise AttributeError).
Proof. eexists. repeat split. Qed.

End Sessions.

(** ** The parser, line by line *)

Section Parsing.
Context {E : Externals}.
Variables (fs : FileSystem) (f : File).

Lemma append_indexes_ok (body : list string) :
  forall o ixs, map_result int body = Ok ixs ->
  append_indexes o body = Ok (set_vertex_indexes o (vertex_indexes o ++ ixs)).
Proof.
  unfold append_indexes.
  induction body as [|v body IH]; intros o ixs H; cbn in H |- *.
  - injection H as <-. rewrite app_nil_r. now destruct o.
  - destruct (int v) as [i|]; [|discriminate]. cbn in H |- *.
    destruct (map_result int body) as [l|] eqn:Hl; [|discriminate].
    injection H as <-. rewrite (IH _ l eq_refl). cbn.
    now rewrite <- app_assoc.
Qed.

Lemma parse_blank (ln : string) (st : parser) :
  split ln = [] -> parse_line fs f ln st = Ok st.
Proof. unfold parse_line. now intros ->. Qed.

Lemma parse_v (ln x y : string) (more : list string) (fx fy : number) (st : parser) :
  split ln = "v" :: x :: y :: more -> float x = Ok fx -> float y = Ok fy ->
  parse_line fs f ln st =
  Ok (mkParser (descriptors st) (vertices st ++ [Some (Point2 fx fy)])
               (globals_ st) (materials st) (current_obj st)).
Proof. unfold parse_line. intros -> Hx Hy. cbn. now rewrite Hx, Hy. Qed.

Lemma parse_p (ln b0 : string) (more : list string) (i : Z) (st : parser) (o : _ObjDescriptor) :
  split ln = "p" :: b0 :: more -> int b0 = Ok i -> current_obj st = Some o ->
  parse_line fs f ln st = Ok (with_current st (with_geometry o point [i])).
Proof.
  unfold parse_line, the_current. intros -> Hi ->. cbn. now rewrite Hi.
Qed.

Lemma parse_l (ln : string) (body : list string) (ixs : list Z) (st : parser)
    (o : _ObjDescriptor) :
  split ln = "l" :: body -> map_result int body = Ok ixs -> current_obj st = Some o ->
  parse_line fs f ln st =
  Ok (with_current st
        (with_geometry o (if 2 <? Z.of_nat (length body) then wireframe else line) ixs)).
Proof.
  unfold parse_line, the_current. intros -> Hi ->.
  cbn [String.eqb Ascii.eqb Bool.eqb bind].
  now rewrite (append_indexes_ok _ _ Hi).
Qed.

Lemma parse_f (ln : string) (body : list string) (ixs : list Z) (st : parser)
    (o : _ObjDescriptor) :
  split ln = "f" :: body -> map_result int body = Ok ixs -> current_obj st = Some o ->
  parse_line fs f ln st = Ok (with_current st (with_geometry o polygon ixs)).
Proof.
  unfold parse_line, the_current. intros -> Hi ->.
  cbn [String.eqb Ascii.eqb Bool.eqb bind].
  now rewrite (append_indexes_ok _ _ Hi).
Qed.

Lemma parse_o (ln n : string) (more : list string) (st : parser) :
  split ln = "o" :: n :: more ->
  parse_line fs f ln st =
  Ok (mkParser (closed_by_o st) (vertices st) (globals_ st) (materials st)
               (Some (new_ObjDescriptor n None None None))).
Proof. unfold parse_line. now intros ->. Qed.

Lemma parse_ignored (ln head : string) (body : list string) (st : parser) :
  split ln = head :: body ->
  in_ head ["#"; "mtllib"; "v"; "o"; "usemtl"; "p"; "l"; "f"] = false ->
  parse_line fs f ln st = Ok st.
Proof.
  unfold parse_line. intros -> H. cbn [in_ existsb] in H.
  repeat (apply orb_false_elim in H as [? H]).
  repeat match goal with
         | Hx : String.eqb head _ = false |- _ => rewrite Hx; clear Hx
         end.
  reflexivity.
Qed.

Lemma map_int_str (ks : list Z) : map_result int (map str ks) = Ok ks.
Proof.
  induction ks as [|k ks IH]; [reflexivity|].
  cbn [map map_result]. rewrite int_str. cbn. now rewrite IH.
Qed.

Lemma tokens_str (ks : list Z) : forallb is_token (map str ks) = true.
Proof.
  induction ks as [|k ks IH]; [reflexivity|].
  cbn [map forallb]. now rewrite is_token_str, IH.
Qed.

Lemma split_directive (head : string) (ks : list Z) :
  is_token head = true ->
  split (join " " (head :: map str ks)) = head :: map str ks.
Proof.
  intros H. apply split_join. cbn [forallb]. now rewrite H, tokens_str.
Qed.


(** C10: an [o] line met while the current object has no kind drops that
    object. The state after the line has the descriptors it had before and
    a current object made of the new name alone; nothing of the dropped
    object is left in it, so the rest of the parse, and the list it
    returns, are the same whatever that object was. *)
Theorem o_discards_kindless (st : parser) (o : _ObjDescriptor)
    (ln n : string) (more : list string) :
  split ln = "o" :: n :: more ->
  current_obj st = Some o ->
  kind o = None ->
  parse_line fs f ln st =
    Ok (mkParser (descriptors st) (vertices st) (globals_ st) (materials st)
                 (Some (new_ObjDescriptor n None None None))) /\
  forall o' rest,
    kind o' = None ->
    for_each (ln :: rest) (parse_line fs f) (with_current st o')
    = for_each (ln :: rest) (parse_line fs f) st.
Proof.
  intros Hsplit Hcur Hkind. split.
  - rewrite (@parse_o ln n more st Hsplit). unfold closed_by_o.
    now rewrite Hcur, Hkind.
  - intros o' rest Hkind'. cbn [for_each].
    rewrite (@parse_o ln n more st Hsplit),
      (@parse_o ln n more (with_current st o') Hsplit).
    unfold closed_by_o.
    cbn [with_current current_obj descriptors vertices globals_ materials].
    now rewrite Hcur, Hkind, Hkind'.
Qed.

(** *** Files without an [o] line *)

Lemma append_indexes_keeps (body : list string) :
  forall o o', append_indexes o body = Ok o' ->
  attributes o' = attributes o /\ kind o' = kind o.
Proof.
  unfold append_indexes.
  induction body as [|v body IH]; intros o o' H; cbn in H.
  - now injection H as <-.
  - destruct (int v) as [i|]; [|discriminate]. cbn in H.
    apply IH in H. exact H.
Qed.

Lemma in_cases (s : string) (l : list string) :
  in_ s l = true -> In s l.
Proof.
  unfold in_. intros H. apply existsb_exists in H as (x & Hx & Heq).
  apply String.eqb_eq in Heq. now subst.
Qed.

(** A [v] line or a geometry line leaves the descriptors, the globals and
    the attributes of the current object as they are. *)
Lemma geometry_only_keeps (ln : string) (st st' : parser) :
  geometry_only ln = true -> parse_line fs f ln st = Ok st' ->
  descriptors st' = descriptors st /\ globals_ st' = globals_ st /\
  forall o, current_obj st = Some o ->
            exists o', current_obj st' = Some o' /\ attributes o' = attributes o.
Proof.
  unfold geometry_only, parse_line.
  destruct (split ln) as [|head body].
  { intros _ H. injection H as <-. eauto. }
  intros Hhead. apply in_cases in Hhead.
  destruct Hhead as [<- | [<- | [<- | [<- | []]]]];
    cbn [String.eqb Ascii.eqb Bool.eqb]; unfold the_current.
  - destruct body as [|x [|y more]]; try discriminate.
    destruct (float x) as [fx|]; [|discriminate].
    destruct (float y) as [fy|]; [|discriminate].
    cbn. intros H. injection H as <-. cbn. eauto.
  - destruct (current_obj st) as [o|]; [|discriminate]. cbn [bind].
    destruct (getitem body 0) as [b0|]; [|discriminate]. cbn [bind].
    destruct (int b0) as [i|]; [|discriminate]. cbn [bind].
    intros H. injection H as <-. cbn. repeat split.
    intros o0 H0. injection H0 as <-. eauto.
  - destruct (current_obj st) as [o|]; [|discriminate]. cbn [bind].
    destruct (append_indexes _ body) as [o1|] eqn:Ho1; [|discriminate].
    apply append_indexes_keeps in Ho1 as [Ha _]. cbn [bind].
    intros H. injection H as <-. cbn. repeat split.
    intros o0 H0. injection H0 as <-. eauto.
  - destruct (current_obj st) as [o|]; [|discriminate]. cbn [bind].
    destruct (append_indexes _ body) as [o1|] eqn:Ho1; [|discriminate].
    apply append_indexes_keeps in Ho1 as [Ha _]. cbn [bind].
    intros H. injection H as <-. cbn. repeat split.
    intros o0 H0. injection H0 as <-. eauto.
Qed.

Lemma geometry_only_run (lns : list string) :
  forall st st' o,
  forallb geometry_only lns = true ->
  for_each lns (parse_line fs f) st = Ok st' ->
  current_obj st = Some o ->
  descriptors st' = descriptors st /\ globals_ st' = globals_ st /\
  exists o', current_obj st' = Some o' /\ attributes o' = attributes o.
Proof.
  induction lns as [|ln lns IH]; intros st st' o Hall Hrun Hcur.
  - injection Hrun as <-. eauto.
  - cbn [forallb] in Hall. apply andb_prop in Hall as [Hln Hall].
    cbn [for_each] in Hrun.
    destruct (parse_line fs f ln st) as [st1|] eqn:H1; [|discriminate].
    cbn [bind] in Hrun.
    destruct (geometry_only_keeps _ _ Hln H1) as (Hd & Hg & Ho).
    destruct (Ho _ Hcur) as (o1 & Hcur1 & Ha1).
    destruct (IH _ _ _ Hall Hrun Hcur1) as (Hd' & Hg' & o' & Hcur' & Ha').
    repeat split; try congruence. exists o'. split; congruence.
Qed.

(** *** Lines that always parse *)

Lemma all_int (body : list string) :
  forallb (fun v => ok (int v)) body = true ->
  exists ixs, map_result int body = Ok ixs.
Proof.
  induction body as [|v body IH]; [now exists []|].
  cbn [forallb]. intros H. apply andb_prop in H as [Hv Hb].
  destruct (IH Hb) as [ixs Hixs]. cbn [map_result].
  destruct (int v) as [i|]; [|discriminate]. rewrite Hixs. now exists (i :: ixs).
Qed.

(** The line parses, and there is still a current object. *)
Ltac parsed_here :=
  do 2 eexists; split; [reflexivity | cbn; first [reflexivity | eassumption]].

Lemma well_formed_parses (ln : string) (st : parser) (o : _ObjDescriptor) :
  well_formed ln = true -> current_obj st = Some o ->
  exists st' o', parse_line fs f ln st = Ok st' /\ current_obj st' = Some o'.
Proof.
  unfold well_formed, parse_line, the_current. intros Hwf Hcur.
  destruct (split ln) as [|head body]; [parsed_here|].
  cbn [in_ existsb] in Hwf. rewrite Hcur.
  destruct (String.eqb_spec head "#") as [->|_]; [parsed_here|].
  destruct (String.eqb_spec head "mtllib") as [->|_]; [discriminate|].
  destruct (String.eqb_spec head "v") as [->|_].
  { destruct body as [|x [|y more]]; try discriminate.
    destruct (float x) as [fx|]; [|discriminate].
    destruct (float y) as [fy|]; [|discriminate]. cbn. parsed_here. }
  destruct (String.eqb_spec head "o") as [->|_].
  { destruct body as [|n more]; [discriminate|]. cbn. parsed_here. }
  destruct (String.eqb_spec head "usemtl") as [->|_]; [discriminate|].
  destruct (String.eqb_spec head "p") as [->|_].
  { destruct body as [|b0 more]; [discriminate|]. cbn.
    destruct (int b0) as [i|]; [|discriminate]. cbn. parsed_here. }
  destruct (String.eqb_spec head "l") as [->|_].
  { cbn in Hwf. apply all_int in Hwf as [ixs Hixs]. cbn [bind].
    rewrite (append_indexes_ok _ _ Hixs). cbn. parsed_here. }
  destruct (String.eqb_spec head "f") as [->|_].
  { cbn in Hwf. apply all_int in Hwf as [ixs Hixs]. cbn [bind].
    rewrite (append_indexes_ok _ _ Hixs). cbn. parsed_here. }
  parsed_here.
Qed.

Lemma well_formed_run (lns : list string) :
  forall st o,
  forallb well_formed lns = true -> current_obj st = Some o ->
  exists st' o', for_each lns (parse_line fs f) st = Ok st' /\ current_obj st' = Some o'.
Proof.
  induction lns as [|ln lns IH]; intros st o Hall Hcur; [cbn; eauto|].
  cbn [forallb] in Hall. apply andb_prop in Hall as [Hln Hall].
  destruct (well_formed_parses _ st Hln Hcur) as (st1 & o1 & H1 & Hcur1).
  cbn [for_each]. rewrite H1. cbn [bind]. now apply IH with (o := o1).
Qed.

(** A file made of well-formed lines parses. *)
Lemma well_formed_file :
  forallb well_formed (lines (text f)) = true ->
  exists r, _parse_objs fs f = Ok r.
Proof.
  intros H. unfold _parse_objs.
  destruct (@well_formed_run _ (parser_init f) _ H eq_refl) as (st & o & -> & _).
  cbn. eauto.
Qed.

(** C9: a file that holds only [v] lines and geometry lines, and so no
    [o] line, parses into exactly one descriptor, named after the file: its
    name is the base name of the file up to its first dot. The parse
    succeeds as soon as the numbers of the [v] lines read as floats and
    the indices of the geometry lines as integers. *)
Theorem implicit_object :
  forallb geometry_only (lines (text f)) = true ->
  (forallb well_formed (lines (text f)) = true ->
   exists r, _parse_objs fs f = Ok r) /\
  (forall ds vs gs,
     _parse_objs fs f = Ok (ds, vs, gs) ->
     exists d, ds = [d] /\
               dict_get (attributes d) "name"
               = Some (VStr (before_dot (basename (name f))))).
Proof.
  intros Hgeo. split; [apply well_formed_file|].
  intros ds vs gs. unfold _parse_objs.
  destruct (for_each _ _ _) as [st|] eqn:Hrun; [|discriminate].
  cbn [bind]. intros H. injection H as <- _ _.
  destruct (@geometry_only_run _ _ _ _ Hgeo Hrun eq_refl) as (Hd & _ & o & Ho & Ha).
  unfold parser_result. rewrite Ho, Hd. exists o. split; [reflexivity|].
  rewrite Ha. reflexivity.
Qed.

(** *** Materials *)

Lemma dict_get_set (V : Type) (d : dict V) (k : string) (v : V) :
  dict_get (dict_set d k v) k = Some v.
Proof.
  induction d as [|[k' v'] d IH]; cbn.
  - now rewrite String.eqb_refl.
  - destruct (String.eqb k' k) eqn:Hk; cbn.
    + now rewrite String.eqb_refl.
    + now rewrite Hk.
Qed.

Lemma dict_get_set_other (V : Type) (d : dict V) (k k' : string) (v : V) :
  k <> k' -> dict_get (dict_set d k v) k' = dict_get d k'.
Proof.
  intros Hne. induction d as [|[k0 v0] d IH]; cbn.
  - apply String.eqb_neq in Hne. now rewrite Hne.
  - destruct (String.eqb_spec k0 k) as [->|Hk]; cbn.
    + apply String.eqb_neq in Hne. now rewrite Hne.
    + now rewrite IH.
Qed.

Lemma parse_mtllib (ln lib content : string) (st : parser) (m : option string)
    (table : dict Color) :
  split ln = ["mtllib"; lib] ->
  dict_get (files fs) (absdir fs (name f) +++ "/" +++ lib) = Some content ->
  for_each (lines content) (parse_mtl_line "mtllib") (None, materials st) = Ok (m, table) ->
  parse_line fs f ln st =
  Ok (mkParser (descriptors st) (vertices st)
               (dict_set (globals_ st) "mtllib" (VList [lib])) table (current_obj st)).
Proof.
  unfold parse_line. intros -> Hfile Hlib.
  cbn [String.eqb Ascii.eqb Bool.eqb for_each].
  unfold load_mtllib, builtins_open. cbn [in_ existsb String.eqb Ascii.eqb Bool.eqb orb].
  rewrite Hfile. cbn [bind text]. rewrite Hlib. reflexivity.
Qed.

Lemma parse_usemtl (ln mtl : string) (more : list string) (st : parser) (o : _ObjDescriptor) :
  split ln = "usemtl" :: mtl :: more -> current_obj st = Some o ->
  parse_line fs f ln st =
  match dict_get (materials st) mtl with
  | Some color =>
      Ok (with_current st (set_attribute (set_attribute o "usemtl" (VStr mtl))
                                         "color" (VColor color)))
  | None => Raise (KeyError mtl)
  end.
Proof.
  unfold parse_line, the_current, dict_item. intros -> ->. cbn.
  now destruct (dict_get (materials st) mtl).
Qed.


End Parsing.

(** ** Writing *)

Section Writing.
Context {E : Externals}.

Lemma slots_S (off n : nat) :
  slots off (S n) = Z.of_nat off :: slots (S off) n.
Proof. reflexivity. Qed.

Lemma slots_bounds (off n : nat) (i : Z) :
  In i (slots off n) -> Z.of_nat off <= i < Z.of_nat (off + n).
Proof.
  unfold slots. intros H. apply in_map_iff in H as (k & <- & Hk).
  apply in_seq in Hk. lia.
Qed.

Lemma register_spec (ps : list (PointOf number)) :
  forall vs ixs,
  register ps vs ixs = (vs ++ map Some ps, ixs ++ slots (length vs) (length ps)).
Proof.
  induction ps as [|p ps IH]; intros vs ixs.
  - cbn. now rewrite !app_nil_r.
  - cbn [register]. rewrite IH. cbn [map length]. rewrite slots_S.
    rewrite <- !app_assoc. cbn [app]. rewrite length_app. cbn [length].
    do 3 f_equal; [lia | f_equal; lia].
Qed.

Lemma drawable_to_obj_spec (self : ObjFile) (d : Drawable) (n : string)
    (kwargs : dict value) :
  _drawable_to_obj self d n kwargs
  = (descriptor_at (length (_vertices self)) (d, n, kwargs),
     _vertices self ++ map Some (points_of d)).
Proof.
  unfold _drawable_to_obj, descriptor_at.
  destruct d as [p|a b|ps|ps|]; cbn [kind_of points_of].
  - unfold set_vertex_indexes, set_kind. cbn. rewrite length_app. cbn [length].
    unfold slots. cbn. do 3 f_equal. lia.
  - unfold set_vertex_indexes, set_kind. cbn. rewrite length_app. cbn [length].
    unfold slots. cbn. do 3 f_equal; [lia | f_equal; lia].
  - rewrite register_spec. reflexivity.
  - rewrite register_spec. reflexivity.
  - cbn. now rewrite app_nil_r.
Qed.

Lemma write_spec (self : ObjFile) (d : Drawable) (n : string) (kwargs : dict value) :
  in_ (mode self) ["w"; "w+"; "r+"] = true ->
  write self d n kwargs
  = Ok (mkObjFile (file self) (mode self)
          (_descriptors self ++ [descriptor_at (length (_vertices self)) (d, n, kwargs)])
          (_vertices self ++ map Some (points_of d)) (_globals self)).
Proof.
  intros Hmode. unfold write. rewrite Hmode. cbn [assert bind].
  now rewrite drawable_to_obj_spec.
Qed.

(** A run of writes appends the points of the items to the vertex table
    and one descriptor for each item, whose indices are the slots of its
    points. *)
Lemma write_all_spec (items : list (Drawable * string * dict value)) :
  forall self,
  in_ (mode self) ["w"; "w+"; "r+"] = true ->
  write_all self items
  = Ok (mkObjFile (file self) (mode self)
          (_descriptors self ++ descriptors_from (length (_vertices self)) items)
          (_vertices self ++ map Some (all_points items)) (_globals self)).
Proof.
  unfold write_all.
  induction items as [|[[d n] kwargs] items IH]; intros self Hmode.
  - cbn. rewrite !app_nil_r. now destruct self.
  - cbn [for_each]. rewrite (write_spec _ _ _ _ Hmode). cbn [bind].
    rewrite IH by exact Hmode.
    cbn [file mode _descriptors _vertices _globals descriptors_from all_points
         flat_map fst].
    rewrite length_app, length_map, map_app, <- !app_assoc. reflexivity.
Qed.

Lemma descriptors_from_within (total : nat) (items : list (Drawable * string * dict value)) :
  forall off,
  (1 <= off)%nat -> (off + length (all_points items) <= total)%nat ->
  Forall (fun o => Forall (fun i => 1 <= i < Z.of_nat total) (vertex_indexes o))
         (descriptors_from off items).
Proof.
  induction items as [|[[d n] kwargs] items IH]; intros off Hoff Htotal;
    [constructor|].
  unfold all_points in *. cbn [descriptors_from flat_map fst] in *.
  rewrite length_app in Htotal. constructor.
  - cbn [descriptor_at vertex_indexes]. apply Forall_forall. intros i Hi.
    apply slots_bounds in Hi. lia.
  - apply IH; lia.
Qed.

(** C4, as the code has it: in a session opened in mode ['w'] or ['w+'],
    after any run of writes, every index of every descriptor is at least 1
    and below the length of the vertex table, so it points at a vertex of
    the table. (The descriptors of a session that was read from a file
    carry the integers of the file, which nothing checks.) *)
Theorem written_indexes_within (fs : FileSystem) (file : File) (m : string)
    (kwargs : dict value) (items : list (Drawable * string * dict value)) :
  in_ m ["w"; "w+"] = true ->
  exists opened self,
    new_ObjFile fs file m kwargs = Ok opened /\
    write_all opened items = Ok self /\
    indexed self.
Proof.
  intros Hm.
  assert (Hnew : new_ObjFile fs file m kwargs = Ok (mkObjFile file m [] [None] kwargs)).
  { unfold new_ObjFile. rewrite Hm.
    apply in_cases in Hm as [<- | [<- | []]]; reflexivity. }
  assert (Hmode : in_ m ["w"; "w+"; "r+"] = true).
  { apply in_cases in Hm as [<- | [<- | []]]; reflexivity. }
  do 2 eexists. split; [exact Hnew|]. split.
  - now apply write_all_spec.
  - unfold indexed. cbn [_descriptors _vertices app].
    apply descriptors_from_within; cbn [length]; [lia|].
    rewrite length_map. lia.
Qed.

End Writing.

(** ** Reading *)

Section Reading.
Context {E : Externals}.

Lemma getitem_slot (A : Type) (pre post : list A) (x : A) :
  getitem (pre ++ x :: post) (Z.of_nat (length pre)) = Ok x.
Proof.
  unfold getitem.
  replace (Z.of_nat (length pre) <? 0) with false by (symmetry; apply Z.ltb_ge; lia).
  replace ((0 <=? Z.of_nat (length pre))
           && (Z.of_nat (length pre) <? Z.of_nat (length (pre ++ x :: post))))
    with true.
  - rewrite Nat2Z.id, nth_error_app2, Nat.sub_diag by lia. reflexivity.
  - symmetry. apply andb_true_iff. split; [apply Z.leb_le; lia|].
    apply Z.ltb_lt. rewrite length_app. cbn [length]. lia.
Qed.

Lemma getitem_0 (A : Type) (x : A) (l : list A) : getitem (x :: l) 0 = Ok x.
Proof. apply (getitem_slot [] l x). Qed.

Lemma getitem_1 (A : Type) (x y : A) (l : list A) : getitem (x :: y :: l) 1 = Ok y.
Proof. apply (getitem_slot [x] l y). Qed.

Lemma getitem_out (A : Type) (vs : list A) (i : Z) :
  out_of_table vs i = true -> getitem vs i = Raise IndexError.
Proof.
  unfold out_of_table, getitem. intros H.
  apply orb_true_iff in H as [H | H].
  - apply Z.leb_le in H.
    replace (i <? 0) with false by (symmetry; apply Z.ltb_ge; lia).
    replace (i <? Z.of_nat (length vs)) with false by (symmetry; apply Z.ltb_ge; lia).
    now rewrite andb_false_r.
  - apply Z.ltb_lt in H.
    replace (i <? 0) with true by (symmetry; apply Z.ltb_lt; lia).
    replace (0 <=? i + Z.of_nat (length vs)) with false
      by (symmetry; apply Z.leb_gt; lia).
    reflexivity.
Qed.

(** A comprehension stops at the first item that raises. *)
Lemma map_result_stops (A B : Type) (g : A -> result B) (pre post : list A)
    (x : A) (e : exn) :
  Forall (fun a => ok (g a) = true) pre -> g x = Raise e ->
  map_result g (pre ++ x :: post) = Raise e.
Proof.
  intros Hpre Hx. induction Hpre as [|a pre Ha _ IH]; cbn [app map_result].
  - now rewrite Hx.
  - destruct (g a); [|discriminate]. cbn [bind]. now rewrite IH.
Qed.

Lemma map_result_map (A B : Type) (g : A -> result B) (h : A -> B) (xs : list A) :
  Forall (fun a => g a = Ok (h a)) xs -> map_result g xs = Ok (map h xs).
Proof.
  intros H. induction H as [|a xs Ha _ IH]; [reflexivity|].
  cbn [map_result map]. now rewrite Ha, IH.
Qed.

Lemma vertex_out (self : ObjFile) (i : Z) :
  out_of_table (_vertices self) i = true -> vertex self i = Raise IndexError.
Proof. intros H. unfold vertex. now rewrite (getitem_out _ _ H). Qed.

(** The first index that [_obj_to_drawable] cannot look up stops it with
    [IndexError]. *)
Lemma translate_out (self : ObjFile) (obj : _ObjDescriptor) (pre post : list Z) (i : Z) :
  used_indexes obj = pre ++ i :: post ->
  Forall (fun j => ok (vertex self j) = true) pre ->
  out_of_table (_vertices self) i = true ->
  _obj_to_drawable self obj = Raise IndexError.
Proof.
  unfold used_indexes, _obj_to_drawable. intros Hused Hpre Hout.
  destruct (kind obj) as [[| | |]|].
  - destruct (vertex_indexes obj) as [|i0 l]; [now destruct pre|].
    cbn [firstn] in Hused. rewrite getitem_0. cbn [bind].
    destruct pre as [|a pre].
    + injection Hused as -> _. now rewrite vertex_out.
    + injection Hused as _ Hnil. now destruct pre.
  - destruct (vertex_indexes obj) as [|i0 [|i1 l]].
    + now destruct pre.
    + cbn [firstn] in Hused. rewrite getitem_0. cbn [bind].
      destruct pre as [|a pre].
      * injection Hused as -> _. now rewrite (getitem_out _ _ Hout).
      * injection Hused as _ Hnil. now destruct pre.
    + cbn [firstn] in Hused. rewrite getitem_0, getitem_1. cbn [bind].
      destruct pre as [|a [|b pre]].
      * injection Hused as -> _. now rewrite (getitem_out _ _ Hout).
      * injection Hused as -> -> _. inversion Hpre as [|? ? Ha _]; subst.
        unfold vertex in Ha. destruct (getitem (_vertices self) a); [|discriminate].
        cbn [bind]. now rewrite (getitem_out _ _ Hout).
      * injection Hused as _ _ Hnil. now destruct pre.
  - rewrite Hused. now rewrite (map_result_stops _ _ _ Hpre (vertex_out _ _ Hout)).
  - rewrite Hused. now rewrite (map_result_stops _ _ _ Hpre (vertex_out _ _ Hout)).
  - now destruct pre.
Qed.

(** C5, as the code has it: the parser accepts any integer as a vertex
    index, so a file of well-formed lines parses whatever its indices are;
    the session then raises [IndexError] when it is read, at the first
    descriptor for which an index that the translation looks up lies past
    the end of the vertex table or below minus its length. *)
Theorem lazy_index_error (fs : FileSystem) (file : File) :
  forallb well_formed (lines (text file)) = true ->
  exists self,
    new_ObjFile fs file "r" [] = Ok self /\
    forall before obj after pre i post,
      _descriptors self = before ++ obj :: after ->
      Forall (fun d => ok (_obj_to_drawable self d) = true) before ->
      used_indexes obj = pre ++ i :: post ->
      Forall (fun j => ok (vertex self j) = true) pre ->
      out_of_table (_vertices self) i = true ->
      read self = Raise IndexError.
Proof.
  intros Hwf. destruct (well_formed_file fs file Hwf) as [[[ds vs] gs] Hparse].
  exists (mkObjFile file "r" ds vs gs). split.
  - unfold new_ObjFile. cbn [in_ existsb String.eqb Ascii.eqb Bool.eqb orb].
    now rewrite Hparse.
  - intros before obj after pre i post Hds Hbefore Hused Hpre Hout.
    unfold read, iterate. cbn [mode in_ existsb String.eqb Ascii.eqb Bool.eqb orb assert bind].
    rewrite Hds. apply map_result_stops; [exact Hbefore|].
    now apply translate_out with (pre := pre) (post := post) (i := i).
Qed.

End Reading.

(** ** The text of a written session *)

Section Dumping.
Context {E : Externals}.

(** Two texts built from the same pieces. *)
Ltac text_eq :=
  repeat (progress cbn [append] || rewrite append_assoc || rewrite append_nil_r);
  reflexivity.

Lemma unlines_app (a b : list string) : unlines (a ++ b) = unlines a +++ unlines b.
Proof.
  induction a as [|x a IH]; [reflexivity|].
  cbn [app unlines]. now rewrite IH, !append_assoc.
Qed.

Lemma and_then_emit (a b : string) : (emit a >> emit b) = emit (a +++ b).
Proof. reflexivity. Qed.

Lemma emit_each_lines (A : Type) (g : A -> writes) (h : A -> list string) (xs : list A) :
  Forall (fun x => g x = emit (unlines (h x))) xs ->
  emit_each g xs = emit (unlines (flat_map h xs)).
Proof.
  intros H. induction H as [|x xs Hx _ IH]; [reflexivity|].
  cbn [emit_each flat_map]. now rewrite Hx, IH, and_then_emit, unlines_app.
Qed.

Lemma emit_spaced (l : list string) :
  emit_each (fun x => emit (x +++ " ")) l = emit (spaced l).
Proof.
  induction l as [|x l IH]; [reflexivity|].
  cbn [emit_each spaced]. now rewrite IH, and_then_emit.
Qed.

Lemma dump_vertex_line (p : PointOf number) :
  dump_vertex (Some p) = emit (unlines [vertex_line p]).
Proof.
  unfold dump_vertex, vertex_line. cbn [unlines]. apply (f_equal emit).
  text_eq.
Qed.

Lemma dump_vertices_lines (ps : list (PointOf number)) :
  emit_each dump_vertex (map Some ps) = emit (unlines (map vertex_line ps)).
Proof.
  induction ps as [|p ps IH]; [reflexivity|].
  cbn [map emit_each]. rewrite IH, dump_vertex_line, and_then_emit.
  now rewrite <- unlines_app.
Qed.

Lemma dump_attribute_lines (obj : _ObjDescriptor) (key : string) :
  in_ key ["name"; "color"] = true \/
  (exists v, dict_get (attributes obj) key = Some v /\ inert_value v = true) ->
  dump_attribute obj key = emit (unlines (attribute_lines (attributes obj) key)).
Proof.
  unfold dump_attribute, attribute_lines, dict_item.
  destruct (in_ key ["name"; "color"]); [reflexivity|].
  intros [H | (v & -> & Hv)]; [discriminate|].
  destruct v as [s|l|c]; [| |discriminate]; unfold emit_values, iter_no_str;
    rewrite emit_spaced, !and_then_emit; cbn [unlines]; apply (f_equal emit);
    text_eq.
Qed.

Lemma dump_geometry_line (obj : _ObjDescriptor) (k : Kind) :
  kind obj = Some k ->
  match k, vertex_indexes obj with
  | point, [] => False
  | line, [_; _] => True
  | line, _ => False
  | _, _ => True
  end ->
  dump_geometry obj = emit (unlines [geometry_line k (vertex_indexes obj)]).
Proof.
  unfold dump_geometry, geometry_line. intros -> Harity. cbn [unlines].
  destruct k.
  - destruct (vertex_indexes obj) as [|i l]; [contradiction|].
    rewrite getitem_0. apply (f_equal emit). text_eq.
  - destruct (vertex_indexes obj) as [|a [|b [|c l]]]; try contradiction.
    apply (f_equal emit). text_eq.
  - rewrite and_then_emit. apply (f_equal emit). text_eq.
  - rewrite and_then_emit. apply (f_equal emit). text_eq.
Qed.

Lemma dump_obj_lines (obj : _ObjDescriptor) (n : string) (k : Kind) :
  dict_get (attributes obj) "name" = Some (VStr n) ->
  printable (attributes obj) ->
  kind obj = Some k ->
  match k, vertex_indexes obj with
  | point, [] => False
  | line, [_; _] => True
  | line, _ => False
  | _, _ => True
  end ->
  dump_obj obj = emit (unlines (object_lines n obj)).
Proof.
  intros Hname Hattrs Hkind Harity. unfold dump_obj, object_lines.
  rewrite (dump_geometry_line _ Hkind Harity), Hkind.
  rewrite (emit_each_lines (dump_attribute obj) (attribute_lines (attributes obj))).
  - unfold dump_name, dict_item. rewrite Hname, !and_then_emit.
    cbn [unlines]. rewrite unlines_app. apply (f_equal emit). text_eq.
  - unfold printable in Hattrs. apply Forall_forall. intros key Hkey.
    apply dump_attribute_lines. rewrite Forall_forall in Hattrs. now apply Hattrs.
Qed.

(** *** The descriptors that [write] builds *)

Lemma keys_dict_set (V : Type) (d : dict V) (k0 k : string) (v : V) :
  In k (keys (dict_set d k0 v)) -> k = k0 \/ In k (keys d).
Proof.
  induction d as [|[k' v'] d IH]; cbn.
  - intros [<- | []]. now left.
  - destruct (String.eqb_spec k' k0) as [->|Hne]; cbn.
    + intros [<- | H]; auto.
    + intros [<- | H]; auto. destruct (IH H); auto.
Qed.

Lemma dict_get_in (V : Type) (d : dict V) (k : string) :
  In k (keys d) -> exists v, dict_get d k = Some v /\ In (k, v) d.
Proof.
  induction d as [|[k' v'] d IH]; cbn; [contradiction|].
  destruct (String.eqb_spec k' k) as [->|Hne].
  - intros _. exists v'. auto.
  - intros [H | H]; [contradiction|].
    destruct (IH H) as (v & Hv & Hin). exists v. auto.
Qed.

(** A key that the serializer writes, in the attributes of a written
    item, was given with an inert value. *)
Lemma written_key (kwargs : dict value) (n key : string) :
  forallb inert_attribute kwargs = true ->
  In key (keys (dict_set kwargs "name" (VStr n))) ->
  in_ key ["name"; "color"] = false ->
  exists v, dict_get (dict_set kwargs "name" (VStr n)) key = Some v /\
            inert_value v = true /\ is_token key = true /\
            in_ key ["mtllib"; "v"; "o"; "usemtl"; "p"; "l"; "f"] = false.
Proof.
  intros Hall Hkey Hskip.
  cbn [in_ existsb] in Hskip.
  apply orb_false_elim in Hskip as [Hname Hskip].
  apply orb_false_elim in Hskip as [Hcolor _].
  apply String.eqb_neq in Hname.
  apply keys_dict_set in Hkey as [-> | Hkey]; [contradiction|].
  rewrite dict_get_set_other by congruence.
  destruct (dict_get_in _ _ Hkey) as (v & Hv & Hin).
  rewrite forallb_forall in Hall. specialize (Hall _ Hin).
  unfold inert_attribute in Hall. rewrite Hcolor in Hall. cbn [orb] in Hall.
  apply andb_prop in Hall as [Hall Hval]. apply andb_prop in Hall as [Htok Hdir].
  exists v. repeat split; auto.
  apply negb_true_iff in Hdir. cbn [in_ existsb] in Hdir |- *.
  apply orb_false_elim in Hdir as [_ Hdir]. exact Hdir.
Qed.

Lemma written_printable (kwargs : dict value) (n : string) :
  forallb inert_attribute kwargs = true ->
  printable (dict_set kwargs "name" (VStr n)).
Proof.
  intros Hall. apply Forall_forall. intros key Hkey.
  destruct (in_ key ["name"; "color"]) eqn:Hskip; [now left | right].
  destruct (written_key _ _ _ Hall Hkey Hskip) as (v & Hv & Hval & _). eauto.
Qed.

Lemma writable_parts (d : Drawable) (n : string) (kwargs : dict value) :
  writable (d, n, kwargs) = true ->
  is_token n = true /\ forallb inert_attribute kwargs = true /\
  exists k, kind_of d = Some k /\
            (k = wireframe -> (2 < length (points_of d))%nat).
Proof.
  unfold writable. intros H.
  apply andb_prop in H as [H Hd]. apply andb_prop in H as [Hn Hkw].
  repeat split; auto.
  destruct d as [p|a b|ps|ps|]; try discriminate; eexists; split;
    try reflexivity; try discriminate.
  intros _. apply Z.ltb_lt in Hd. cbn [points_of]. lia.
Qed.

Lemma dump_written_obj (off : nat) (d : Drawable) (n : string) (kwargs : dict value) :
  writable (d, n, kwargs) = true ->
  dump_obj (descriptor_at off (d, n, kwargs))
  = emit (unlines (object_lines n (descriptor_at off (d, n, kwargs)))).
Proof.
  intros Hw. destruct (writable_parts _ _ _ Hw) as (_ & Hkw & k & Hk & _).
  apply dump_obj_lines with (k := k).
  - apply dict_get_set.
  - now apply written_printable.
  - exact Hk.
  - cbn [descriptor_at vertex_indexes].
    destruct d as [p|a b|ps|ps|]; try discriminate;
      injection Hk as <-; cbn [points_of length]; exact I.
Qed.

Lemma dump_written_objs (items : list (Drawable * string * dict value)) :
  forall off,
  forallb writable items = true ->
  emit_each dump_obj (descriptors_from off items)
  = emit (unlines (object_lines_from off items)).
Proof.
  induction items as [|[[d n] kwargs] items IH]; intros off Hall; [reflexivity|].
  cbn [forallb] in Hall. apply andb_prop in Hall as [Hw Hall].
  cbn [descriptors_from object_lines_from emit_each fst snd].
  now rewrite (dump_written_obj off _ _ _ Hw), IH, and_then_emit, unlines_app.
Qed.

(** The text of a session that was opened empty and written. *)
Lemma dump_written (items : list (Drawable * string * dict value)) :
  forallb writable items = true ->
  _dump_objs (descriptors_from 1 items) (None :: map Some (all_points items)) []
  = emit (unlines (map vertex_line (all_points items) ++ object_lines_from 1 items)).
Proof.
  intros Hall. unfold _dump_objs. cbn [tl keys map emit_each].
  rewrite dump_vertices_lines, (dump_written_objs _ 1 Hall), !and_then_emit.
  apply (f_equal emit). rewrite unlines_app. reflexivity.
Qed.

End Dumping.

(** ** Reading back what was written *)

Section RoundTrip.
Context {E : Externals}.
Variables (fs : FileSystem) (f : File).

(** What the round trip needs from Python's floats: the text of a number
    is one token, and [float] reads it back. *)
Hypothesis format_token : forall x : number, is_token (format x) = true.
Hypothesis float_format : forall x : number, float (format x) = Ok x.

Lemma lines_unlines (ls : list string) :
  forallb one_line ls = true -> lines (unlines ls) = ls.
Proof.
  induction ls as [|l ls IH]; [reflexivity|].
  cbn [forallb unlines]. intros H. apply andb_prop in H as [Hl Hls].
  now rewrite (lines_line _ _ Hl), IH.
Qed.

Lemma for_each_app (A S : Type) (g : A -> S -> result S) (a b : list A) (s : S) :
  for_each (a ++ b) g s = (s' <- for_each a g s ;; for_each b g s').
Proof.
  revert s. induction a as [|x a IH]; intros s; [reflexivity|].
  cbn [app for_each]. destruct (g x s) as [s1|]; [|reflexivity].
  cbn [bind]. apply IH.
Qed.

(** A line whose first word is none of the directives that change the
    state leaves the parser as it is. *)
Lemma parse_inert (ln head : string) (body : list string) (st : parser) :
  split ln = head :: body ->
  in_ head ["mtllib"; "v"; "o"; "usemtl"; "p"; "l"; "f"] = false ->
  parse_line fs f ln st = Ok st.
Proof.
  intros Hsplit Hdir. destruct (String.eqb_spec head "#") as [->|Hne].
  - unfold parse_line. now rewrite Hsplit.
  - apply parse_ignored with (head := head) (body := body); [exact Hsplit|].
    apply String.eqb_neq in Hne.
    cbn [in_ existsb] in Hdir |- *. now rewrite Hne.
Qed.

Lemma one_line_spaced (l : list string) :
  forallb one_line l = true -> one_line (spaced l) = true.
Proof.
  induction l as [|x l IH]; [reflexivity|].
  cbn [forallb spaced]. intros H. apply andb_prop in H as [Hx Hl].
  now rewrite !one_line_append, Hx, IH.
Qed.

Lemma one_line_join (ts : list string) :
  forallb is_token ts = true -> one_line (join " " ts) = true.
Proof.
  induction ts as [|t ts IH]; [reflexivity|].
  cbn [forallb]. intros H. apply andb_prop in H as [Ht Hts].
  destruct ts as [|u ts]; [now apply token_one_line|].
  change (join " " (t :: u :: ts)) with (t +++ " " +++ join " " (u :: ts)).
  now rewrite !one_line_append, (token_one_line _ Ht), IH.
Qed.

Lemma geometry_line_join (k : Kind) (ixs : list Z) :
  match k, ixs with
  | point, [] => False
  | line, [_; _] => True
  | line, _ => False
  | _, _ => True
  end ->
  exists head body,
    geometry_line k ixs = join " " (head :: map str body) /\
    is_token head = true /\
    match k with
    | point => head = "p" /\ body = firstn 1 ixs
    | line => head = "l" /\ body = ixs
    | wireframe => head = "l" /\ body = ixs
    | polygon => head = "f" /\ body = ixs
    end.
Proof.
  intros Harity. destruct k.
  - destruct ixs as [|i l]; [contradiction|]. exists "p", [i]. repeat split.
  - destruct ixs as [|a [|b [|c l]]]; try contradiction.
    exists "l", [a; b]. repeat split.
  - exists "l", ixs. repeat split.
  - exists "f", ixs. repeat split.
Qed.

Lemma vertex_line_one_line (p : PointOf number) : one_line (vertex_line p) = true.
Proof.
  unfold vertex_line. rewrite !one_line_append.
  rewrite !(token_one_line _ (format_token _)).
  destruct (pz p); [reflexivity|].
  now rewrite (token_one_line _ (format_token _)).
Qed.

Lemma split_vertex_line (p : PointOf number) :
  exists z, split (vertex_line p) = ["v"; format (px p); format (py p); z; "1.0"].
Proof.
  unfold vertex_line.
  set (z := match pz p with [] => "1.0" | z0 :: _ => format z0 end).
  assert (Hz : is_token z = true) by (subst z; destruct (pz p); auto).
  exists z.
  change (split ("v" +++ " " +++ format (px p) +++ " " +++ format (py p) +++ " "
                 +++ z +++ " " +++ "1.0")
          = ["v"; format (px p); format (py p); z; "1.0"]).
  rewrite (split_token_space "v" _ eq_refl).
  rewrite (split_token_space _ _ (format_token _)).
  rewrite (split_token_space _ _ (format_token _)).
  rewrite (split_token_space _ _ Hz). reflexivity.
Qed.

Lemma parse_vertex_line (p : PointOf number) (st : parser) :
  parse_line fs f (vertex_line p) st
  = Ok (mkParser (descriptors st) (vertices st ++ [Some (flat p)])
                 (globals_ st) (materials st) (current_obj st)).
Proof.
  destruct (split_vertex_line p) as [z Hsplit].
  apply parse_v with (x := format (px p)) (y := format (py p)) (more := [z; "1.0"]);
    auto.
Qed.

Lemma parse_vertex_lines (ps : list (PointOf number)) :
  forall st,
  for_each (map vertex_line ps) (parse_line fs f) st
  = Ok (mkParser (descriptors st) (vertices st ++ map (fun p => Some (flat p)) ps)
                 (globals_ st) (materials st) (current_obj st)).
Proof.
  induction ps as [|p ps IH]; intros st.
  - cbn. rewrite app_nil_r. now destruct st.
  - cbn [map for_each]. rewrite parse_vertex_line. cbn [bind]. rewrite IH.
    cbn [descriptors vertices globals_ materials current_obj].
    now rewrite <- app_assoc.
Qed.

(** *** The lines of an object *)

Lemma attribute_lines_inert (kwargs : dict value) (n key ln : string) :
  forallb inert_attribute kwargs = true ->
  In key (keys (dict_set kwargs "name" (VStr n))) ->
  In ln (attribute_lines (dict_set kwargs "name" (VStr n)) key) ->
  one_line ln = true /\ forall st, parse_line fs f ln st = Ok st.
Proof.
  intros Hall Hkey. unfold attribute_lines.
  destruct (in_ key ["name"; "color"]) eqn:Hskip; [contradiction|].
  destruct (written_key _ _ _ Hall Hkey Hskip) as (v & -> & Hval & Htok & Hdir).
  assert (Hgen : forall l, forallb one_line l = true ->
            one_line ((key +++ " ") +++ spaced l) = true /\
            forall st, parse_line fs f ((key +++ " ") +++ spaced l) st = Ok st).
  { intros l Hl. split.
    - now rewrite !one_line_append, (token_one_line _ Htok), one_line_spaced.
    - intros st. apply parse_inert with (head := key) (body := split (spaced l));
        [|exact Hdir].
      rewrite append_assoc. now apply split_token_space. }
  destruct v as [s|l|c]; [| |discriminate]; intros [<- | []]; apply Hgen.
  - cbn [forallb inert_value] in *. now rewrite Hval.
  - exact Hval.
Qed.

Lemma for_each_inert (lns : list string) (st : parser) :
  Forall (fun ln => forall st, parse_line fs f ln st = Ok st) lns ->
  for_each lns (parse_line fs f) st = Ok st.
Proof.
  intros H. induction H as [|ln lns Hln _ IH]; [reflexivity|].
  cbn [for_each]. now rewrite Hln.
Qed.

Lemma written_arity (off : nat) (d : Drawable) (k : Kind) :
  kind_of d = Some k ->
  match k, slots off (length (points_of d)) with
  | point, [] => False
  | line, [_; _] => True
  | line, _ => False
  | _, _ => True
  end.
Proof.
  destruct d as [p|a b|ps|ps|]; try discriminate; intros H; injection H as <-;
    cbn [points_of length]; exact I.
Qed.

(** The lines of a written object are each on one line. *)
Lemma object_lines_one_line (off : nat) (d : Drawable) (n : string) (kwargs : dict value) :
  writable (d, n, kwargs) = true ->
  forallb one_line (object_lines n (descriptor_at off (d, n, kwargs))) = true.
Proof.
  intros Hw. destruct (writable_parts _ _ _ Hw) as (Hn & Hkw & k & Hk & _).
  unfold object_lines. cbn [descriptor_at kind attributes vertex_indexes].
  rewrite Hk. cbn [forallb]. apply andb_true_iff. split.
  - change ("o " +++ n) with ("o" +++ " " +++ n).
    now rewrite !one_line_append, (token_one_line _ Hn).
  - rewrite forallb_app. apply andb_true_iff. split.
    + apply forallb_forall. intros ln Hln. apply in_flat_map in Hln as (key & Hkey & Hln).
      now apply (attribute_lines_inert _ _ _ _ Hkw Hkey Hln).
    + cbn [forallb]. rewrite andb_true_r.
      destruct (geometry_line_join _ _ (written_arity off _ Hk))
        as (head & body & -> & Hhead & _).
      apply one_line_join. cbn [forallb]. now rewrite Hhead, tokens_str.
Qed.

(** Parsing the lines of a written object closes the object before it and
    leaves the object that the item describes as the current one. *)
Lemma parse_written_obj (off : nat) (d : Drawable) (n : string) (kwargs : dict value)
    (st : parser) :
  writable (d, n, kwargs) = true ->
  for_each (object_lines n (descriptor_at off (d, n, kwargs))) (parse_line fs f) st
  = Ok (mkParser (closed_by_o st) (vertices st) (globals_ st) (materials st)
                 (Some (parsed_at off (d, n, kwargs)))).
Proof.
  intros Hw. destruct (writable_parts _ _ _ Hw) as (Hn & Hkw & k & Hk & Hwire).
  unfold object_lines. cbn [descriptor_at kind attributes vertex_indexes].
  rewrite Hk. cbn [for_each].
  assert (Ho : split ("o " +++ n) = ["o"; n]).
  { change ("o " +++ n) with ("o" +++ " " +++ n).
    rewrite (split_token_space "o" n eq_refl). now rewrite split_token. }
  rewrite (@parse_o _ fs f _ _ _ st Ho). cbn [bind].
  rewrite for_each_app, for_each_inert.
  2:{ apply Forall_forall. intros ln Hln.
      apply in_flat_map in Hln as (key & Hkey & Hln).
      now apply (attribute_lines_inert _ _ _ _ Hkw Hkey Hln). }
  cbn [bind for_each].
  set (st1 := mkParser _ _ _ _ _).
  assert (Hcur : current_obj st1 = Some (new_ObjDescriptor n None None None))
    by reflexivity.
  destruct d as [p|a b|ps|ps|]; try discriminate; injection Hk as <-;
    cbn [points_of length geometry_line slots seq map].
  - rewrite parse_p with (b0 := str (Z.of_nat off)) (more := []) (i := Z.of_nat off)
                         (o := new_ObjDescriptor n None None None);
      auto using int_str.
    apply (split_directive "p" [Z.of_nat off]). reflexivity.
  - rewrite parse_l with (body := map str [Z.of_nat off; Z.of_nat (S off)])
                         (ixs := [Z.of_nat off; Z.of_nat (S off)])
                         (o := new_ObjDescriptor n None None None);
      auto using map_int_str.
    apply (split_directive "l" [Z.of_nat off; Z.of_nat (S off)]). reflexivity.
  - rewrite parse_l with (body := map str (map Z.of_nat (seq off (length (iter_Wireframe ps)))))
                         (ixs := map Z.of_nat (seq off (length (iter_Wireframe ps))))
                         (o := new_ObjDescriptor n None None None);
      auto using map_int_str.
    + replace (2 <? Z.of_nat (length (map str (map Z.of_nat
                 (seq off (length (iter_Wireframe ps))))))) with true; [reflexivity|].
      symmetry. apply Z.ltb_lt. rewrite !length_map, length_seq.
      specialize (Hwire eq_refl). cbn [points_of] in Hwire. lia.
    + apply split_directive. reflexivity.
  - rewrite parse_f with (body := map str (map Z.of_nat (seq off (length (iter_Polygon ps)))))
                         (ixs := map Z.of_nat (seq off (length (iter_Polygon ps))))
                         (o := new_ObjDescriptor n None None None);
      auto using map_int_str.
    apply split_directive. reflexivity.
Qed.

Lemma object_lines_from_one_line (items : list (Drawable * string * dict value)) :
  forall off,
  forallb writable items = true ->
  forallb one_line (object_lines_from off items) = true.
Proof.
  induction items as [|[[d n] kwargs] items IH]; intros off Hall; [reflexivity|].
  cbn [forallb] in Hall. apply andb_prop in Hall as [Hw Hall].
  cbn [object_lines_from fst snd]. rewrite forallb_app.
  now rewrite (object_lines_one_line off _ _ _ Hw), IH.
Qed.

Lemma parsed_at_kind (off : nat) (item : Drawable * string * dict value) :
  writable item = true -> exists k, kind (parsed_at off item) = Some k.
Proof.
  destruct item as [[d n] kwargs]. intros Hw.
  destruct (writable_parts _ _ _ Hw) as (_ & _ & k & Hk & _). now exists k.
Qed.

(** Parsing the lines of the objects of a written session rebuilds one
    descriptor for each item, after those that the parser had closed. *)
Lemma parse_written_objs (items : list (Drawable * string * dict value)) :
  forall item off st,
  forallb writable (item :: items) = true ->
  exists st',
    for_each (object_lines_from off (item :: items)) (parse_line fs f) st = Ok st' /\
    parser_result st'
    = (closed_by_o st ++ parsed_from off (item :: items), vertices st, globals_ st).
Proof.
  induction items as [|item2 items IH]; intros [[d n] kwargs] off st Hall;
    cbn [forallb] in Hall; apply andb_prop in Hall as [Hw Hall].
  - cbn [object_lines_from parsed_from fst snd]. rewrite app_nil_r.
    rewrite (parse_written_obj off _ _ _ st Hw). eexists. split; reflexivity.
  - change (object_lines_from off ((d, n, kwargs) :: item2 :: items))
      with (object_lines n (descriptor_at off (d, n, kwargs))
            ++ object_lines_from (off + length (points_of d)) (item2 :: items)).
    rewrite for_each_app, (parse_written_obj off _ _ _ st Hw). cbn [bind].
    destruct (IH item2 (off + length (points_of d))%nat
                 (mkParser (closed_by_o st) (vertices st) (globals_ st) (materials st)
                           (Some (parsed_at off (d, n, kwargs)))) Hall)
      as (st' & Hrun & Hres).
    exists st'. split; [exact Hrun|]. rewrite Hres.
    destruct (parsed_at_kind off (d, n, kwargs) Hw) as [k Hk].
    unfold closed_by_o at 1.
    cbn [current_obj descriptors vertices globals_]. rewrite Hk.
    change (parsed_from off ((d, n, kwargs) :: item2 :: items))
      with (parsed_at off (d, n, kwargs)
            :: parsed_from (off + length (points_of d)) (item2 :: items)).
    now rewrite <- app_assoc.
Qed.

(** *** Translating the descriptors that were rebuilt *)

Lemma lookup_slots (self : ObjFile) (ps : list (PointOf number)) :
  forall pre post,
  _vertices self = pre ++ map Some ps ++ post ->
  map_result (vertex self) (slots (length pre) (length ps)) = Ok ps.
Proof.
  induction ps as [|p ps IH]; intros pre post Hvs; [reflexivity|].
  cbn [length]. rewrite slots_S. cbn [map_result].
  assert (Hp : vertex self (Z.of_nat (length pre)) = Ok p).
  { unfold vertex. rewrite Hvs. cbn [map app]. now rewrite getitem_slot. }
  rewrite Hp. cbn [bind].
  replace (S (length pre)) with (length (pre ++ [Some p]))
    by (rewrite length_app; cbn [length]; lia).
  rewrite (IH (pre ++ [Some p]) post); [reflexivity|].
  rewrite Hvs. cbn [map app]. now rewrite <- app_assoc.
Qed.

Lemma translate_parsed (self : ObjFile) (d : Drawable) (n : string) (kwargs : dict value)
    (pre post : list (option (PointOf number))) :
  writable (d, n, kwargs) = true ->
  _vertices self = pre ++ map Some (map flat (points_of d)) ++ post ->
  _obj_to_drawable self (parsed_at (length pre) (d, n, kwargs))
  = Ok (item_read_back (d, n, kwargs)).
Proof.
  intros Hw Hvs. unfold _obj_to_drawable, item_read_back.
  cbn [parsed_at kind vertex_indexes attributes].
  destruct (writable_parts _ _ _ Hw) as (_ & _ & k & Hk & _).
  destruct d as [p|a b|ps|ps|]; try discriminate; cbn [kind_of points_of read_back] in *.
  - cbn [length slots seq map]. rewrite getitem_0. cbn [bind].
    unfold vertex. rewrite Hvs. cbn [map app]. rewrite getitem_slot. reflexivity.
  - cbn [length slots seq map]. rewrite getitem_0, getitem_1. cbn [bind].
    rewrite Hvs. cbn [map app]. rewrite getitem_slot. cbn [bind].
    replace (Z.of_nat (S (length pre)))
      with (Z.of_nat (length (pre ++ [Some (flat a)])))
      by (rewrite length_app; cbn [length]; lia).
    replace (pre ++ Some (flat a) :: Some (flat b) :: post)
      with ((pre ++ [Some (flat a)]) ++ Some (flat b) :: post)
      by (now rewrite <- app_assoc).
    rewrite getitem_slot. reflexivity.
  - rewrite <- (length_map flat (iter_Wireframe ps)).
    now rewrite (lookup_slots self _ pre post Hvs).
  - rewrite <- (length_map flat (iter_Polygon ps)).
    now rewrite (lookup_slots self _ pre post Hvs).
Qed.

Lemma read_parsed (self : ObjFile) (items : list (Drawable * string * dict value)) :
  forall pre post,
  forallb writable items = true ->
  _vertices self = pre ++ map Some (map flat (all_points items)) ++ post ->
  map_result (_obj_to_drawable self) (parsed_from (length pre) items)
  = Ok (map item_read_back items).
Proof.
  induction items as [|[[d n] kwargs] items IH]; intros pre post Hall Hvs;
    [reflexivity|].
  cbn [forallb] in Hall. apply andb_prop in Hall as [Hw Hall].
  unfold all_points in Hvs. cbn [flat_map fst] in Hvs.
  rewrite !map_app, <- app_assoc in Hvs.
  cbn [parsed_from map_result map fst].
  rewrite (translate_parsed self _ _ _ pre _ Hw Hvs). cbn [bind].
  replace (length pre + length (points_of d))%nat
    with (length (pre ++ map Some (map flat (points_of d))))
    by (now rewrite length_app, !length_map).
  rewrite (IH (pre ++ map Some (map flat (points_of d))) post Hall); [reflexivity|].
  rewrite Hvs. now rewrite <- app_assoc.
Qed.

End RoundTrip.

Section RoundTripTheorem.
Context {E : Externals}.
Variables (fs : FileSystem) (path : string).
Hypothesis format_token : forall x : number, is_token (format x) = true.
Hypothesis float_format : forall x : number, float (format x) = Ok x.

(** The text that [close] leaves in the file of a written session. *)
Lemma close_written (item : Drawable * string * dict value)
    (items : list (Drawable * string * dict value)) :
  forallb writable (item :: items) = true ->
  close (mkObjFile (mkFile path "") "w" (descriptors_from 1 (item :: items))
                   (None :: map Some (all_points (item :: items))) [])
  = (mkFile path (unlines (map vertex_line (all_points (item :: items))
                           ++ object_lines_from 1 (item :: items))),
     Ok tt).
Proof.
  intros Hall. unfold close.
  cbn [mode _descriptors _vertices _globals file name text].
  rewrite (dump_written _ Hall). reflexivity.
Qed.

(** What the parser makes of that text. *)
Lemma parse_written (item : Drawable * string * dict value)
    (items : list (Drawable * string * dict value)) :
  forallb writable (item :: items) = true ->
  _parse_objs fs
    (mkFile path (unlines (map vertex_line (all_points (item :: items))
                           ++ object_lines_from 1 (item :: items))))
  = Ok (parsed_from 1 (item :: items),
        None :: map Some (map flat (all_points (item :: items))), []).
Proof.
  intros Hall. unfold _parse_objs. cbn [text].
  set (file := mkFile path _).
  rewrite lines_unlines.
  2:{ rewrite forallb_app. apply andb_true_iff. split.
      - apply forallb_forall. intros ln Hln. apply in_map_iff in Hln as (p & <- & _).
        now apply vertex_line_one_line.
      - now apply (object_lines_from_one_line fs file). }
  rewrite for_each_app, (parse_vertex_lines fs file format_token float_format).
  cbn [bind].
  destruct (parse_written_objs fs file items item 1
              (mkParser (descriptors (parser_init file))
                 (vertices (parser_init file)
                  ++ map (fun p => Some (flat p)) (all_points (item :: items)))
                 (globals_ (parser_init file)) (materials (parser_init file))
                 (current_obj (parser_init file))) Hall)
    as (st' & -> & Hres).
  cbn [bind]. rewrite Hres. cbn [parser_init closed_by_o current_obj descriptors
    vertices globals_ new_ObjDescriptor kind app].
  now rewrite map_map.
Qed.

End RoundTripTheorem.

(** ** The reference instance reads what it prints *)

Lemma plain_append (a b : string) : plain (a +++ b) = plain a && plain b.
Proof.
  unfold plain. induction a as [|x a IH]; [reflexivity|].
  cbn [append list_ascii_of_string forallb]. now rewrite IH, andb_assoc.
Qed.

Lemma digits_of_append (fuel : nat) :
  forall n a b, digits_of fuel n (a +++ b) = digits_of fuel n a +++ b.
Proof.
  induction fuel as [|fuel IH]; intros n a b; [reflexivity|].
  cbn [digits_of]. destruct (n <? 10); [reflexivity|].
  now rewrite <- IH.
Qed.

Lemma frac_digits_append (k : nat) :
  forall n a b, frac_digits k n (a +++ b) = frac_digits k n a +++ b.
Proof.
  induction k as [|k IH]; intros n a b; [reflexivity|].
  cbn [frac_digits]. now rewrite <- IH.
Qed.

Lemma frac_digits_plain (k : nat) :
  forall n acc, plain acc = true -> plain (frac_digits k n acc) = true.
Proof.
  induction k as [|k IH]; intros n acc Hacc; [exact Hacc|].
  cbn [frac_digits]. apply IH. unfold plain in *.
  cbn [list_ascii_of_string forallb].
  destruct (digit_char_plain (mod10_digit n)) as [-> _]. exact Hacc.
Qed.

Lemma scan_digit (d : Z) (a : Z) (c : nat) (s : string) :
  0 <= d < 10 ->
  scan_digits a c (String (digit_char d) s) = scan_digits (10 * a + d) (S c) s.
Proof. intros H. cbn [scan_digits]. now rewrite (digit_of_char H). Qed.

Lemma scan_digits_of (fuel : nat) :
  forall n a c s, 0 <= n -> (Z.to_nat n < fuel)%nat ->
  exists K k, scan_digits a c (digits_of fuel n s)
              = scan_digits (a * K + n) (c + S k) s.
Proof.
  induction fuel as [|fuel IH]; intros n a c s Hn Hfuel; [lia|].
  cbn [digits_of]. destruct (n <? 10) eqn:Hlt.
  - apply Z.ltb_lt in Hlt. exists 10, 0%nat.
    rewrite (scan_digit _ _ _ (mod10_digit n)), Z.mod_small by lia.
    f_equal; lia.
  - apply Z.ltb_ge in Hlt.
    assert (Hdiv : 0 <= n / 10 < n)
      by (split; [apply Z.div_pos; lia | apply Z.div_lt; lia]).
    destruct (IH (n / 10) a c (String (digit_char (n mod 10)) s)) as (K & k & HK);
      [lia | lia |].
    exists (10 * K), (S k).
    rewrite HK, (scan_digit _ _ _ (mod10_digit n)).
    pose proof (Z.div_mod n 10). f_equal; lia.
Qed.

Lemma scan_frac_digits (k : nat) :
  forall n a c s,
  scan_digits a c (frac_digits k n s)
  = scan_digits (a * 10 ^ Z.of_nat k + n mod 10 ^ Z.of_nat k) (c + k) s.
Proof.
  induction k as [|k IH]; intros n a c s.
  - cbn [frac_digits]. change (10 ^ Z.of_nat 0) with 1.
    rewrite Z.mod_1_r. f_equal; lia.
  - cbn [frac_digits]. rewrite IH, (scan_digit _ _ _ (mod10_digit n)).
    rewrite Nat2Z.inj_succ, Z.pow_succ_r by lia.
    rewrite (Z.rem_mul_r n 10 (10 ^ Z.of_nat k)) by lia.
    f_equal; lia.
Qed.

Lemma decimal_unsigned (d : Z) (s : string) :
  0 <= d < 10 ->
  decimal_of_string (String (digit_char d) s)
  = decimal_body false (String (digit_char d) s).
Proof. intros H. each_digit H. Qed.

Lemma decimal_body_printed (neg : bool) (m : Z) (k : nat) :
  0 <= m ->
  decimal_body neg
    (str (m / 10 ^ Z.of_nat k) +++
     match k with
     | O => ""
     | S _ => "." +++ frac_digits k (m mod 10 ^ Z.of_nat k) ""
     end)
  = Ok (mkDecimal (if neg then - m else m) k).
Proof.
  intros Hm.
  assert (Hp : 0 < 10 ^ Z.of_nat k) by (apply Z.pow_pos_nonneg; lia).
  assert (Hw : 0 <= m / 10 ^ Z.of_nat k) by (apply Z.div_pos; lia).
  unfold str. replace (m / 10 ^ Z.of_nat k <? 0) with false
    by (symmetry; apply Z.ltb_ge; lia).
  rewrite <- digits_of_append. cbn [append]. unfold decimal_body.
  match goal with
  | |- context [scan_digits 0 0 (digits_of ?F ?w ?s)] =>
      destruct (@scan_digits_of F w 0 0%nat s Hw) as (K & j & ->); [lia|]
  end.
  destruct k as [|k].
  - cbn [scan_digits]. change (10 ^ Z.of_nat 0) with 1 in *.
    rewrite Z.div_1_r. cbn. now replace (0 * K + m) with m by lia.
  - cbn [scan_digits digit_of]. change (digit_of ".") with (@None Z). cbn iota.
    rewrite scan_frac_digits. cbn [scan_digits String.eqb andb].
    rewrite Z.mod_mod by lia.
    replace ((0 * K + m / 10 ^ Z.of_nat (S k)) * 10 ^ Z.of_nat (S k)
             + m mod 10 ^ Z.of_nat (S k)) with m
      by (pose proof (Z.div_mod m (10 ^ Z.of_nat (S k))); lia).
    reflexivity.
Qed.

Lemma str_head (n : Z) :
  0 <= n -> exists c r, 0 <= c < 10 /\ str n = String (digit_char c) r.
Proof.
  intros Hn. unfold str.
  replace (n <? 0) with false by (symmetry; apply Z.ltb_ge; lia).
  apply digits_of_head.
Qed.

Lemma float_format_decimal (d : decimal) :
  decimal_of_string (string_of_decimal d) = Ok d.
Proof.
  destruct d as [m k]. unfold string_of_decimal. cbn [mantissa places].
  destruct (m <? 0) eqn:Hneg.
  - apply Z.ltb_lt in Hneg. cbn [append decimal_of_string].
    rewrite decimal_body_printed by lia. f_equal. f_equal. lia.
  - apply Z.ltb_ge in Hneg. cbn [append].
    pose proof (decimal_body_printed false k (Z.abs_nonneg m)) as Hbody.
    rewrite Z.abs_eq in * by lia.
    assert (Hw : 0 <= m / 10 ^ Z.of_nat k)
      by (apply Z.div_pos; [lia | apply Z.pow_pos_nonneg; lia]).
    destruct (str_head Hw) as (c & r & Hc & Heq).
    rewrite Heq in *. cbn [append] in *. now rewrite decimal_unsigned.
Qed.

Lemma format_token_decimal (d : decimal) : is_token (string_of_decimal d) = true.
Proof.
  apply is_token_plain. destruct d as [m k].
  unfold string_of_decimal. cbn [mantissa places]. split.
  - destruct (m <? 0); [discriminate|]. cbn [append].
    pose proof (is_token_str (Z.abs m / 10 ^ Z.of_nat k)) as H.
    apply is_token_plain in H as [H _].
    destruct (str (Z.abs m / 10 ^ Z.of_nat k)); [contradiction | discriminate].
  - rewrite !plain_append.
    pose proof (is_token_str (Z.abs m / 10 ^ Z.of_nat k)) as H.
    apply is_token_plain in H as [_ ->].
    replace (plain (if m <? 0 then "-" else "")) with true
      by (now destruct (m <? 0)).
    destruct k as [|k]; [reflexivity|].
    rewrite plain_append, frac_digits_plain by reflexivity. reflexivity.
Qed.

(** ** The claims on sample scenes *)


(** An empty list of items does not come back empty either: nothing is
    written, and the empty file reads as one object without a drawable. *)
Example round_trip_of_nothing :
  round_trip scenes "/scenes/out.obj" [] [] = Ok [(None, [("name", VStr "out")])].
Proof. reflexivity. Qed.

(** A wireframe of two points comes back as a line. *)
Example round_trip_short_wireframe :
  round_trip scenes "/scenes/out.obj" [] [(DWireframe [at_ 0 0; at_ 1 1], "w", [])]
  = Ok [(Some (DLine (at_ 0 0) (at_ 1 1)), [("name", VStr "w")])].
Proof. reflexivity. Qed.

(** C4, as stated, fails: the session read from a file that holds [p 7]
    has a descriptor with the index 7, and a vertex table of length 1. *)
Lemma read_index_unchecked :
  exists self obj i,
    new_ObjFile scenes far_index "r" [] = Ok self /\
    In obj (_descriptors self) /\
    In i (vertex_indexes obj) /\
    ~ (1 <= i <= Z.of_nat (length (_vertices self))).
Proof.
  eexists. exists (mkObj (Some point) [7] [("name", VStr "far")]), 7.
  split; [reflexivity|]. cbn. repeat split; auto. lia.
Qed.

(** The indices of the gallery, written to a session in mode ['w+']. *)
Lemma written_indexes_within_witness :
  in_ "w+" ["w"; "w+"] = true /\
  exists opened self,
    new_ObjFile scenes (mkFile "/scenes/out.obj" "") "w+" [] = Ok opened /\
    write_all opened gallery = Ok self /\
    indexed self.
Proof.
  split; [reflexivity|].
  apply (@written_indexes_within decimal_externals scenes (mkFile "/scenes/out.obj" "")
           "w+" [] gallery).
  reflexivity.
Defined.

(** C5, as stated, fails: the file holds [p 1] and then [p 2] for the same
    object, so its descriptor is a point with the indices 1 and 2; the
    vertex table has no slot 2, and yet the session is read without an
    error, for a point only looks up its first index. *)
Lemma spare_index_never_raises :
  exists self obj i,
    new_ObjFile scenes spare_index "r" [] = Ok self /\
    In obj (_descriptors self) /\
    In i (vertex_indexes obj) /\
    getitem (_vertices self) i = Raise IndexError /\
    read self = Ok [(Some (DPoint (at_ 1 2)), [("name", VStr "spare")])].
Proof.
  eexists. exists (mkObj (Some point) [1; 2] [("name", VStr "spare")]), 2.
  split; [reflexivity|]. cbn. repeat split; auto.
Qed.

(** The index 0 raises [TypeError], as slot 0 holds [None]; the index 7
    raises [IndexError]; both when the session is read. *)
Example sentinel_index :
  (self <- new_ObjFile scenes slot_zero "r" [] ;; read self) = Raise TypeError /\
  (self <- new_ObjFile scenes far_index "r" [] ;; read self) = Raise IndexError.
Proof. split; reflexivity. Qed.

(** The file [far_index] parses, and raises when it is read. *)
Lemma lazy_index_error_witness :
  forallb well_formed (lines (text far_index)) = true /\
  exists self,
    new_ObjFile scenes far_index "r" [] = Ok self /\
    forall before obj after pre i post,
      _descriptors self = before ++ obj :: after ->
      Forall (fun d => ok (_obj_to_drawable self d) = true) before ->
      used_indexes obj = pre ++ i :: post ->
      Forall (fun j => ok (vertex self j) = true) pre ->
      out_of_table (_vertices self) i = true ->
      read self = Raise IndexError.
Proof.
  split; [reflexivity|].
  apply (@lazy_index_error decimal_externals scenes far_index). reflexivity.
Defined.



(** The whole of [red_point] parses into one object, red. *)
Example red_point_parsed :
  _parse_objs scenes red_point
  = Ok ([mkObj (Some point) [1]
           [("name", VStr "a"); ("usemtl", VStr "red"); ("color", VColor red)]],
        [None; Some (at_ 1 2)],
        [("mtllib", VList ["lib.mtl"])]).
Proof. reflexivity. Qed.

(** The file [triangle] parses into one object, named [triangle]. *)
Lemma implicit_object_witness :
  forallb geometry_only (lines (text triangle)) = true /\
  exists d vs gs,
    _parse_objs scenes triangle = Ok ([d], vs, gs) /\
    dict_get (attributes d) "name" = Some (VStr "triangle").
Proof.
  split; [reflexivity|].
  destruct (@implicit_object decimal_externals scenes triangle eq_refl) as [Hok Hone].
  destruct (Hok eq_refl) as [[[ds vs] gs] Hparse].
  destruct (Hone _ _ _ Hparse) as (d & Hds & Hname). subst ds.
  exists d, vs, gs. split; [exact Hparse | exact Hname].
Defined.

(** The line [o b] met with a current object that has a material and no
    kind. *)
Lemma o_discards_kindless_witness :
  (split "o b" = ["o"; "b"] /\
   current_obj pending_material
     = Some (mkObj None [] [("name", VStr "a"); ("usemtl", VStr "red");
                            ("color", VColor red)]) /\
   kind (mkObj None [] [("name", VStr "a"); ("usemtl", VStr "red");
                        ("color", VColor red)]) = None) /\
  parse_line scenes dropped_material "o b" pending_material
  = Ok (mkParser [] [None] [] [("red", red)]
                 (Some (mkObj None [] [("name", VStr "b")]))).
Proof.
  split; [repeat split|].
  apply (@o_discards_kindless decimal_externals scenes dropped_material
           pending_material _ "o b" "b" [] eq_refl eq_refl eq_refl).
Defined.

(** The whole of [dropped_material] parses into the object [b] alone: the
    object [a], its material and its colour are gone. *)
Example dropped_material_parsed :
  _parse_objs scenes dropped_material
  = Ok ([mkObj (Some point) [1] [("name", VStr "b")]],
        [None; Some (at_ 1 2)],
        [("mtllib", VList ["lib.mtl"])]).
Proof. reflexivity. Qed.

(** * Further properties of the parser *)

Section Invariants.
Context {E : Externals}.
Variables (fs : FileSystem) (f : File).

(** Takes apart a sequence of binds that ended well. *)
Ltac unbind H :=
  cbv beta iota in H;
  repeat match type of H with
         | bind (Ok _) _ = Ok _ => cbn [bind] in H
         | bind ?m _ = Ok _ =>
             let x := fresh "x" in
             let Hx := fresh "Hx" in
             destruct m as [x|] eqn:Hx; [cbn [bind] in H | discriminate H]
         end.

Lemma with_geometry_keeps (o : _ObjDescriptor) (k : Kind) (ixs : list Z) :
  attributes (with_geometry o k ixs) = attributes o.
Proof. reflexivity. Qed.

Lemma parsed_keys_usemtl (o : _ObjDescriptor) (m : string) (c : Color) :
  parsed_keys o ->
  parsed_keys (set_attribute (set_attribute o "usemtl" (VStr m)) "color" (VColor c)).
Proof.
  intros [[n Hn] | (n & m0 & c0 & Hn)]; right; exists n, m, c;
    cbn [set_attribute attributes]; now rewrite Hn.
Qed.

(** What one line does to the state of the parser, when it parses: it
    adds a vertex exactly when it is a [v] line, it closes the current
    object at most, and only one that has a kind, and it leaves a current
    object whose attributes have one of the two shapes. *)
Lemma parse_line_step (ln : string) (st st' : parser) (o : _ObjDescriptor) :
  parse_line fs f ln st = Ok st' ->
  current_obj st = Some o ->
  (exists extra, vertices st' = vertices st ++ map Some extra /\
                 length extra = if is_v ln then 1%nat else 0%nat) /\
  (descriptors st' = descriptors st \/
   (descriptors st' = descriptors st ++ [o] /\ kind o <> None)) /\
  (exists o', current_obj st' = Some o' /\ (parsed_keys o -> parsed_keys o')).
Proof.
  unfold parse_line, is_v, the_current. intros H Hcur.
  assert (Hsame : forall st, vertices st = vertices st ++ map Some (@nil (PointOf number)))
    by (intros; cbn; now rewrite app_nil_r).
  destruct (split ln) as [|head body].
  { injection H as <-. repeat split; eauto. }
  rewrite Hcur in H.
  destruct (String.eqb_spec head "#") as [->|_].
  { injection H as <-. repeat split; eauto. }
  destruct (String.eqb_spec head "mtllib") as [->|_].
  { unbind H. destruct x as [g m]. injection H as <-. cbn. repeat split; eauto. }
  destruct (String.eqb_spec head "v") as [->|_].
  { destruct body as [|x [|y more]]; try discriminate. unbind H.
    injection H as <-. cbn. repeat split; eauto.
    exists [Point2 x0 x1]. now split. }
  destruct (String.eqb_spec head "o") as [->|_].
  { unbind H. injection H as <-. cbn. split; [eauto|]. split.
    - destruct (kind o) eqn:Hk; [right | now left].
      split; [reflexivity | congruence].
    - eexists. split; [reflexivity|]. intros _. left. now exists x. }
  destruct (String.eqb_spec head "usemtl") as [->|_].
  { unbind H. injection H as <-. cbn. repeat split; eauto.
    eexists. split; [reflexivity|]. apply parsed_keys_usemtl. }
  destruct (String.eqb_spec head "p") as [->|_].
  { unbind H. injection H as <-. cbn. repeat split; eauto. }
  destruct (String.eqb_spec head "l") as [->|_].
  { unbind H. injection H as <-. apply append_indexes_keeps in Hx as [Ha _].
    cbn. repeat split; eauto. exists x. split; [reflexivity|].
    unfold parsed_keys. now rewrite Ha. }
  destruct (String.eqb_spec head "f") as [->|_].
  { unbind H. injection H as <-. apply append_indexes_keeps in Hx as [Ha _].
    cbn. repeat split; eauto. exists x. split; [reflexivity|].
    unfold parsed_keys. now rewrite Ha. }
  injection H as <-. repeat split; eauto.
Qed.

Lemma parse_run (lns : list string) :
  forall st st' o,
  for_each lns (parse_line fs f) st = Ok st' ->
  current_obj st = Some o -> parsed_keys o ->
  Forall (fun d => kind d <> None /\ parsed_keys d) (descriptors st) ->
  exists ps o',
    vertices st' = vertices st ++ map Some ps /\
    length ps = length (filter is_v lns) /\
    current_obj st' = Some o' /\ parsed_keys o' /\
    Forall (fun d => kind d <> None /\ parsed_keys d) (descriptors st').
Proof.
  induction lns as [|ln lns IH]; intros st st' o Hrun Hcur Hkeys Hds.
  - injection Hrun as <-. exists [], o. cbn. rewrite app_nil_r. auto.
  - cbn [for_each] in Hrun.
    destruct (parse_line fs f ln st) as [st1|] eqn:H1; [|discriminate].
    cbn [bind] in Hrun.
    destruct (parse_line_step _ _ H1 Hcur)
      as ((extra & Hvs & Hlen) & Hdescs & o1 & Hcur1 & Hkeys1).
    assert (Hds1 : Forall (fun d => kind d <> None /\ parsed_keys d) (descriptors st1)).
    { destruct Hdescs as [-> | [-> Hk]]; [exact Hds|].
      apply Forall_app. split; [exact Hds|]. constructor; auto. }
    destruct (IH _ _ _ Hrun Hcur1 (Hkeys1 Hkeys) Hds1)
      as (ps & o' & Hvs' & Hlen' & Hcur' & Hkeys' & Hds').
    exists (extra ++ ps), o'. repeat split; auto.
    + now rewrite Hvs', Hvs, map_app, app_assoc.
    + rewrite length_app, Hlen, Hlen'. cbn [filter].
      now destruct (is_v ln).
Qed.

Lemma parser_init_keys : parsed_keys (new_ObjDescriptor (before_dot (basename (name f))) None None None).
Proof. left. now eexists. Qed.

(** X1: the vertex table that the parser returns starts with the
    placeholder [None], and after it holds one point for each [v] line of
    the file, and nothing else. *)
Theorem parsed_vertices (ds : list _ObjDescriptor)
    (vs : list (option (PointOf number))) (gs : dict value) :
  _parse_objs fs f = Ok (ds, vs, gs) ->
  exists ps, vs = None :: map Some ps /\
             length ps = length (filter is_v (lines (text f))).
Proof.
  unfold _parse_objs. intros H.
  destruct (for_each _ _ _) as [st|] eqn:Hrun; [|discriminate].
  injection H as _ <- _.
  destruct (parse_run _ _ Hrun eq_refl parser_init_keys (Forall_nil _))
    as (ps & _ & Hvs & Hlen & _).
  exists ps. now split.
Qed.

(** X2: the parser never returns an empty list, and every descriptor it
    returns but the last has its kind set: only the object that was
    current at the end of the file can be without one. *)
Theorem parsed_kinds (ds : list _ObjDescriptor)
    (vs : list (option (PointOf number))) (gs : dict value) :
  _parse_objs fs f = Ok (ds, vs, gs) ->
  exists init last, ds = init ++ [last] /\ Forall (fun d => kind d <> None) init.
Proof.
  unfold _parse_objs. intros H.
  destruct (for_each _ _ _) as [st|] eqn:Hrun; [|discriminate].
  injection H as <- _ _.
  destruct (parse_run _ _ Hrun eq_refl parser_init_keys (Forall_nil _))
    as (_ & o' & _ & _ & Hcur & _ & Hds).
  unfold parser_result. rewrite Hcur. exists (descriptors st), o'.
  split; [reflexivity|]. eapply Forall_impl; [|exact Hds]. now intros d [Hk _].
Qed.

(** X3: the attributes of every descriptor that the parser returns are
    its name alone, or its name, [usemtl] and [color], in this order; the
    name and the material are strings, the colour is a colour. The parser
    makes no other attribute. *)
Theorem parsed_attributes (ds : list _ObjDescriptor)
    (vs : list (option (PointOf number))) (gs : dict value) :
  _parse_objs fs f = Ok (ds, vs, gs) ->
  Forall parsed_keys ds.
Proof.
  unfold _parse_objs. intros H.
  destruct (for_each _ _ _) as [st|] eqn:Hrun; [|discriminate].
  injection H as <- _ _.
  destruct (parse_run _ _ Hrun eq_refl parser_init_keys (Forall_nil _))
    as (_ & o' & _ & _ & Hcur & Hkeys & Hds).
  unfold parser_result. rewrite Hcur. apply Forall_app. split.
  - eapply Forall_impl; [|exact Hds]. now intros d [_ Hk].
  - now constructor.
Qed.

End Invariants.

Section Lines.
Context {E : Externals}.
Variables (fs : FileSystem).

Lemma parse_ignored_line (f : File) (ln : string) (st : parser) :
  ignored ln = true -> parse_line fs f ln st = Ok st.
Proof.
  unfold ignored. destruct (split ln) as [|head body] eqn:Hsplit; intros H.
  - now apply parse_blank.
  - apply negb_true_iff in H. now apply parse_inert with (head := head) (body := body).
Qed.

Lemma for_each_skip (f : File) (lns : list string) :
  forall st,
  for_each (filter (fun ln => negb (ignored ln)) lns) (parse_line fs f) st
  = for_each lns (parse_line fs f) st.
Proof.
  induction lns as [|ln lns IH]; intros st; [reflexivity|].
  cbn [filter for_each]. destruct (ignored ln) eqn:Hln; cbn [negb].
  - rewrite (parse_ignored_line f ln st Hln). cbn [bind]. apply IH.
  - cbn [for_each]. destruct (parse_line fs f ln st); [|reflexivity].
    cbn [bind]. apply IH.
Qed.

Lemma for_each_ext (A S : Type) (g h : A -> S -> result S) (xs : list A) :
  (forall x s, g x s = h x s) -> forall s, for_each xs g s = for_each xs h s.
Proof.
  intros Hgh. induction xs as [|x xs IH]; intros s; [reflexivity|].
  cbn [for_each]. rewrite Hgh. destruct (h x s); [|reflexivity]. cbn [bind]. apply IH.
Qed.

(** The parser looks at the name of the file only. *)
Lemma parse_line_name (f f' : File) (ln : string) (st : parser) :
  name f = name f' -> parse_line fs f ln st = parse_line fs f' ln st.
Proof. unfold parse_line. now intros ->. Qed.

(** X4: blank lines, comments and the lines of directives that the parser
    does not know change nothing: two files of the same name whose other
    lines are the same, in the same order, parse alike, to the same result
    or to the same exception. *)
Theorem ignored_lines_do_not_matter (f f' : File) :
  name f = name f' ->
  filter (fun ln => negb (ignored ln)) (lines (text f))
  = filter (fun ln => negb (ignored ln)) (lines (text f')) ->
  _parse_objs fs f = _parse_objs fs f'.
Proof.
  intros Hname Hlines. unfold _parse_objs.
  rewrite <- (for_each_skip f), <- (for_each_skip f'), Hlines.
  rewrite (for_each_ext _ (parse_line fs f') _ (fun ln st => parse_line_name f f' ln st Hname)).
  unfold parser_init. now rewrite Hname.
Qed.

(** X5: a directive without its operand. With a current object, the
    lines [o], [usemtl] and [p] alone raise [IndexError], and [v] with
    less than two numbers raises [ValueError]; [l] and [f] alone are
    accepted: the current object becomes of kind line, or polygon, with
    the indices and the attributes it had, and nothing else of the state
    changes. *)
Theorem missing_operands (f : File) (st : parser) (o : _ObjDescriptor) (x : string) :
  current_obj st = Some o ->
  parse_line fs f "o" st = Raise IndexError /\
  parse_line fs f "usemtl" st = Raise IndexError /\
  parse_line fs f "p" st = Raise IndexError /\
  (exists msg, parse_line fs f "v" st = Raise (ValueError msg)) /\
  (is_token x = true ->
   exists msg, parse_line fs f ("v " +++ x) st = Raise (ValueError msg)) /\
  parse_line fs f "l" st
    = Ok (mkParser (descriptors st) (vertices st) (globals_ st) (materials st)
            (Some (mkObj (Some line) (vertex_indexes o) (attributes o)))) /\
  parse_line fs f "f" st
    = Ok (mkParser (descriptors st) (vertices st) (globals_ st) (materials st)
            (Some (mkObj (Some polygon) (vertex_indexes o) (attributes o)))).
Proof.
  intros Hcur.
  assert (Hl : parse_line fs f "l" st
               = Ok (mkParser (descriptors st) (vertices st) (globals_ st) (materials st)
                       (Some (mkObj (Some line) (vertex_indexes o) (attributes o))))).
  { rewrite parse_l with (body := []) (ixs := []) (o := o); auto.
    unfold with_current, with_geometry, set_vertex_indexes, set_kind.
    cbn [kind vertex_indexes attributes Z.of_nat length Z.ltb Z.compare].
    now rewrite app_nil_r. }
  assert (Hf : parse_line fs f "f" st
               = Ok (mkParser (descriptors st) (vertices st) (globals_ st) (materials st)
                       (Some (mkObj (Some polygon) (vertex_indexes o) (attributes o))))).
  { rewrite parse_f with (body := []) (ixs := []) (o := o); auto.
    unfold with_current, with_geometry, set_vertex_indexes, set_kind.
    cbn [kind vertex_indexes attributes]. now rewrite app_nil_r. }
  rewrite Hl, Hf. unfold parse_line, the_current.
  change (split "o") with ["o"]. change (split "usemtl") with ["usemtl"].
  change (split "p") with ["p"]. change (split "v") with ["v"].
  rewrite Hcur. repeat split; try reflexivity.
  - eexists. reflexivity.
  - intros Hx. change ("v " +++ x) with ("v" +++ " " +++ x).
    rewrite (split_token_space "v" x eq_refl), (split_token _ Hx).
    eexists. reflexivity.
Qed.

Lemma with_geometry_twice (o : _ObjDescriptor) (k1 k2 : Kind) (a b : list Z) :
  with_geometry (with_geometry o k1 a) k2 b = with_geometry o k2 (a ++ b).
Proof. unfold with_geometry, set_vertex_indexes, set_kind. cbn. now rewrite app_assoc. Qed.


End Lines.

(** * Further properties of the material libraries *)

Section Libraries.
Context {E : Externals}.
Variables (fs : FileSystem) (f : File).

Lemma split_newmtl (n : string) :
  is_token n = true -> split ("newmtl " +++ n) = ["newmtl"; n].
Proof.
  intros Hn. change ("newmtl " +++ n) with ("newmtl" +++ " " +++ n).
  now rewrite (split_token_space "newmtl" n eq_refl), split_token.
Qed.

Lemma split_Kd (cs : list string) :
  forallb is_token cs = true -> split (join " " ("Kd" :: cs)) = "Kd" :: cs.
Proof. intros Hcs. apply split_join. cbn [forallb]. now rewrite Hcs. Qed.

(** The two lines of a material define it and leave no name pending. *)
Lemma load_material (m : material) (table : dict Color) :
  well_defined m ->
  for_each (material_lines m) (parse_mtl_line "mtllib") (None, table)
  = Ok (None, define_material table m).
Proof.
  destruct m as [[n cs] zs]. intros (Hn & Hcs & Hzs).
  cbn [material_lines for_each]. unfold parse_mtl_line at 1.
  rewrite (split_newmtl _ Hn). rewrite getitem_1.
  cbn [String.eqb Ascii.eqb Bool.eqb bind]. unfold parse_mtl_line.
  rewrite (split_Kd _ Hcs).
  cbn [String.eqb Ascii.eqb Bool.eqb bind assert].
  change (map_result (fun x => f0 <- float x ;; times_0xFF f0) cs)
    with (map_result channel cs).
  now rewrite Hzs.
Qed.

Lemma load_materials (ms : list material) :
  forall table,
  Forall well_defined ms ->
  for_each (flat_map material_lines ms) (parse_mtl_line "mtllib") (None, table)
  = Ok (None, fold_left define_material ms table).
Proof.
  induction ms as [|m ms IH]; intros table Hms; [reflexivity|].
  inversion Hms as [|? ? Hm Hrest]; subst.
  cbn [flat_map fold_left]. rewrite for_each_app, (load_material m table Hm).
  cbn [bind]. now apply IH.
Qed.

Lemma material_lines_one_line (ms : list material) :
  Forall well_defined ms -> forallb one_line (flat_map material_lines ms) = true.
Proof.
  intros Hms. induction Hms as [|[[n cs] zs] ms (Hn & Hcs & _) _ IH]; [reflexivity|].
  cbn [flat_map material_lines app forallb]. rewrite IH, andb_true_r.
  apply andb_true_iff. split.
  - change ("newmtl " +++ n) with ("newmtl" +++ " " +++ n).
    now rewrite !one_line_append, (token_one_line _ Hn).
  - apply one_line_join. cbn [forallb]. now rewrite Hcs.
Qed.

(** X7: the [mtllib] directive. When the library holds, for each of its
    materials, a line [newmtl] with its name and a line [Kd] with its
    channels, the directive records the name of the library in the
    globals and defines the materials, in the order of the file, each as
    the colour of its channels; a material defined again takes the place
    of the one before. Nothing else in the state changes. *)
Theorem mtllib_loads (lib : string) (ms : list material) (st : parser) :
  is_token lib = true ->
  Forall well_defined ms ->
  dict_get (files fs) (absdir fs (name f) +++ "/" +++ lib)
    = Some (unlines (flat_map material_lines ms)) ->
  parse_line fs f ("mtllib " +++ lib) st
  = Ok (mkParser (descriptors st) (vertices st)
                 (dict_set (globals_ st) "mtllib" (VList [lib]))
                 (fold_left define_material ms (materials st))
                 (current_obj st)).
Proof.
  intros Hlib Hms Hfile.
  apply parse_mtllib with (lib := lib) (content := unlines (flat_map material_lines ms))
                          (m := None); [|exact Hfile|].
  - change ("mtllib " +++ lib) with ("mtllib" +++ " " +++ lib).
    now rewrite (split_token_space "mtllib" lib eq_refl), split_token.
  - rewrite lines_unlines by (now apply material_lines_one_line).
    now apply load_materials.
Qed.

(** X8: a [Kd] line with no material pending raises [AssertionError],
    at the start of a library as well as right after another [Kd] line,
    for each [Kd] line uses up the name that [newmtl] gave. *)
Theorem Kd_needs_newmtl (ms : list material) (table : dict Color)
    (kd : string) (rest : list string) :
  Forall well_defined ms ->
  split kd = "Kd" :: rest ->
  for_each (flat_map material_lines ms ++ [kd]) (parse_mtl_line "mtllib") (None, table)
  = Raise AssertionError.
Proof.
  intros Hms Hkd. rewrite for_each_app, (load_materials table Hms). cbn [bind for_each].
  unfold parse_mtl_line. now rewrite Hkd.
Qed.

(** X9: the edges of [mtllib]. Alone on its line it does nothing, not
    even to the globals; with the name of a library that the directory of
    the file does not hold, it raises [FileNotFoundError] for that path. *)
Theorem mtllib_edges (st : parser) (ln lib : string) (more : list string) :
  split ln = "mtllib" :: lib :: more ->
  dict_get (files fs) (absdir fs (name f) +++ "/" +++ lib) = None ->
  parse_line fs f "mtllib" st = Ok (mkParser (descriptors st) (vertices st)
                                      (globals_ st) (materials st) (current_obj st)) /\
  parse_line fs f ln st
  = Raise (FileNotFoundError (absdir fs (name f) +++ "/" +++ lib)).
Proof.
  intros Hsplit Hfile. split; [reflexivity|].
  unfold parse_line. rewrite Hsplit.
  cbn [String.eqb Ascii.eqb Bool.eqb for_each].
  unfold load_mtllib at 1, builtins_open.
  cbn [in_ existsb String.eqb Ascii.eqb Bool.eqb orb]. now rewrite Hfile.
Qed.

End Libraries.

(** * Further properties of the sessions *)

Section MoreSessions.
Context {E : Externals}.
Variables (fs : FileSystem).

Lemma slots_app (off a b : nat) :
  slots off (a + b) = slots off a ++ slots (off + a) b.
Proof. unfold slots. now rewrite seq_app, map_app. Qed.

Lemma indexes_descriptors_from (items : list (Drawable * string * dict value)) :
  forall off,
  flat_map vertex_indexes (descriptors_from off items)
  = slots off (length (all_points items)).
Proof.
  induction items as [|[[d n] kwargs] items IH]; intros off; [reflexivity|].
  unfold all_points in *. cbn [descriptors_from flat_map fst descriptor_at vertex_indexes].
  now rewrite IH, length_app, slots_app.
Qed.

(** X10: in a session opened in mode ['w'] or ['w+'], after any run of
    writes, the vertex table is the placeholder followed by the points of
    the drawables in the order written, and the indices of the
    descriptors, read in order, are 1, 2, ... up to the number of
    vertices: each vertex belongs to one descriptor, and no vertex is
    shared, even between equal points. *)
Theorem written_indexes_cover (file : File) (m : string) (kwargs : dict value)
    (items : list (Drawable * string * dict value)) :
  in_ m ["w"; "w+"] = true ->
  exists opened self,
    new_ObjFile fs file m kwargs = Ok opened /\
    write_all opened items = Ok self /\
    _vertices self = None :: map Some (all_points items) /\
    flat_map vertex_indexes (_descriptors self)
    = slots 1 (length (_vertices self) - 1).
Proof.
  intros Hm.
  assert (Hnew : new_ObjFile fs file m kwargs = Ok (mkObjFile file m [] [None] kwargs)).
  { unfold new_ObjFile. rewrite Hm.
    apply in_cases in Hm as [<- | [<- | []]]; reflexivity. }
  assert (Hmode : in_ m ["w"; "w+"; "r+"] = true).
  { apply in_cases in Hm as [<- | [<- | []]]; reflexivity. }
  do 2 eexists. split; [exact Hnew|]. split; [now apply write_all_spec|].
  cbn [_descriptors _vertices app length]. split; [reflexivity|].
  rewrite indexes_descriptors_from, length_map. f_equal. lia.
Qed.

(** X11: a write that succeeds only adds. The descriptors and the
    vertices that the session had stay where they were, one descriptor
    comes after them, the file, the mode and the globals are the same;
    and if every index pointed at a vertex before, in a table that has its
    placeholder, every index does after. *)
Theorem write_only_adds (self self' : ObjFile) (d : Drawable) (n : string)
    (kwargs : dict value) :
  write self d n kwargs = Ok self' ->
  (exists obj extra,
     _descriptors self' = _descriptors self ++ [obj] /\
     _vertices self' = _vertices self ++ extra) /\
  file self' = file self /\ mode self' = mode self /\ _globals self' = _globals self /\
  (_vertices self <> [] -> indexed self -> indexed self').
Proof.
  intros H.
  assert (Hmode : in_ (mode self) ["w"; "w+"; "r+"] = true).
  { unfold write in H. destruct (in_ (mode self) ["w"; "w+"; "r+"]);
      [reflexivity | discriminate]. }
  rewrite (write_spec _ _ _ _ Hmode) in H. injection H as <-.
  cbn [_descriptors _vertices file mode _globals]. repeat split; eauto.
  intros Hne Hidx. unfold indexed in *. cbn [_descriptors _vertices].
  assert (Hlen : (1 <= length (_vertices self))%nat)
    by (destruct (_vertices self); [contradiction | cbn; lia]).
  apply Forall_app. split.
  - eapply Forall_impl; [|exact Hidx]. intros o Ho. unfold indexes_within in *.
    eapply Forall_impl; [|exact Ho]. intros i Hi. cbn beta in *.
    rewrite length_app. lia.
  - constructor; [|constructor]. unfold indexes_within.
    cbn [descriptor_at vertex_indexes]. apply Forall_forall. intros i Hi.
    apply slots_bounds in Hi. rewrite length_app, length_map. lia.
Qed.

Lemma translated_attributes (self : ObjFile) (obj : _ObjDescriptor)
    (r : option Drawable * dict value) :
  _obj_to_drawable self obj = Ok r -> snd r = attributes obj.
Proof.
  unfold _obj_to_drawable. intros H.
  match type of H with
  | bind ?m _ = _ => destruct m; [|discriminate]
  end.
  now injection H as <-.
Qed.

(** X12: a session that is read gives one pair for each descriptor, in
    the order of the descriptors, and the mapping of each pair is the
    attributes of its descriptor, unchanged. *)
Theorem read_pairs (self : ObjFile) (r : list (option Drawable * dict value)) :
  read self = Ok r -> map snd r = map attributes (_descriptors self).
Proof.
  unfold read, iterate. intros H.
  destruct (assert _); [|discriminate]. cbn [bind] in H.
  revert r H. induction (_descriptors self) as [|obj objs IH]; intros r H.
  - cbn [map_result] in H. now injection H as <-.
  - cbn [map_result] in H.
    destruct (_obj_to_drawable self obj) as [p|] eqn:Hp; [|discriminate].
    cbn [bind] in H.
    destruct (map_result _ objs) as [ps|]; [|discriminate].
    injection H as <-. cbn [map]. now rewrite (translated_attributes _ _ Hp), (IH ps).
Qed.

Lemma getitem_from_end (A : Type) (pre post : list A) (x : A) :
  getitem (pre ++ x :: post) (- Z.of_nat (S (length post))) = Ok x.
Proof.
  unfold getitem. rewrite length_app. cbn [length].
  replace (- Z.of_nat (S (length post)) <? 0) with true
    by (symmetry; apply Z.ltb_lt; lia).
  replace (- Z.of_nat (S (length post)) + Z.of_nat (length pre + S (length post)))
    with (Z.of_nat (length pre)) by lia.
  replace ((0 <=? Z.of_nat (length pre))
           && (Z.of_nat (length pre) <? Z.of_nat (length pre + S (length post))))
    with true
    by (symmetry; apply andb_true_iff; split; [apply Z.leb_le | apply Z.ltb_lt]; lia).
  now rewrite Nat2Z.id, nth_error_app2, Nat.sub_diag by lia.
Qed.

(** X13: a negative index counts from the end of the vertex table, as in
    any Python list. A point whose index is minus [k] is the vertex that
    has [k - 1] vertices after it: [p -1] is the last vertex of the table
    as it is when the session is read. *)
Theorem negative_index_from_end (self : ObjFile) (p : PointOf number)
    (pre post : list (option (PointOf number))) (more : list Z) (attrs : dict value) :
  _vertices self = pre ++ Some p :: post ->
  _obj_to_drawable self
    (mkObj (Some point) (- Z.of_nat (S (length post)) :: more) attrs)
  = Ok (Some (DPoint p), attrs).
Proof.
  intros Hvs. unfold _obj_to_drawable, vertex. cbn [kind vertex_indexes attributes].
  rewrite getitem_0. cbn [bind]. now rewrite Hvs, getitem_from_end.
Qed.

(** X14: [open] returns a session for the modes ['r'] and ['w+'] only.
    In mode ['r'] the file must exist, the file system is left as it was
    and the session is the file parsed; in mode ['w+'] the file is made
    empty and the session starts with no descriptor, the placeholder for
    only vertex and the keyword arguments for globals. *)
Theorem open_returns (path mode : string) (kwargs : dict value)
    (self : ObjFile) (fs' : FileSystem) :
  open fs path mode kwargs = (Ok self, fs') ->
  (mode = "r" /\ fs' = fs /\
   exists t, dict_get (files fs) path = Some t /\
             new_ObjFile fs (mkFile path t) "r" kwargs = Ok self) \/
  (mode = "w+" /\ files fs' = dict_set (files fs) path "" /\
   self = mkObjFile (mkFile path "") "w+" [] [None] kwargs).
Proof.
  unfold open, builtins_open. cbn [append].
  destruct (in_ (lower mode) ["r"; "r+w"; "w+"]) eqn:Hcheck; [|discriminate].
  cbn [negb].
  destruct (in_ mode ["r"; "r+"]) eqn:Hr.
  - apply in_cases in Hr as [<- | [<- | []]]; [|discriminate].
    destruct (dict_get (files fs) path) as [t|] eqn:Ht; [|discriminate].
    intros H. injection H as H <-. left. eauto.
  - destruct (in_ mode ["w"; "w+"]) eqn:Hw; [|discriminate].
    apply in_cases in Hw as [<- | [<- | []]]; [discriminate|].
    intros H. injection H as H <-. right. subst self. auto.
Qed.

End MoreSessions.

(** * Further properties of the serializer *)

Section MoreDumping.
Context {E : Externals}.
Variables (fs : FileSystem) (f : File).

Ltac same_text :=
  repeat (progress cbn [append] || rewrite append_assoc || rewrite append_nil_r);
  reflexivity.

(** X15: [write] accepts a drawable that is none of the four variants,
    with a descriptor that has no kind and no vertex; [close] then writes
    the [o] line of that descriptor and raises [AttributeError]. *)
Theorem other_drawable_breaks_close (file : File) (m n : string) :
  in_ m ["w"; "w+"] = true ->
  exists opened self,
    new_ObjFile fs file m [] = Ok opened /\
    write opened DOther n [] = Ok self /\
    _descriptors self = [mkObj None [] [("name", VStr n)]] /\
    close self
    = (mkFile (name file) (text file +++ "o " +++ n +++ nl), Raise AttributeError).
Proof.
  intros Hm.
  apply in_cases in Hm as [<- | [<- | []]];
    (do 2 eexists; split; [reflexivity|]; split; [reflexivity|];
     split; [reflexivity|];
     unfold close; cbn; do 2 f_equal; same_text).
Qed.

Lemma is_token_String (c : ascii) (w : string) :
  is_space c = false -> (w = "" \/ is_token w = true) -> is_token (String c w) = true.
Proof.
  intros Hc Hw. apply is_token_plain. split; [discriminate|].
  unfold plain. cbn [list_ascii_of_string forallb]. rewrite Hc. cbn [negb andb].
  destruct Hw as [-> | Hw]; [reflexivity|]. now apply is_token_plain in Hw.
Qed.

(** Every word that [split] gives is a token. *)
Lemma split_tokens (s : string) : forallb is_token (split s) = true.
Proof.
  induction s as [|c s IH]; [reflexivity|].
  cbn [split]. destruct (is_space c) eqn:Hc; [exact IH|].
  destruct s as [|c' s'].
  - cbn [forallb]. now rewrite is_token_String by auto.
  - destruct (is_space c') eqn:Hc'.
    + cbn [forallb]. now rewrite is_token_String, IH by auto.
    + destruct (split (String c' s')) as [|w ws].
      * cbn [forallb]. now rewrite is_token_String by auto.
      * cbn [forallb] in *. apply andb_prop in IH as [Hw Hws].
        now rewrite is_token_String, Hws by auto.
Qed.

Lemma split_spaced (l : list string) :
  forallb is_token l = true -> split (spaced l) = l.
Proof.
  induction l as [|x l IH]; [reflexivity|].
  cbn [forallb spaced]. intros H. apply andb_prop in H as [Hx Hl].
  now rewrite append_assoc, (split_token_space _ _ Hx), IH.
Qed.

(** The parser looks at the words of a line only. *)
Lemma parse_line_split (a b : string) (st : parser) :
  split a = split b -> parse_line fs f a st = parse_line fs f b st.
Proof. unfold parse_line. now intros ->. Qed.

(** X16: the [mtllib] directive survives the serializer. For the globals
    that the parser recorded for a line [mtllib], the serializer writes
    the word [mtllib ] and then the name of each library followed by a
    space, and a line end; that text is on one line, and the parser takes
    it exactly as it took the first line: with the same result, or the
    same exception, in any state. *)
Theorem mtllib_line_round_trip (ln : string) (body : list string) (g : dict value)
    (st : parser) :
  split ln = "mtllib" :: body ->
  dict_get g "mtllib" = Some (VList body) ->
  dump_global g "mtllib" = ("mtllib " +++ spaced body +++ nl, Ok tt) /\
  one_line ("mtllib " +++ spaced body) = true /\
  parse_line fs f ("mtllib " +++ spaced body) st = parse_line fs f ln st.
Proof.
  intros Hsplit Hg.
  assert (Hbody : forallb is_token body = true).
  { pose proof (split_tokens ln) as H. rewrite Hsplit in H.
    cbn [forallb] in H. now apply andb_prop in H as [_ H]. }
  repeat split.
  - unfold dump_global, dict_item, emit_values, iter_no_str. rewrite Hg.
    rewrite emit_spaced, !and_then_emit. apply (f_equal emit). same_text.
  - change ("mtllib " +++ spaced body) with ("mtllib" +++ " " +++ spaced body).
    rewrite !one_line_append. cbn [andb].
    apply one_line_spaced. apply forallb_forall. intros x Hx.
    apply token_one_line. rewrite forallb_forall in Hbody. now apply Hbody.
  - apply parse_line_split. rewrite Hsplit.
    change ("mtllib " +++ spaced body) with ("mtllib" +++ " " +++ spaced body).
    now rewrite (split_token_space "mtllib" _ eq_refl), split_spaced.
Qed.

Lemma canonical_arity (k : Kind) (ixs : list Z) (attrs : dict value) :
  canonical (mkObj (Some k) ixs attrs) = true ->
  match k, ixs with
  | point, [] => False
  | line, [_; _] => True
  | line, _ => False
  | _, _ => True
  end.
Proof.
  unfold canonical. cbn [kind vertex_indexes].
  destruct k; destruct ixs as [|a [|b [|c l]]]; try discriminate; intros _; exact I.
Qed.

Lemma parse_geometry_line (k : Kind) (ixs : list Z) (attrs : dict value)
    (st : parser) (cur : _ObjDescriptor) :
  canonical (mkObj (Some k) ixs attrs) = true ->
  current_obj st = Some cur ->
  parse_line fs f (geometry_line k ixs) st
  = Ok (with_current st (with_geometry cur k ixs)).
Proof.
  unfold canonical. cbn [kind vertex_indexes]. intros Hc Hcur.
  destruct k; destruct ixs as [|a [|b [|c l]]]; try discriminate;
    cbn [geometry_line].
  - apply parse_p with (b0 := str a) (more := []); auto using int_str.
    apply (split_directive "p" [a]). reflexivity.
  - apply parse_l with (body := map str [a; b]) (ixs := [a; b]) (o := cur);
      auto using map_int_str.
    apply (split_directive "l" [a; b]). reflexivity.
  - rewrite parse_l with (body := map str (a :: b :: c :: l))
                         (ixs := a :: b :: c :: l) (o := cur);
      auto using map_int_str.
    + replace (2 <? Z.of_nat (length (map str (a :: b :: c :: l)))) with true;
        [reflexivity|].
      symmetry. apply Z.ltb_lt. cbn [map length]. lia.
    + apply split_directive. reflexivity.
  - apply parse_f with (body := map str []); auto using map_int_str.
  - apply parse_f with (body := map str [a]); auto using map_int_str.
    apply (split_directive "f" [a]). reflexivity.
  - apply parse_f with (body := map str [a; b]); auto using map_int_str.
    apply (split_directive "f" [a; b]). reflexivity.
  - apply parse_f with (body := map str (a :: b :: c :: l)); auto using map_int_str.
    apply split_directive. reflexivity.
Qed.

Lemma geometry_line_one_line (k : Kind) (ixs : list Z) (attrs : dict value) :
  canonical (mkObj (Some k) ixs attrs) = true ->
  one_line (geometry_line k ixs) = true.
Proof.
  intros Hc.
  destruct (geometry_line_join _ _ (canonical_arity _ _ _ Hc))
    as (head & body & -> & Hhead & _).
  apply one_line_join. cbn [forallb]. now rewrite Hhead, tokens_str.
Qed.

Lemma split_o (n : string) : is_token n = true -> split ("o " +++ n) = ["o"; n].
Proof.
  intros Hn. change ("o " +++ n) with ("o" +++ " " +++ n).
  now rewrite (split_token_space "o" n eq_refl), split_token.
Qed.

Lemma one_line_o (n : string) : is_token n = true -> one_line ("o " +++ n) = true.
Proof.
  intros Hn. change ("o " +++ n) with ("o" +++ " " +++ n).
  now rewrite !one_line_append, (token_one_line _ Hn).
Qed.

(** The lines of a descriptor that the parser made, written and parsed
    again. *)
Lemma object_round_trip (obj : _ObjDescriptor) (n : string) (st : parser) :
  canonical obj = true ->
  is_token n = true ->
  (attributes obj = [("name", VStr n)] \/
   exists m c,
     attributes obj = [("name", VStr n); ("usemtl", VStr m); ("color", VColor c)] /\
     is_token m = true /\ dict_get (materials st) m = Some c) ->
  dump_obj obj = emit (unlines (object_lines n obj)) /\
  forallb one_line (object_lines n obj) = true /\
  for_each (object_lines n obj) (parse_line fs f) st
  = Ok (mkParser (closed_by_o st) (vertices st) (globals_ st) (materials st)
                 (Some obj)).
Proof.
  destruct obj as [k ixs attrs]. intros Hc Hn Hattrs.
  destruct k as [k|]; [|discriminate].
  cbn [attributes] in Hattrs.
  pose proof (canonical_arity _ _ _ Hc) as Harity.
  pose proof (geometry_line_one_line _ _ _ Hc) as Hgeo.
  destruct Hattrs as [-> | (m & c & -> & Hm & Hmat)].
  - split; [|split].
    + apply dump_obj_lines with (k := k); auto.
      repeat constructor.
    + unfold object_lines. cbn [attributes keys map fst flat_map attribute_lines
        in_ existsb String.eqb Ascii.eqb Bool.eqb orb app kind vertex_indexes forallb].
      now rewrite (one_line_o _ Hn), Hgeo.
    + unfold object_lines. cbn [attributes keys map fst flat_map attribute_lines
        in_ existsb String.eqb Ascii.eqb Bool.eqb orb app kind vertex_indexes for_each].
      rewrite (@parse_o _ fs f _ _ _ st (split_o _ Hn)). cbn [bind].
      rewrite parse_geometry_line
        with (attrs := [("name", VStr n)]) (cur := new_ObjDescriptor n None None None);
        [reflexivity | exact Hc | reflexivity].
  - split; [|split].
    + apply dump_obj_lines with (k := k); auto.
      constructor; [now left|]. constructor; [|constructor; [now left | constructor]].
      right. exists (VStr m). split; [reflexivity|]. now apply token_one_line.
    + unfold object_lines. cbn [attributes keys map fst flat_map attribute_lines
        in_ existsb String.eqb Ascii.eqb Bool.eqb orb app kind vertex_indexes forallb
        dict_get].
      rewrite (one_line_o _ Hn), Hgeo. cbn [spaced].
      now rewrite !one_line_append, (token_one_line _ Hm).
    + unfold object_lines. cbn [attributes keys map fst flat_map attribute_lines
        in_ existsb String.eqb Ascii.eqb Bool.eqb orb app kind vertex_indexes for_each
        dict_get].
      rewrite (@parse_o _ fs f _ _ _ st (split_o _ Hn)). cbn [bind].
      assert (Huse : split (("usemtl" +++ " ") +++ spaced [m]) = ["usemtl"; m]).
      { change (("usemtl" +++ " ") +++ spaced [m]) with ("usemtl" +++ " " +++ spaced [m]).
        rewrite (split_token_space "usemtl" _ eq_refl), split_spaced; [reflexivity|].
        cbn [forallb]. now rewrite Hm. }
      rewrite parse_usemtl with (mtl := m) (more := [])
                                (o := new_ObjDescriptor n None None None);
        [|exact Huse|reflexivity].
      cbn [materials]. rewrite Hmat. cbn [bind].
      rewrite parse_geometry_line
        with (attrs := [("name", VStr n); ("usemtl", VStr m); ("color", VColor c)])
             (cur := set_attribute
                       (set_attribute (new_ObjDescriptor n None None None)
                                      "usemtl" (VStr m))
                       "color" (VColor c));
        [reflexivity | exact Hc | reflexivity].
Qed.

(** X17: what the parser builds, the serializer writes so that the parser
    builds it again. For a descriptor with as many indices as its kind
    takes, a name that is one token and the attributes that the parser
    makes (the name alone, or the name, a material that the state knows
    and its colour), the serializer writes lines, each on one line, and
    parsing these lines closes the object that was current and leaves
    this very descriptor as the current object. The text written is the
    line [o] with the name, the line [usemtl] with the material if there
    is one, and the geometry line of the kind, each with its line end. *)
Theorem reparse_object (obj : _ObjDescriptor) (n : string) (st : parser) :
  canonical obj = true ->
  is_token n = true ->
  (attributes obj = [("name", VStr n)] \/
   exists m c,
     attributes obj = [("name", VStr n); ("usemtl", VStr m); ("color", VColor c)] /\
     is_token m = true /\ dict_get (materials st) m = Some c) ->
  dump_obj obj = (unlines (object_lines n obj), Ok tt) /\
  forallb one_line (object_lines n obj) = true /\
  for_each (object_lines n obj) (parse_line fs f) st
  = Ok (mkParser (closed_by_o st) (vertices st) (globals_ st) (materials st)
                 (Some obj)).
Proof. apply object_round_trip. Qed.

End MoreDumping.

(** * Further properties: what is written in memory, what is read as globals *)

Section InMemory.
Context {E : Externals}.
Variables (fs : FileSystem) (f : File).

(** X18: the descriptor that [write] adds translates back, in the same
    session, to the drawable written: a drawable of the same variant made
    of the points that the original enumerates, whole, with every
    attribute it was written with, and its name. *)
Theorem write_then_translate (self self' : ObjFile) (d : Drawable) (n : string)
    (kwargs : dict value) :
  write self d n kwargs = Ok self' ->
  exists obj,
    _descriptors self' = _descriptors self ++ [obj] /\
    _obj_to_drawable self' obj = Ok (rebuilt d, dict_set kwargs "name" (VStr n)).
Proof.
  intros H.
  assert (Hmode : in_ (mode self) ["w"; "w+"; "r+"] = true).
  { unfold write in H. destruct (in_ (mode self) ["w"; "w+"; "r+"]);
      [reflexivity | discriminate]. }
  rewrite (write_spec _ _ _ _ Hmode) in H. injection H as <-.
  eexists. split; [reflexivity|].
  unfold _obj_to_drawable. cbn [descriptor_at kind vertex_indexes attributes].
  destruct d as [p|a b|ps|ps|]; cbn [kind_of points_of rebuilt].
  - cbn [length slots seq map]. rewrite getitem_0. cbn [bind].
    unfold vertex. cbn [_vertices]. now rewrite getitem_slot.
  - cbn [length slots seq map]. rewrite getitem_0, getitem_1. cbn [bind _vertices].
    rewrite getitem_slot. cbn [bind].
    replace (Z.of_nat (S (length (_vertices self))))
      with (Z.of_nat (length (_vertices self ++ [Some a])))
      by (rewrite length_app; cbn [length]; lia).
    replace (_vertices self ++ [Some a; Some b])
      with ((_vertices self ++ [Some a]) ++ Some b :: [])
      by (now rewrite <- app_assoc).
    now rewrite getitem_slot.
  - rewrite (lookup_slots _ (iter_Wireframe ps) (_vertices self) []); [reflexivity|].
    cbn [_vertices]. now rewrite app_nil_r.
  - rewrite (lookup_slots _ (iter_Polygon ps) (_vertices self) []); [reflexivity|].
    cbn [_vertices]. now rewrite app_nil_r.
  - reflexivity.
Qed.

Lemma only_mtllib_set (g : dict value) (v : list string) :
  only_mtllib g -> only_mtllib (dict_set g "mtllib" (VList v)).
Proof. intros [-> | [b ->]]; right; now exists v. Qed.

Lemma load_mtllib_globals (dirname head : string) (body libs : list string) :
  forall g m g' m',
  for_each libs (load_mtllib fs dirname head body) (g, m) = Ok (g', m') ->
  only_mtllib g -> only_mtllib g'.
Proof.
  induction libs as [|lib libs IH]; intros g m g' m' H Hg.
  - now injection H as <- _.
  - cbn [for_each] in H.
    destruct (load_mtllib fs dirname head body lib (g, m)) as [[g1 m1]|] eqn:H1;
      [|discriminate].
    cbn [bind] in H. apply (IH _ _ _ _ H).
    unfold load_mtllib in H1.
    destruct (builtins_open _ _ _) as [[l fs1]|]; [|discriminate].
    cbn [bind] in H1.
    destruct (for_each _ _ _) as [[x m2]|]; [|discriminate].
    cbn [bind] in H1. injection H1 as <- _. now apply only_mtllib_set.
Qed.

Lemma parse_line_globals (ln : string) (st st' : parser) :
  parse_line fs f ln st = Ok st' ->
  only_mtllib (globals_ st) -> only_mtllib (globals_ st').
Proof.
  unfold parse_line. intros H Hg.
  destruct (split ln) as [|head body]; [now injection H as <-|].
  destruct (String.eqb_spec head "#") as [->|_]; [now injection H as <-|].
  destruct (String.eqb_spec head "mtllib") as [->|_].
  { destruct (for_each _ _ _) as [[g m]|] eqn:Hload; [|discriminate].
    cbn [bind] in H. injection H as <-. cbn [globals_].
    eapply load_mtllib_globals; eassumption. }
  destruct (String.eqb_spec head "v") as [->|_].
  { destruct body as [|x [|y more]]; try discriminate.
    destruct (float x); [|discriminate]. destruct (float y); [|discriminate].
    cbn [bind] in H. now injection H as <-. }
  destruct (String.eqb_spec head "o") as [->|_].
  { destruct (getitem body 0); [|discriminate]. cbn [bind] in H. now injection H as <-. }
  destruct (String.eqb_spec head "usemtl") as [->|_].
  { destruct (the_current st); [|discriminate]. cbn [bind] in H.
    destruct (getitem body 0); [|discriminate]. cbn [bind] in H.
    destruct (dict_item _ _); [|discriminate]. cbn [bind] in H. now injection H as <-. }
  destruct (String.eqb_spec head "p") as [->|_].
  { destruct (the_current st); [|discriminate]. cbn [bind] in H.
    destruct (getitem body 0); [|discriminate]. cbn [bind] in H.
    destruct (int _); [|discriminate]. cbn [bind] in H. now injection H as <-. }
  destruct (String.eqb_spec head "l") as [->|_].
  { destruct (the_current st); [|discriminate]. cbn [bind] in H.
    destruct (append_indexes _ _); [|discriminate]. cbn [bind] in H.
    now injection H as <-. }
  destruct (String.eqb_spec head "f") as [->|_].
  { destruct (the_current st); [|discriminate]. cbn [bind] in H.
    destruct (append_indexes _ _); [|discriminate]. cbn [bind] in H.
    now injection H as <-. }
  now injection H as <-.
Qed.

(** X19: the globals that the parser returns are empty, or hold the
    single key [mtllib] with a list of library names: no other global
    directive is ever read from a file. *)
Theorem parsed_globals (ds : list _ObjDescriptor)
    (vs : list (option (PointOf number))) (gs : dict value) :
  _parse_objs fs f = Ok (ds, vs, gs) -> only_mtllib gs.
Proof.
  unfold _parse_objs. intros H.
  destruct (for_each _ _ _) as [st|] eqn:Hrun; [|discriminate].
  injection H as _ _ <-.
  assert (Hgen : forall lns st0 st1,
             for_each lns (parse_line fs f) st0 = Ok st1 ->
             only_mtllib (globals_ st0) -> only_mtllib (globals_ st1)).
  { induction lns as [|ln lns IH]; intros st0 st1 H0 Hg.
    - now injection H0 as <-.
    - cbn [for_each] in H0.
      destruct (parse_line fs f ln st0) as [st2|] eqn:H2; [|discriminate].
      cbn [bind] in H0. apply (IH _ _ H0). eapply parse_line_globals; eassumption. }
  apply (Hgen _ _ _ Hrun). now left.
Qed.

End InMemory.

(** * The further properties on sample scenes *)

(** The vertex table of [red_point]. *)
Lemma parsed_vertices_witness :
  _parse_objs scenes red_point = Ok red_point_result /\
  exists ps, [None; Some (at_ 1 2)] = None :: map Some ps /\
             length ps = length (filter is_v (lines (text red_point))).
Proof.
  split; [reflexivity|].
  apply (@parsed_vertices decimal_externals scenes red_point
           (fst (fst red_point_result)) (snd (fst red_point_result))
           (snd red_point_result)).
  reflexivity.
Defined.

(** The kinds of the descriptors of [dropped_material]. *)
Lemma parsed_kinds_witness :
  _parse_objs scenes dropped_material
    = Ok ([mkObj (Some point) [1] [("name", VStr "b")]], [None; Some (at_ 1 2)],
          [("mtllib", VList ["lib.mtl"])]) /\
  exists init last,
    [mkObj (Some point) [1] [("name", VStr "b")]] = init ++ [last] /\
    Forall (fun d => kind d <> None) init.
Proof.
  split; [reflexivity|].
  apply (@parsed_kinds decimal_externals scenes dropped_material
           [mkObj (Some point) [1] [("name", VStr "b")]] [None; Some (at_ 1 2)]
           [("mtllib", VList ["lib.mtl"])]).
  reflexivity.
Defined.

(** The attributes of the descriptor of [red_point]. *)
Lemma parsed_attributes_witness :
  _parse_objs scenes red_point = Ok red_point_result /\
  Forall parsed_keys (fst (fst red_point_result)).
Proof.
  split; [reflexivity|].
  apply (@parsed_attributes decimal_externals scenes red_point
           (fst (fst red_point_result)) (snd (fst red_point_result))
           (snd red_point_result)).
  reflexivity.
Defined.

(** [red_point] with and without its comments. *)
Lemma ignored_lines_do_not_matter_witness :
  name red_point = name red_point_commented /\
  filter (fun ln => negb (ignored ln)) (lines (text red_point))
  = filter (fun ln => negb (ignored ln)) (lines (text red_point_commented)) /\
  _parse_objs scenes red_point = _parse_objs scenes red_point_commented.
Proof.
  split; [reflexivity|]. split; [reflexivity|].
  apply (@ignored_lines_do_not_matter decimal_externals scenes red_point
           red_point_commented); reflexivity.
Defined.

(** Directives without operands, at the start of [triangle]. *)
Lemma missing_operands_witness :
  current_obj (parser_init triangle) = Some (mkObj None [] [("name", VStr "triangle")]) /\
  parse_line scenes triangle "o" (parser_init triangle) = Raise IndexError /\
  parse_line scenes triangle "usemtl" (parser_init triangle) = Raise IndexError /\
  parse_line scenes triangle "p" (parser_init triangle) = Raise IndexError /\
  (exists msg, parse_line scenes triangle "v" (parser_init triangle)
               = Raise (ValueError msg)) /\
  (is_token "1" = true ->
   exists msg, parse_line scenes triangle "v 1" (parser_init triangle)
               = Raise (ValueError msg)) /\
  parse_line scenes triangle "l" (parser_init triangle)
    = Ok (mkParser [] [None] [] []
            (Some (mkObj (Some line) [] [("name", VStr "triangle")]))) /\
  parse_line scenes triangle "f" (parser_init triangle)
    = Ok (mkParser [] [None] [] []
            (Some (mkObj (Some polygon) [] [("name", VStr "triangle")]))).
Proof.
  split; [reflexivity|].
  exact (@missing_operands decimal_externals scenes triangle (parser_init triangle)
           (mkObj None [] [("name", VStr "triangle")]) "1" eq_refl).
Defined.


(** The library of [scenes], loaded at the start of [red_point]. *)
Lemma mtllib_loads_witness :
  (is_token "lib.mtl" = true /\
   Forall well_defined [red_material] /\
   dict_get (files scenes) (absdir scenes (name red_point) +++ "/" +++ "lib.mtl")
     = Some (unlines (flat_map material_lines [red_material]))) /\
  parse_line scenes red_point ("mtllib " +++ "lib.mtl") (parser_init red_point)
  = Ok (mkParser [] [None] [("mtllib", VList ["lib.mtl"])] [("red", red)]
                 (Some (new_ObjDescriptor "red" None None None))).
Proof.
  assert (Hred : Forall well_defined [red_material])
    by (constructor; [repeat split | constructor]).
  split; [repeat split; exact Hred|].
  apply (@mtllib_loads decimal_externals scenes red_point "lib.mtl" [red_material]
           (parser_init red_point) eq_refl Hred eq_refl).
Defined.

(** A second [Kd] line after the material [red]. *)
Lemma Kd_needs_newmtl_witness :
  (Forall well_defined [red_material] /\ split "Kd 0.0 1.0 0.0" = ["Kd"; "0.0"; "1.0"; "0.0"]) /\
  for_each (flat_map material_lines [red_material] ++ ["Kd 0.0 1.0 0.0"])
           (parse_mtl_line "mtllib") (None, [])
  = Raise AssertionError.
Proof.
  assert (Hred : Forall well_defined [red_material])
    by (constructor; [repeat split | constructor]).
  split; [split; [exact Hred | reflexivity]|].
  apply (@Kd_needs_newmtl decimal_externals [red_material] [] "Kd 0.0 1.0 0.0"
           ["0.0"; "1.0"; "0.0"] Hred eq_refl).
Defined.

(** A library that [scenes] does not hold. *)
Lemma mtllib_edges_witness :
  (split "mtllib none.mtl" = ["mtllib"; "none.mtl"] /\
   dict_get (files scenes) (absdir scenes (name triangle) +++ "/" +++ "none.mtl") = None) /\
  parse_line scenes triangle "mtllib none.mtl" (parser_init triangle)
  = Raise (FileNotFoundError "/scenes/none.mtl").
Proof.
  split; [split; reflexivity|].
  apply (@mtllib_edges decimal_externals scenes triangle (parser_init triangle)
           "mtllib none.mtl" "none.mtl" [] eq_refl eq_refl).
Defined.

(** The indices of the gallery: 1 to 9. *)
Lemma written_indexes_cover_witness :
  in_ "w" ["w"; "w+"] = true /\
  exists opened self,
    new_ObjFile scenes (mkFile "/scenes/out.obj" "") "w" [] = Ok opened /\
    write_all opened gallery = Ok self /\
    _vertices self = None :: map Some (all_points gallery) /\
    flat_map vertex_indexes (_descriptors self) = slots 1 (length (_vertices self) - 1).
Proof.
  split; [reflexivity|].
  apply (@written_indexes_cover decimal_externals scenes (mkFile "/scenes/out.obj" "")
           "w" [] gallery eq_refl).
Defined.

(** A line written to the session read from [red_point]. *)
Lemma write_only_adds_witness :
  exists self',
    write red_session edge "edge" [] = Ok self' /\
    _descriptors self'
    = _descriptors red_session ++ [mkObj (Some line) [2; 3] [("name", VStr "edge")]] /\
    (_vertices red_session <> [] -> indexed red_session -> indexed self').
Proof.
  eexists. split; [reflexivity|]. split; [reflexivity|].
  apply (@write_only_adds decimal_externals red_session _ edge "edge" [] eq_refl).
Defined.

(** The pair read from the session of [red_point]. *)
Lemma read_pairs_witness :
  read red_session = Ok red_pairs /\
  map snd red_pairs = map attributes (_descriptors red_session).
Proof.
  split; [reflexivity|].
  apply (@read_pairs decimal_externals red_session red_pairs). reflexivity.
Defined.

(** The index -1 in the session read from [red_point]. *)
Lemma negative_index_from_end_witness :
  _vertices red_session = [None] ++ Some (at_ 1 2) :: [] /\
  _obj_to_drawable red_session (mkObj (Some point) [-1] [])
  = Ok (Some dot, []).
Proof.
  split; [reflexivity|].
  apply (@negative_index_from_end decimal_externals red_session (at_ 1 2)
           [None] [] [] [] eq_refl).
Defined.

(** A file opened in mode ['w+']. *)
Lemma open_returns_witness :
  exists self fs',
    open scenes "/scenes/out.obj" "w+" [] = (Ok self, fs') /\
    files fs' = dict_set (files scenes) "/scenes/out.obj" "" /\
    self = mkObjFile (mkFile "/scenes/out.obj" "") "w+" [] [None] [].
Proof.
  do 2 eexists. split; [reflexivity|].
  destruct (@open_returns decimal_externals scenes "/scenes/out.obj" "w+" [] _ _ eq_refl)
    as [(Hr & _) | (_ & Hfiles & Hself)]; [discriminate Hr|].
  split; [exact Hfiles | exact Hself].
Defined.

(** Some other drawable, written under the name [curve]. *)
Lemma other_drawable_breaks_close_witness :
  in_ "w" ["w"; "w+"] = true /\
  exists opened self,
    new_ObjFile scenes (mkFile "/scenes/out.obj" "") "w" [] = Ok opened /\
    write opened DOther "curve" [] = Ok self /\
    _descriptors self = [mkObj None [] [("name", VStr "curve")]] /\
    close self
    = (mkFile "/scenes/out.obj" ("o curve" +++ nl), Raise AttributeError).
Proof.
  split; [reflexivity|].
  apply (@other_drawable_breaks_close decimal_externals scenes
           (mkFile "/scenes/out.obj" "") "w" "curve" eq_refl).
Defined.

(** The [mtllib] line of [red_point], written from its globals: the
    text has a space after the name of the library, and loads the same
    material. *)
Lemma mtllib_line_round_trip_witness :
  (split "mtllib lib.mtl" = ["mtllib"; "lib.mtl"] /\
   dict_get (_globals red_session) "mtllib" = Some (VList ["lib.mtl"])) /\
  dump_global (_globals red_session) "mtllib" = ("mtllib lib.mtl " +++ nl, Ok tt) /\
  one_line "mtllib lib.mtl " = true /\
  parse_line scenes red_point "mtllib lib.mtl " (parser_init red_point)
  = parse_line scenes red_point "mtllib lib.mtl" (parser_init red_point) /\
  parse_line scenes red_point "mtllib lib.mtl " (parser_init red_point)
  = Ok (mkParser [] [None] [("mtllib", VList ["lib.mtl"])] [("red", red)]
          (Some (mkObj None [] [("name", VStr "red")]))).
Proof.
  split; [split; reflexivity|].
  destruct (@mtllib_line_round_trip decimal_externals scenes red_point "mtllib lib.mtl"
              ["lib.mtl"] (_globals red_session) (parser_init red_point)
              eq_refl eq_refl) as (Hdump & Hone & Hparse).
  split; [exact Hdump|]. split; [exact Hone|]. split; [exact Hparse|].
  reflexivity.
Defined.

(** The descriptor of [red_point], written and parsed again in a state
    that knows the material: the three lines written, and the state that
    parsing them leaves. *)
Lemma reparse_object_witness :
  (canonical (mkObj (Some point) [1]
                [("name", VStr "a"); ("usemtl", VStr "red"); ("color", VColor red)])
     = true /\
   is_token "a" = true /\ is_token "red" = true /\
   dict_get (materials pending_material) "red" = Some red) /\
  dump_obj (mkObj (Some point) [1]
              [("name", VStr "a"); ("usemtl", VStr "red"); ("color", VColor red)])
  = ("o a" +++ nl +++ "usemtl red " +++ nl +++ "p 1" +++ nl, Ok tt) /\
  forallb one_line ["o a"; "usemtl red "; "p 1"] = true /\
  for_each ["o a"; "usemtl red "; "p 1"] (parse_line scenes red_point) pending_material
  = Ok (mkParser [] [None] [] [("red", red)]
          (Some (mkObj (Some point) [1]
                   [("name", VStr "a"); ("usemtl", VStr "red"); ("color", VColor red)]))).
Proof.
  split; [repeat split|].
  apply (@reparse_object decimal_externals scenes red_point
           (mkObj (Some point) [1]
              [("name", VStr "a"); ("usemtl", VStr "red"); ("color", VColor red)])
           "a" pending_material eq_refl eq_refl).
  right. exists "red", red. repeat split.
Defined.

(** A polygon written to a blank session and translated back. *)
Lemma write_then_translate_witness :
  exists self' obj,
    write blank_session face "face" [("layer", VStr "top")] = Ok self' /\
    _descriptors self' = _descriptors blank_session ++ [obj] /\
    _obj_to_drawable self' obj
    = Ok (Some (DPolygon [at_ 0 0; at_ 2 0; at_ 2 2; at_ 0 0]),
          [("layer", VStr "top"); ("name", VStr "face")]).
Proof.
  eexists.
  destruct (@write_then_translate decimal_externals blank_session _
              face "face" [("layer", VStr "top")] eq_refl) as (obj & Hds & Hback).
  exists obj. split; [reflexivity|]. split; [exact Hds | exact Hback].
Defined.

(** The globals of [red_point]. *)
Lemma parsed_globals_witness :
  _parse_objs scenes red_point = Ok red_point_result /\
  only_mtllib (snd red_point_result).
Proof.
  split; [reflexivity|].
  apply (@parsed_globals decimal_externals scenes red_point
           (fst (fst red_point_result)) (snd (fst red_point_result))
           (snd red_point_result)).
  reflexivity.
Defined.

(** * Further properties: a written file opened again in mode ['r+'] *)

Section Duplicates.
Context {E : Externals}.
Variables (fs : FileSystem) (path : string).
Hypothesis format_token : forall x : number, is_token (format x) = true.
Hypothesis float_format : forall x : number, float (format x) = Ok x.

Lemma canonical_parsed_at (off : nat) (item : Drawable * string * dict value) :
  writable item = true -> canonical (parsed_at off item) = true.
Proof.
  destruct item as [[d n] kwargs]. intros Hw.
  destruct (writable_parts _ _ _ Hw) as (_ & _ & k & Hk & Hwire).
  unfold canonical. cbn [parsed_at kind vertex_indexes].
  destruct d as [p|a b|ps|ps|]; try discriminate; try reflexivity.
  specialize (Hwire ltac:(now injection Hk)). cbn [points_of kind_of] in *.
  destruct (length (iter_Wireframe ps)) as [|[|[|j]]]; try lia. reflexivity.
Qed.

Lemma reparsed_obj (f : File) (off : nat) (d : Drawable) (n : string)
    (kwargs : dict value) (st : parser) :
  writable (d, n, kwargs) = true ->
  dump_obj (parsed_at off (d, n, kwargs))
    = emit (unlines (object_lines n (parsed_at off (d, n, kwargs)))) /\
  forallb one_line (object_lines n (parsed_at off (d, n, kwargs))) = true /\
  for_each (object_lines n (parsed_at off (d, n, kwargs))) (parse_line fs f) st
  = Ok (mkParser (closed_by_o st) (vertices st) (globals_ st) (materials st)
                 (Some (parsed_at off (d, n, kwargs)))).
Proof.
  intros Hw. destruct (writable_parts _ _ _ Hw) as (Hn & _).
  apply object_round_trip; [now apply canonical_parsed_at | exact Hn | now left].
Qed.

Lemma dump_reparsed_objs (items : list (Drawable * string * dict value)) :
  forall off,
  forallb writable items = true ->
  emit_each dump_obj (parsed_from off items)
    = emit (unlines (reparsed_lines_from off items)) /\
  forallb one_line (reparsed_lines_from off items) = true.
Proof.
  induction items as [|[[d n] kwargs] items IH]; intros off Hall; [now split|].
  cbn [forallb] in Hall. apply andb_prop in Hall as [Hw Hall].
  cbn [parsed_from reparsed_lines_from emit_each fst snd].
  destruct (reparsed_obj (mkFile path "") off _ _ _
              (mkParser [] [] [] [] None) Hw) as (Hdump & Hone & _).
  destruct (IH (off + length (points_of d))%nat Hall) as [IHdump IHone].
  split.
  - now rewrite Hdump, IHdump, and_then_emit, unlines_app.
  - now rewrite forallb_app, Hone, IHone.
Qed.

(** The state of the parser after the lines of the objects of a written
    session. *)
Lemma parse_written_state (f : File) (items : list (Drawable * string * dict value)) :
  forall item off st,
  forallb writable (item :: items) = true ->
  exists st' cur,
    for_each (object_lines_from off (item :: items)) (parse_line fs f) st = Ok st' /\
    current_obj st' = Some cur /\ kind cur <> None /\
    descriptors st' ++ [cur] = closed_by_o st ++ parsed_from off (item :: items) /\
    vertices st' = vertices st /\ globals_ st' = globals_ st.
Proof.
  induction items as [|item2 items IH]; intros [[d n] kwargs] off st Hall;
    cbn [forallb] in Hall; apply andb_prop in Hall as [Hw Hall];
    destruct (parsed_at_kind off (d, n, kwargs) Hw) as [k Hk].
  - cbn [object_lines_from parsed_from fst snd]. rewrite app_nil_r.
    rewrite (parse_written_obj fs f off _ _ _ st Hw).
    do 2 eexists. split; [reflexivity|]. cbn in Hk |- *. repeat split.
    cbn [kind]. congruence.
  - change (object_lines_from off ((d, n, kwargs) :: item2 :: items))
      with (object_lines n (descriptor_at off (d, n, kwargs))
            ++ object_lines_from (off + length (points_of d)) (item2 :: items)).
    rewrite for_each_app, (parse_written_obj fs f off _ _ _ st Hw). cbn [bind].
    destruct (IH item2 (off + length (points_of d))%nat
                 (mkParser (closed_by_o st) (vertices st) (globals_ st) (materials st)
                           (Some (parsed_at off (d, n, kwargs)))) Hall)
      as (st' & cur & Hrun & Hcur & Hkind & Hds & Hvs & Hgs).
    exists st', cur. repeat split; auto. rewrite Hds.
    unfold closed_by_o at 1.
    cbn [current_obj descriptors]. rewrite Hk.
    change (parsed_from off ((d, n, kwargs) :: item2 :: items))
      with (parsed_at off (d, n, kwargs)
            :: parsed_from (off + length (points_of d)) (item2 :: items)).
    now rewrite <- app_assoc.
Qed.

(** The same, for the lines that the serializer writes again. *)
Lemma parse_reparsed_state (f : File) (items : list (Drawable * string * dict value)) :
  forall item off st,
  forallb writable (item :: items) = true ->
  exists st' cur,
    for_each (reparsed_lines_from off (item :: items)) (parse_line fs f) st = Ok st' /\
    current_obj st' = Some cur /\ kind cur <> None /\
    descriptors st' ++ [cur] = closed_by_o st ++ parsed_from off (item :: items) /\
    vertices st' = vertices st /\ globals_ st' = globals_ st.
Proof.
  induction items as [|item2 items IH]; intros [[d n] kwargs] off st Hall;
    cbn [forallb] in Hall; apply andb_prop in Hall as [Hw Hall];
    destruct (parsed_at_kind off (d, n, kwargs) Hw) as [k Hk];
    destruct (reparsed_obj f off _ _ _ st Hw) as (_ & _ & Hparse).
  - cbn [reparsed_lines_from parsed_from fst snd]. rewrite app_nil_r, Hparse.
    do 2 eexists. split; [reflexivity|]. cbn in Hk |- *. repeat split.
    cbn [kind]. congruence.
  - change (reparsed_lines_from off ((d, n, kwargs) :: item2 :: items))
      with (object_lines n (parsed_at off (d, n, kwargs))
            ++ reparsed_lines_from (off + length (points_of d)) (item2 :: items)).
    rewrite for_each_app, Hparse. cbn [bind].
    destruct (IH item2 (off + length (points_of d))%nat
                 (mkParser (closed_by_o st) (vertices st) (globals_ st) (materials st)
                           (Some (parsed_at off (d, n, kwargs)))) Hall)
      as (st' & cur & Hrun & Hcur & Hkind & Hds & Hvs & Hgs).
    exists st', cur. repeat split; auto. rewrite Hds.
    unfold closed_by_o at 1.
    cbn [current_obj descriptors]. rewrite Hk.
    change (parsed_from off ((d, n, kwargs) :: item2 :: items))
      with (parsed_at off (d, n, kwargs)
            :: parsed_from (off + length (points_of d)) (item2 :: items)).
    now rewrite <- app_assoc.
Qed.

Lemma map_result_app (A B : Type) (g : A -> result B) (xs ys : list A)
    (us vs : list B) :
  map_result g xs = Ok us -> map_result g ys = Ok vs ->
  map_result g (xs ++ ys) = Ok (us ++ vs).
Proof.
  revert us. induction xs as [|x xs IH]; intros us Hxs Hys.
  - injection Hxs as <-. exact Hys.
  - cbn [app map_result] in *. destruct (g x) as [u|]; [|discriminate].
    cbn [bind] in *. destruct (map_result g xs) as [us'|]; [|discriminate].
    cbn [bind] in Hxs. injection Hxs as <-.
    now rewrite (IH us' eq_refl Hys).
Qed.

Lemma flat_flat (p : PointOf number) : flat (flat p) = flat p.
Proof. reflexivity. Qed.

(** The text of a written file, and of what closing an ['r+'] session on
    it adds: the vertices without their third coordinate, and the objects
    as the parser rebuilt them. *)
Lemma close_reopened (item : Drawable * string * dict value)
    (items : list (Drawable * string * dict value)) (content : string) :
  forallb writable (item :: items) = true ->
  close (mkObjFile (mkFile path content) "r+" (parsed_from 1 (item :: items))
           (None :: map Some (map flat (all_points (item :: items)))) [])
  = (mkFile path
       (content +++
        unlines (map vertex_line (map flat (all_points (item :: items)))
                 ++ reparsed_lines_from 1 (item :: items))),
     Ok tt).
Proof.
  intros Hall. unfold close.
  cbn [mode _descriptors _vertices _globals file name text parsed_from length].
  change (in_ "r+" ["w"; "w+"; "r+"]) with true. cbn [andb Z.of_nat Z.ltb Z.compare].
  change (parsed_at 1 item
          :: parsed_from (1 + length (points_of (fst (fst item)))) items)
    with (parsed_from 1 (item :: items)).
  unfold _dump_objs. cbn [tl keys map emit_each].
  destruct (dump_reparsed_objs (item :: items) 1 Hall) as [-> _].
  rewrite dump_vertices_lines, !and_then_emit, unlines_app. reflexivity.
Qed.

(** What the parser makes of the file after that second close: the
    vertex table holds the vertices twice, and the objects come twice with
    the same indexes. *)
Lemma parse_duplicated (item : Drawable * string * dict value)
    (items : list (Drawable * string * dict value)) :
  forallb writable (item :: items) = true ->
  _parse_objs fs
    (mkFile path
       (unlines (map vertex_line (all_points (item :: items))
                 ++ object_lines_from 1 (item :: items)) +++
        unlines (map vertex_line (map flat (all_points (item :: items)))
                 ++ reparsed_lines_from 1 (item :: items))))
  = Ok (parsed_from 1 (item :: items) ++ parsed_from 1 (item :: items),
        None :: map Some (map flat (all_points (item :: items)))
             ++ map Some (map flat (all_points (item :: items))), []).
Proof.
  intros Hall. unfold _parse_objs. cbn [text].
  set (file := mkFile path _).
  rewrite <- unlines_app, lines_unlines.
  2:{ rewrite !forallb_app.
      destruct (dump_reparsed_objs (item :: items) 1 Hall) as [_ ->].
      rewrite (object_lines_from_one_line fs file _ _ Hall).
      rewrite !andb_true_r. apply andb_true_iff. split.
      - apply forallb_forall. intros ln Hln. apply in_map_iff in Hln as (p & <- & _).
        now apply vertex_line_one_line.
      - apply forallb_forall. intros ln Hln. apply in_map_iff in Hln as (p & <- & _).
        now apply vertex_line_one_line. }
  rewrite <- !app_assoc.
  rewrite for_each_app, (parse_vertex_lines fs file format_token float_format).
  cbn [bind].
  rewrite for_each_app.
  destruct (parse_written_state file items item 1
              (mkParser (descriptors (parser_init file))
                 (vertices (parser_init file)
                  ++ map (fun p => Some (flat p)) (all_points (item :: items)))
                 (globals_ (parser_init file)) (materials (parser_init file))
                 (current_obj (parser_init file))) Hall)
    as (st1 & cur1 & -> & Hcur1 & Hkind1 & Hds1 & Hvs1 & Hgs1).
  cbn [bind].
  rewrite for_each_app, (parse_vertex_lines fs file format_token float_format).
  cbn [bind].
  destruct (parse_reparsed_state file items item 1
              (mkParser (descriptors st1)
                 (vertices st1
                  ++ map (fun p => Some (flat p)) (map flat (all_points (item :: items))))
                 (globals_ st1) (materials st1) (current_obj st1)) Hall)
    as (st2 & cur2 & -> & Hcur2 & Hkind2 & Hds2 & Hvs2 & Hgs2).
  cbn [bind]. unfold parser_result. rewrite Hcur2, Hds2, Hvs2, Hgs2.
  unfold closed_by_o at 1. cbn [current_obj descriptors vertices globals_].
  rewrite Hcur1. destruct (kind cur1) as [k|] eqn:Hk; [|contradiction].
  rewrite Hds1, Hvs1, Hgs1.
  cbn [parser_init closed_by_o current_obj descriptors vertices globals_
       new_ObjDescriptor kind app].
  rewrite !map_map. reflexivity.
Qed.

(** X20: a session in mode ['r+'] that is closed dumps everything it
    parsed after the text it read. Write a non-empty list of writable items
    to a new file and close it; open that file in mode ['r+'] and close it
    at once, without writing anything. Both closes succeed; the first file
    reads back as the items, and the second file reads back as the items
    twice over. *)
Theorem reopening_duplicates (items : list (Drawable * string * dict value)) :
  items <> [] ->
  forallb writable items = true ->
  exists f0 f1,
    write_file fs path items = Ok f0 /\
    reopen_and_close fs f0 = Ok f1 /\
    read_file fs f0 = Ok (map item_read_back items) /\
    read_file fs f1 = Ok (map item_read_back items ++ map item_read_back items).
Proof.
  intros Hne Hall. destruct items as [|item items]; [contradiction|].
  set (P := all_points (item :: items)).
  set (T1 := unlines (map vertex_line P ++ object_lines_from 1 (item :: items))).
  set (T2 := unlines (map vertex_line (map flat P)
                      ++ reparsed_lines_from 1 (item :: items))).
  assert (Hread : forall post,
    map_result
      (_obj_to_drawable
         (mkObjFile (mkFile path (T1 +++ post)) "r"
            (parsed_from 1 (item :: items) ++ parsed_from 1 (item :: items))
            (None :: map Some (map flat P) ++ map Some (map flat P)) []))
      (parsed_from 1 (item :: items))
    = Ok (map item_read_back (item :: items))).
  { intros post.
    apply (read_parsed _ (item :: items) [None] (map Some (map flat P)) Hall).
    reflexivity. }
  exists (mkFile path T1), (mkFile path (T1 +++ T2)). repeat split.
  - unfold write_file.
    change (new_ObjFile fs (mkFile path "") "w" [])
      with (Ok (mkObjFile (mkFile path "") "w" [] [None] [])).
    cbn [bind]. rewrite write_all_spec by reflexivity.
    cbn [bind file mode _descriptors _vertices _globals length app].
    now rewrite (close_written path _ _ Hall).
  - unfold reopen_and_close, new_ObjFile.
    cbn [in_ existsb String.eqb Ascii.eqb Bool.eqb orb].
    unfold T1, P. rewrite (parse_written fs path format_token float_format _ _ Hall).
    cbn [bind]. now rewrite (close_reopened _ _ _ Hall).
  - unfold read_file, new_ObjFile.
    cbn [in_ existsb String.eqb Ascii.eqb Bool.eqb orb].
    unfold T1, P. rewrite (parse_written fs path format_token float_format _ _ Hall).
    cbn [bind]. unfold read, iterate.
    cbn [mode in_ existsb String.eqb Ascii.eqb Bool.eqb orb assert bind _descriptors].
    apply (read_parsed _ (item :: items) [None] [] Hall).
    cbn [_vertices app]. now rewrite app_nil_r.
  - unfold read_file, new_ObjFile.
    cbn [in_ existsb String.eqb Ascii.eqb Bool.eqb orb].
    unfold T1, T2, P. rewrite (parse_duplicated _ _ Hall).
    cbn [bind]. unfold read, iterate.
    cbn [mode in_ existsb String.eqb Ascii.eqb Bool.eqb orb assert bind _descriptors].
    apply map_result_app; apply (Hread T2).
Qed.

End Duplicates.

(** The gallery, written, opened in mode ['r+'] and closed: the file then
    reads back as the gallery twice over. *)
Lemma reopening_duplicates_witness :
  gallery <> [] /\
  forallb writable gallery = true /\
  exists f0 f1,
    write_file scenes "/scenes/out.obj" gallery = Ok f0 /\
    reopen_and_close scenes f0 = Ok f1 /\
    read_file scenes f0 = Ok (map item_read_back gallery) /\
    read_file scenes f1 = Ok (map item_read_back gallery ++ map item_read_back gallery).
Proof.
  split; [discriminate|]. split; [reflexivity|].
  apply (@reopening_duplicates decimal_externals scenes "/scenes/out.obj"
           format_token_decimal float_format_decimal gallery);
    [discriminate | reflexivity].
Defined.

(** * The round trip, with globals and materials *)

Section Restoring.
Context {E : Externals}.
Variables (fs : FileSystem) (f : File).
Hypothesis format_token : forall x : number, is_token (format x) = true.
Hypothesis float_format : forall x : number, float (format x) = Ok x.
Variable table : dict Color.

Lemma dict_get_keys (V : Type) (d : dict V) (k : string) (v : V) :
  dict_get d k = Some v -> In k (keys d).
Proof.
  induction d as [|[k' v'] d IH]; cbn; [discriminate|].
  destruct (String.eqb_spec k' k) as [->|Hne]; auto.
Qed.

Lemma dict_get_app (V : Type) (a b : dict V) (k : string) :
  dict_get (a ++ b) k = match dict_get a k with
                        | Some v => Some v
                        | None => dict_get b k
                        end.
Proof.
  induction a as [|[k' v'] a IH]; cbn; [reflexivity|].
  destruct (String.eqb k' k); auto.
Qed.

(** The three sorts of attribute of an item that can be restored. *)
Lemma restorable_entry (k : string) (v : value) :
  inert_attribute (k, v) || resolvable table (k, v) = true ->
  k = "color" \/
  (inert_value v = true /\ is_token k = true /\
   in_ k ["name"; "mtllib"; "v"; "o"; "usemtl"; "p"; "l"; "f"] = false) \/
  (k = "usemtl" /\
   exists m c, v = VStr m /\ is_token m = true /\ dict_get table m = Some c).
Proof.
  intros H. apply orb_prop in H as [H | H].
  - unfold inert_attribute in H. apply orb_prop in H as [H | H].
    + left. now apply String.eqb_eq.
    + right. left. apply andb_prop in H as [H Hv]. apply andb_prop in H as [Ht Hd].
      apply negb_true_iff in Hd. auto.
  - right. right. unfold resolvable in H. apply andb_prop in H as [Hk H].
    apply String.eqb_eq in Hk. split; [exact Hk|].
    destruct v as [m| |]; try discriminate.
    apply andb_prop in H as [Hm H].
    destruct (dict_get table m) as [c|] eqn:Hc; [|discriminate].
    exists m, c. repeat split; auto.
Qed.

Lemma restorable_parts (d : Drawable) (n : string) (kwargs : dict value) :
  restorable table (d, n, kwargs) = true ->
  is_token n = true /\
  forallb (fun kv => inert_attribute kv || resolvable table kv) kwargs = true /\
  exists k, kind_of d = Some k /\
            (k = wireframe -> (2 < length (points_of d))%nat).
Proof.
  unfold restorable. intros H.
  apply andb_prop in H as [H Hd]. apply andb_prop in H as [Hn Hkw].
  repeat split; auto.
  destruct d as [p|a b|ps|ps|]; try discriminate; eexists; split;
    try reflexivity; try discriminate.
  intros _. apply Z.ltb_lt in Hd. cbn [points_of]. lia.
Qed.

(** A key that the serializer writes, in the attributes of an item that
    can be restored: its value fits on a line, and it is [usemtl] with a
    material of the table, or none of the directives. *)
Lemma restorable_key (kwargs : dict value) (n key : string) :
  forallb (fun kv => inert_attribute kv || resolvable table kv) kwargs = true ->
  In key (keys (dict_set kwargs "name" (VStr n))) ->
  in_ key ["name"; "color"] = false ->
  exists v, dict_get (dict_set kwargs "name" (VStr n)) key = Some v /\
            inert_value v = true /\ is_token key = true /\
            (in_ key ["mtllib"; "v"; "o"; "usemtl"; "p"; "l"; "f"] = false \/
             key = "usemtl" /\
             exists m c, v = VStr m /\ is_token m = true /\ dict_get table m = Some c).
Proof.
  intros Hall Hkey Hskip.
  cbn [in_ existsb] in Hskip.
  apply orb_false_elim in Hskip as [Hname Hskip].
  apply orb_false_elim in Hskip as [Hcolor _].
  apply String.eqb_neq in Hname. apply String.eqb_neq in Hcolor.
  apply keys_dict_set in Hkey as [-> | Hkey]; [contradiction|].
  rewrite dict_get_set_other by congruence.
  destruct (dict_get_in _ _ Hkey) as (v & Hv & Hin).
  rewrite forallb_forall in Hall. specialize (Hall _ Hin).
  apply restorable_entry in Hall as [Hc | [(Hval & Htok & Hdir) | (-> & m & c & -> & Hm & Hc)]];
    [contradiction | |].
  - exists v. repeat split; auto. left.
    cbn [in_ existsb] in Hdir |- *.
    apply orb_false_elim in Hdir as [_ Hdir]. exact Hdir.
  - exists (VStr m). repeat split; auto.
    + cbn [inert_value]. now apply token_one_line.
    + right. split; [reflexivity|]. now exists m, c.
Qed.

Lemma restorable_printable (kwargs : dict value) (n : string) :
  forallb (fun kv => inert_attribute kv || resolvable table kv) kwargs = true ->
  printable (dict_set kwargs "name" (VStr n)).
Proof.
  intros Hall. apply Forall_forall. intros key Hkey.
  destruct (in_ key ["name"; "color"]) eqn:Hskip; [now left | right].
  destruct (restorable_key _ _ _ Hall Hkey Hskip) as (v & Hv & Hval & _). eauto.
Qed.

(** The line of [usemtl] for the material [m]. *)
Lemma split_usemtl (m : string) :
  is_token m = true -> split (("usemtl" +++ " ") +++ spaced [m]) = ["usemtl"; m].
Proof.
  intros Hm.
  change (("usemtl" +++ " ") +++ spaced [m]) with ("usemtl" +++ " " +++ spaced [m]).
  rewrite (split_token_space "usemtl" _ eq_refl), split_spaced; [reflexivity|].
  cbn [forallb]. now rewrite Hm.
Qed.

(** A line of the attributes of an item that can be restored is on one
    line, and the parser passes over it unless it is the line of
    [usemtl], with the material that the item names. *)
Lemma attribute_line_sorts (kwargs : dict value) (n key ln : string) :
  forallb (fun kv => inert_attribute kv || resolvable table kv) kwargs = true ->
  In key (keys (dict_set kwargs "name" (VStr n))) ->
  In ln (attribute_lines (dict_set kwargs "name" (VStr n)) key) ->
  one_line ln = true /\
  ((forall st, parse_line fs f ln st = Ok st) \/
   exists m c, dict_get kwargs "usemtl" = Some (VStr m) /\ is_token m = true /\
               dict_get table m = Some c /\ ln = ("usemtl" +++ " ") +++ spaced [m]).
Proof.
  intros Hall Hkey. unfold attribute_lines.
  destruct (in_ key ["name"; "color"]) eqn:Hskip; [contradiction|].
  destruct (restorable_key _ _ _ Hall Hkey Hskip)
    as (v & Hget & Hval & Htok & [Hdir | (-> & m & c & -> & Hm & Hc)]).
  - rewrite Hget.
    assert (Hgen : forall l, forallb one_line l = true ->
              one_line ((key +++ " ") +++ spaced l) = true /\
              forall st, parse_line fs f ((key +++ " ") +++ spaced l) st = Ok st).
    { intros l Hl. split.
      - now rewrite !one_line_append, (token_one_line _ Htok), one_line_spaced.
      - intros st. apply (parse_inert fs f) with (head := key) (body := split (spaced l));
          [|exact Hdir].
        rewrite append_assoc. now apply split_token_space. }
    destruct v as [s|l|c]; [| |discriminate]; intros [<- | []].
    + destruct (Hgen [s]) as [H1 H2]; [cbn [forallb inert_value] in *; now rewrite Hval|].
      auto.
    + destruct (Hgen l Hval) as [H1 H2]. auto.
  - rewrite Hget. intros [<- | []]. split.
    + cbn [spaced]. now rewrite !one_line_append, (token_one_line _ Hm).
    + right. exists m, c. repeat split; auto.
      now rewrite dict_get_set_other in Hget by discriminate.
Qed.

(** Lines that the parser passes over, with the line of [usemtl] for a
    material of the table among them or not: the current object takes the
    material and its colour if the line is there, and nothing else
    changes. *)
Lemma for_each_usemtl (n m : string) (c : Color) (lns : list string) :
  is_token m = true ->
  Forall (fun ln => (forall st, parse_line fs f ln st = Ok st) \/
                    ln = ("usemtl" +++ " ") +++ spaced [m]) lns ->
  forall st (k : option Kind) (ixs : list Z) (attrs : dict value),
  dict_get (materials st) m = Some c ->
  current_obj st = Some (mkObj k ixs attrs) ->
  attrs = [("name", VStr n)] \/
  attrs = [("name", VStr n); ("usemtl", VStr m); ("color", VColor c)] ->
  for_each lns (parse_line fs f) st
  = Ok (with_current st
          (mkObj k ixs
             (if existsb (String.eqb (("usemtl" +++ " ") +++ spaced [m])) lns
              then [("name", VStr n); ("usemtl", VStr m); ("color", VColor c)]
              else attrs))).
Proof.
  intros Hm Hlns. induction Hlns as [|ln lns Hln _ IH]; intros st k ixs attrs Hc Hcur Hattrs.
  - cbn [for_each existsb]. unfold with_current. rewrite <- Hcur. now destruct st.
  - cbn [for_each existsb].
    destruct (String.eqb_spec (("usemtl" +++ " ") +++ spaced [m]) ln) as [<-|Hne].
    + rewrite parse_usemtl with (mtl := m) (more := []) (o := mkObj k ixs attrs);
        [|now apply split_usemtl|exact Hcur].
      rewrite Hc. cbn [bind orb].
      rewrite (IH _ k ixs [("name", VStr n); ("usemtl", VStr m); ("color", VColor c)]).
      * now destruct (existsb _ lns).
      * exact Hc.
      * unfold with_current, set_attribute. cbn [current_obj kind vertex_indexes attributes].
        destruct Hattrs as [-> | ->]; reflexivity.
      * now right.
    + destruct Hln as [Hln | Hln]; [|congruence].
      rewrite Hln. cbn [bind orb]. now apply IH.
Qed.

(** After the line [o], the lines of the attributes leave a current
    object with the attributes that come back. *)
Lemma parse_attribute_lines (n : string) (kwargs : dict value) (st : parser) :
  forallb (fun kv => inert_attribute kv || resolvable table kv) kwargs = true ->
  materials st = table ->
  current_obj st = Some (new_ObjDescriptor n None None None) ->
  for_each (flat_map (attribute_lines (dict_set kwargs "name" (VStr n)))
                     (keys (dict_set kwargs "name" (VStr n))))
           (parse_line fs f) st
  = Ok (with_current st (mkObj None [] (attributes_restored table n kwargs))).
Proof.
  intros Hall Hmat Hcur.
  set (attrs := dict_set kwargs "name" (VStr n)).
  assert (Hsorts : forall ln,
            In ln (flat_map (attribute_lines attrs) (keys attrs)) ->
            (forall st, parse_line fs f ln st = Ok st) \/
            exists m c, dict_get kwargs "usemtl" = Some (VStr m) /\ is_token m = true /\
                        dict_get table m = Some c /\
                        ln = ("usemtl" +++ " ") +++ spaced [m]).
  { intros ln Hln. apply in_flat_map in Hln as (key & Hkey & Hln).
    exact (proj2 (attribute_line_sorts _ _ _ _ Hall Hkey Hln)). }
  unfold attributes_restored.
  destruct (dict_get kwargs "usemtl") as [v|] eqn:Huse.
  - assert (Hin : In "usemtl" (keys attrs)).
    { apply dict_get_keys with (v := v). unfold attrs.
      now rewrite dict_get_set_other by discriminate. }
    destruct (restorable_key kwargs n "usemtl" Hall Hin eq_refl)
      as (v' & Hget & _ & _ & [Hdir | (_ & m & c & -> & Hm & Hc)]); [discriminate|].
    rewrite dict_get_set_other in Hget by discriminate.
    rewrite Huse in Hget. injection Hget as ->. rewrite Hc.
    rewrite for_each_usemtl with (n := n) (m := m) (c := c) (k := None) (ixs := [])
                                 (attrs := [("name", VStr n)]).
    + replace (existsb (String.eqb (("usemtl" +++ " ") +++ spaced [m]))
                 (flat_map (attribute_lines attrs) (keys attrs))) with true;
        [reflexivity|].
      symmetry. apply existsb_exists. exists (("usemtl" +++ " ") +++ spaced [m]).
      split; [|apply String.eqb_refl].
      apply in_flat_map. exists "usemtl". split; [exact Hin|].
      unfold attribute_lines, attrs.
      cbn [in_ existsb String.eqb Ascii.eqb Bool.eqb orb].
      rewrite dict_get_set_other by discriminate. rewrite Huse. now left.
    + exact Hm.
    + apply Forall_forall. intros ln Hln.
      destruct (Hsorts ln Hln) as [H | (m' & c' & Hu & _ & _ & ->)]; [now left | right].
      now injection Hu as <-.
    + now rewrite Hmat.
    + exact Hcur.
    + now left.
  - rewrite (for_each_inert fs f).
    + destruct st as [ds vs gs ms cur]. cbn [current_obj] in Hcur. now subst cur.
    + apply Forall_forall. intros ln Hln.
      destruct (Hsorts ln Hln) as [H | (m & c & Hu & _)]; [exact H | discriminate].
Qed.

(** The indices that [write] gives a drawable are as many as its kind
    takes. *)
Lemma canonical_slots (off : nat) (d : Drawable) (k : Kind) (attrs : dict value) :
  kind_of d = Some k ->
  (k = wireframe -> (2 < length (points_of d))%nat) ->
  canonical (mkObj (Some k) (slots off (length (points_of d))) attrs) = true.
Proof.
  intros Hk Hwire. unfold canonical. cbn [kind vertex_indexes].
  destruct d as [p|a b|ps|ps|]; try discriminate; injection Hk as <-;
    try reflexivity.
  specialize (Hwire eq_refl). cbn [points_of] in *.
  destruct (length (iter_Wireframe ps)) as [|[|[|j]]]; try lia. reflexivity.
Qed.

(** Parsing the lines of a written object closes the object before it and
    leaves the object that the item describes, with the attributes that
    come back, as the current one. *)
Lemma parse_restorable_obj (off : nat) (d : Drawable) (n : string)
    (kwargs : dict value) (st : parser) :
  restorable table (d, n, kwargs) = true ->
  materials st = table ->
  for_each (object_lines n (descriptor_at off (d, n, kwargs))) (parse_line fs f) st
  = Ok (mkParser (closed_by_o st) (vertices st) (globals_ st) (materials st)
                 (Some (restored_at table off (d, n, kwargs)))).
Proof.
  intros Hr Hmat. destruct (restorable_parts _ _ _ Hr) as (Hn & Hkw & k & Hk & Hwire).
  unfold object_lines. cbn [descriptor_at kind attributes vertex_indexes].
  rewrite Hk. cbn [for_each].
  rewrite (@parse_o _ fs f _ _ _ st (split_o n Hn)). cbn [bind].
  rewrite for_each_app.
  rewrite parse_attribute_lines; [|exact Hkw|exact Hmat|reflexivity].
  cbn [bind for_each].
  rewrite parse_geometry_line
    with (attrs := @nil (string * value))
         (cur := mkObj None [] (attributes_restored table n kwargs));
    [|now apply canonical_slots|reflexivity].
  cbn [bind]. unfold restored_at. rewrite Hk. reflexivity.
Qed.

Lemma restorable_lines_one_line (off : nat) (d : Drawable) (n : string)
    (kwargs : dict value) :
  restorable table (d, n, kwargs) = true ->
  forallb one_line (object_lines n (descriptor_at off (d, n, kwargs))) = true.
Proof.
  intros Hr. destruct (restorable_parts _ _ _ Hr) as (Hn & Hkw & k & Hk & Hwire).
  unfold object_lines. cbn [descriptor_at kind attributes vertex_indexes].
  rewrite Hk. cbn [forallb]. rewrite (one_line_o n Hn). cbn [andb].
  rewrite forallb_app. apply andb_true_iff. split.
  - apply forallb_forall. intros ln Hln. apply in_flat_map in Hln as (key & Hkey & Hln).
    exact (proj1 (attribute_line_sorts _ _ _ _ Hkw Hkey Hln)).
  - cbn [forallb]. rewrite andb_true_r.
    apply geometry_line_one_line with (attrs := @nil (string * value)).
    now apply canonical_slots.
Qed.

Lemma dump_restorable_obj (off : nat) (d : Drawable) (n : string) (kwargs : dict value) :
  restorable table (d, n, kwargs) = true ->
  dump_obj (descriptor_at off (d, n, kwargs))
  = emit (unlines (object_lines n (descriptor_at off (d, n, kwargs)))).
Proof.
  intros Hr. destruct (restorable_parts _ _ _ Hr) as (_ & Hkw & k & Hk & _).
  apply dump_obj_lines with (k := k).
  - apply dict_get_set.
  - now apply restorable_printable.
  - exact Hk.
  - cbn [descriptor_at vertex_indexes].
    destruct d as [p|a b|ps|ps|]; try discriminate;
      injection Hk as <-; cbn [points_of length]; exact I.
Qed.

(** The text of the objects of a written session. *)
Lemma dump_restorable_objs (items : list (Drawable * string * dict value)) :
  forall off,
  forallb (restorable table) items = true ->
  emit_each dump_obj (descriptors_from off items)
    = emit (unlines (object_lines_from off items)) /\
  forallb one_line (object_lines_from off items) = true.
Proof.
  induction items as [|[[d n] kwargs] items IH]; intros off Hall; [now split|].
  cbn [forallb] in Hall. apply andb_prop in Hall as [Hr Hall].
  cbn [descriptors_from object_lines_from emit_each fst snd].
  destruct (IH (off + length (points_of d))%nat Hall) as [IHdump IHone].
  split.
  - now rewrite (dump_restorable_obj off _ _ _ Hr), IHdump, and_then_emit, unlines_app.
  - now rewrite forallb_app, (restorable_lines_one_line off _ _ _ Hr), IHone.
Qed.

Lemma restored_at_kind (off : nat) (item : Drawable * string * dict value) :
  restorable table item = true -> exists k, kind (restored_at table off item) = Some k.
Proof.
  destruct item as [[d n] kwargs]. intros Hr.
  destruct (restorable_parts _ _ _ Hr) as (_ & _ & k & Hk & _). now exists k.
Qed.

(** Parsing the lines of the objects of a written session rebuilds one
    descriptor for each item, after those that the parser had closed. *)
Lemma parse_restorable_objs (items : list (Drawable * string * dict value)) :
  forall item off st,
  forallb (restorable table) (item :: items) = true ->
  materials st = table ->
  exists st',
    for_each (object_lines_from off (item :: items)) (parse_line fs f) st = Ok st' /\
    parser_result st'
    = (closed_by_o st ++ restored_from table off (item :: items),
       vertices st, globals_ st).
Proof.
  induction items as [|item2 items IH]; intros [[d n] kwargs] off st Hall Hmat;
    cbn [forallb] in Hall; apply andb_prop in Hall as [Hr Hall].
  - cbn [object_lines_from restored_from fst snd]. rewrite app_nil_r.
    rewrite (parse_restorable_obj off _ _ _ st Hr Hmat). eexists. split; reflexivity.
  - change (object_lines_from off ((d, n, kwargs) :: item2 :: items))
      with (object_lines n (descriptor_at off (d, n, kwargs))
            ++ object_lines_from (off + length (points_of d)) (item2 :: items)).
    rewrite for_each_app, (parse_restorable_obj off _ _ _ st Hr Hmat). cbn [bind].
    destruct (IH item2 (off + length (points_of d))%nat
                 (mkParser (closed_by_o st) (vertices st) (globals_ st) (materials st)
                           (Some (restored_at table off (d, n, kwargs)))) Hall Hmat)
      as (st' & Hrun & Hres).
    exists st'. split; [exact Hrun|]. rewrite Hres.
    destruct (restored_at_kind off (d, n, kwargs) Hr) as [k Hk].
    unfold closed_by_o at 1.
    cbn [current_obj descriptors vertices globals_]. rewrite Hk.
    change (restored_from table off ((d, n, kwargs) :: item2 :: items))
      with (restored_at table off (d, n, kwargs)
            :: restored_from table (off + length (points_of d)) (item2 :: items)).
    now rewrite <- app_assoc.
Qed.

(** *** Translating the descriptors that were rebuilt *)

Lemma translate_restored (self : ObjFile) (d : Drawable) (n : string)
    (kwargs : dict value) (pre post : list (option (PointOf number))) :
  restorable table (d, n, kwargs) = true ->
  _vertices self = pre ++ map Some (map flat (points_of d)) ++ post ->
  _obj_to_drawable self (restored_at table (length pre) (d, n, kwargs))
  = Ok (restored table (d, n, kwargs)).
Proof.
  intros Hr Hvs. unfold _obj_to_drawable, restored.
  cbn [restored_at kind vertex_indexes attributes].
  destruct (restorable_parts _ _ _ Hr) as (_ & _ & k & Hk & _).
  destruct d as [p|a b|ps|ps|]; try discriminate; cbn [kind_of points_of read_back] in *.
  - cbn [length slots seq map]. rewrite getitem_0. cbn [bind].
    unfold vertex. rewrite Hvs. cbn [map app]. rewrite getitem_slot. reflexivity.
  - cbn [length slots seq map]. rewrite getitem_0, getitem_1. cbn [bind].
    rewrite Hvs. cbn [map app]. rewrite getitem_slot. cbn [bind].
    replace (Z.of_nat (S (length pre)))
      with (Z.of_nat (length (pre ++ [Some (flat a)])))
      by (rewrite length_app; cbn [length]; lia).
    replace (pre ++ Some (flat a) :: Some (flat b) :: post)
      with ((pre ++ [Some (flat a)]) ++ Some (flat b) :: post)
      by (now rewrite <- app_assoc).
    rewrite getitem_slot. reflexivity.
  - rewrite <- (length_map flat (iter_Wireframe ps)).
    now rewrite (lookup_slots self _ pre post Hvs).
  - rewrite <- (length_map flat (iter_Polygon ps)).
    now rewrite (lookup_slots self _ pre post Hvs).
Qed.

Lemma read_restored (self : ObjFile) (items : list (Drawable * string * dict value)) :
  forall pre post,
  forallb (restorable table) items = true ->
  _vertices self = pre ++ map Some (map flat (all_points items)) ++ post ->
  map_result (_obj_to_drawable self) (restored_from table (length pre) items)
  = Ok (map (restored table) items).
Proof.
  induction items as [|[[d n] kwargs] items IH]; intros pre post Hall Hvs;
    [reflexivity|].
  cbn [forallb] in Hall. apply andb_prop in Hall as [Hr Hall].
  unfold all_points in Hvs. cbn [flat_map fst] in Hvs.
  rewrite !map_app, <- app_assoc in Hvs.
  cbn [restored_from map_result map fst].
  rewrite (translate_restored self _ _ _ pre _ Hr Hvs). cbn [bind].
  replace (length pre + length (points_of d))%nat
    with (length (pre ++ map Some (map flat (points_of d))))
    by (now rewrite length_app, !length_map).
  rewrite (IH (pre ++ map Some (map flat (points_of d))) post Hall); [reflexivity|].
  rewrite Hvs. now rewrite <- app_assoc.
Qed.

(** *** The lines of the globals *)

Ltac same_line :=
  repeat (progress cbn [append] || rewrite append_assoc || rewrite append_nil_r);
  reflexivity.

Lemma dict_get_In (V : Type) (d : dict V) (k : string) (v : V) :
  dict_get d k = Some v -> In (k, v) d.
Proof.
  induction d as [|[k' v'] d IH]; cbn; [discriminate|].
  destruct (String.eqb_spec k' k) as [->|Hne].
  - intros H. injection H as ->. now left.
  - auto.
Qed.

Lemma inert_global_parts (key : string) (v : value) :
  inert_global (key, v) = true ->
  is_token key = true /\
  in_ key ["mtllib"; "v"; "o"; "usemtl"; "p"; "l"; "f"] = false /\
  exists l, iter_no_str v = Ok l /\ forallb one_line l = true.
Proof.
  unfold inert_global. intros H.
  apply andb_prop in H as [H Hv]. apply andb_prop in H as [Ht Hd].
  apply negb_true_iff in Hd. repeat split; auto.
  destruct v as [s|l|c]; [| |discriminate]; cbn [inert_value iter_no_str] in *.
  - exists [s]. cbn [forallb]. now rewrite Hv.
  - now exists l.
Qed.

Lemma inert_keys_not_mtllib (d : dict value) :
  forallb inert_global d = true -> ~ In "mtllib" (keys d).
Proof.
  intros Hd Hin. apply in_map_iff in Hin as ([k v] & Hk & Hin). cbn [fst] in Hk. subst k.
  rewrite forallb_forall in Hd. specialize (Hd _ Hin).
  apply inert_global_parts in Hd as (_ & Hdir & _). discriminate.
Qed.

Section Globals.
Variables (before lib after : dict value).
Hypothesis inert_before : forallb inert_global before = true.
Hypothesis inert_after : forallb inert_global after = true.
Hypothesis loads : loadable fs (absdir fs (name f)) lib table.

(** Each key of the globals has a value that is written on a line; the
    key is [mtllib], with the value of the library, or the parser passes
    over the line. *)
Lemma global_key_sorts (key : string) :
  In key (keys (before ++ lib ++ after)) ->
  exists v l,
    dict_get (before ++ lib ++ after) key = Some v /\
    iter_no_str v = Ok l /\
    one_line ((key +++ " ") +++ spaced l) = true /\
    ((key <> "mtllib" /\
      forall st, parse_line fs f ((key +++ " ") +++ spaced l) st = Ok st) \/
     (key = "mtllib" /\ lib = [("mtllib", v)])).
Proof.
  intros Hkey. destruct (dict_get_in _ _ Hkey) as (v & Hget & Hin).
  exists v.
  assert (Hinert : inert_global (key, v) = true ->
            exists l, iter_no_str v = Ok l /\
              one_line ((key +++ " ") +++ spaced l) = true /\
              key <> "mtllib" /\
              forall st, parse_line fs f ((key +++ " ") +++ spaced l) st = Ok st).
  { intros Hi. apply inert_global_parts in Hi as (Htok & Hdir & l & Hl & Hone).
    exists l. split; [exact Hl|]. split; [|split].
    - now rewrite !one_line_append, (token_one_line _ Htok), one_line_spaced.
    - intros ->. discriminate.
    - intros st. apply (parse_inert fs f) with (head := key) (body := split (spaced l));
        [|exact Hdir].
      rewrite append_assoc. now apply split_token_space. }
  apply in_app_or in Hin as [Hin | Hin]; [|apply in_app_or in Hin as [Hin | Hin]].
  - rewrite forallb_forall in inert_before.
    destruct (Hinert (inert_before _ Hin)) as (l & Hl & Hone & Hne & Hparse).
    exists l. repeat split; auto.
  - destruct loads as [|v0 libs g tbl Hiter Htok Hload]; [contradiction|].
    destruct Hin as [Hin | []]. injection Hin as <- <-.
    exists libs. repeat split; auto.
    change (("mtllib" +++ " ") +++ spaced libs) with ("mtllib" +++ " " +++ spaced libs).
    rewrite !one_line_append. cbn [andb].
    apply one_line_spaced. apply forallb_forall. intros x Hx.
    apply token_one_line. rewrite forallb_forall in Htok. now apply Htok.
  - rewrite forallb_forall in inert_after.
    destruct (Hinert (inert_after _ Hin)) as (l & Hl & Hone & Hne & Hparse).
    exists l. repeat split; auto.
Qed.

Lemma global_lines_one_line :
  forallb one_line (global_lines (before ++ lib ++ after)) = true.
Proof.
  apply forallb_forall. intros ln Hln. unfold global_lines in Hln.
  apply in_flat_map in Hln as (key & Hkey & Hln).
  destruct (global_key_sorts key Hkey) as (v & l & Hget & Hl & Hone & _).
  unfold global_line in Hln. rewrite Hget, Hl in Hln.
  destruct Hln as [<- | []]. exact Hone.
Qed.

Lemma dump_globals :
  emit_each (dump_global (before ++ lib ++ after)) (keys (before ++ lib ++ after))
  = emit (unlines (global_lines (before ++ lib ++ after))).
Proof.
  unfold global_lines. apply emit_each_lines. apply Forall_forall. intros key Hkey.
  destruct (global_key_sorts key Hkey) as (v & l & Hget & Hl & _).
  unfold dump_global, global_line, dict_item, emit_values. rewrite Hget, Hl.
  rewrite emit_spaced, !and_then_emit. cbn [unlines]. apply (f_equal emit). same_line.
Qed.

(** The parser passes over the lines of the keys of a part of the globals
    that holds no [mtllib]. *)
Lemma parse_inert_globals (part : dict value) (st : parser) :
  incl (keys part) (keys (before ++ lib ++ after)) ->
  ~ In "mtllib" (keys part) ->
  for_each (flat_map (global_line (before ++ lib ++ after)) (keys part))
           (parse_line fs f) st
  = Ok st.
Proof.
  intros Hincl Hno. apply (for_each_inert fs f). apply Forall_forall. intros ln Hln.
  apply in_flat_map in Hln as (key & Hkey & Hln).
  destruct (global_key_sorts key (Hincl _ Hkey))
    as (v & l & Hget & Hl & _ & [[_ Hparse] | [-> _]]); [|contradiction].
  unfold global_line in Hln. rewrite Hget, Hl in Hln.
  destruct Hln as [<- | []]. exact Hparse.
Qed.

(** Parsing the lines of the globals, in a state without globals or
    materials, loads the materials of the table and changes nothing
    else but the globals. *)
Lemma parse_global_lines (st : parser) :
  globals_ st = [] -> materials st = [] ->
  exists g',
    for_each (global_lines (before ++ lib ++ after)) (parse_line fs f) st
    = Ok (mkParser (descriptors st) (vertices st) g' table (current_obj st)).
Proof.
  intros Hg Hm. unfold global_lines, keys.
  rewrite !map_app, !flat_map_app, !for_each_app.
  fold (keys before). fold (keys lib). fold (keys after).
  assert (Hkeys : keys (before ++ lib ++ after) = keys before ++ keys lib ++ keys after)
    by (unfold keys; now rewrite !map_app).
  rewrite parse_inert_globals.
  2:{ rewrite Hkeys. intros k Hk. apply in_or_app. now left. }
  2:{ now apply inert_keys_not_mtllib. }
  cbn [bind]. rewrite for_each_app.
  assert (Hafter : forall st', for_each (flat_map (global_line (before ++ lib ++ after))
                                          (keys after)) (parse_line fs f) st' = Ok st').
  { intros st'. apply parse_inert_globals.
    - rewrite Hkeys. intros k Hk. apply in_or_app. right. apply in_or_app. now right.
    - now apply inert_keys_not_mtllib. }
  destruct loads as [|v libs g tbl Hiter Htok Hload].
  - change (keys (@nil (string * value))) with (@nil string).
    cbn [flat_map for_each bind]. rewrite Hafter.
    exists []. destruct st as [ds vs gs ms cur]. cbn in Hg, Hm |- *. now subst.
  - change (keys [("mtllib", v)]) with ["mtllib"]. cbn [flat_map].
    rewrite app_nil_r.
    assert (Hget : dict_get (before ++ [("mtllib", v)] ++ after) "mtllib" = Some v).
    { rewrite dict_get_app.
      destruct (dict_get before "mtllib") as [v'|] eqn:Hb; [|reflexivity].
      apply dict_get_keys in Hb. now apply inert_keys_not_mtllib in Hb. }
    unfold global_line at 1. rewrite Hget, Hiter. cbn [for_each].
    assert (Hsplit : split (("mtllib" +++ " ") +++ spaced libs) = "mtllib" :: libs).
    { change (("mtllib" +++ " ") +++ spaced libs) with ("mtllib" +++ " " +++ spaced libs).
      now rewrite (split_token_space "mtllib" _ eq_refl), split_spaced. }
    assert (Hparse : parse_line fs f (("mtllib" +++ " ") +++ spaced libs) st
                     = Ok (mkParser (descriptors st) (vertices st) g tbl (current_obj st))).
    { unfold parse_line. rewrite Hsplit. cbn [String.eqb Ascii.eqb Bool.eqb].
      rewrite Hg, Hm.
      match goal with
      | |- bind ?run _ = _ =>
          replace run with (Ok (g, tbl) : result (dict value * dict Color))
            by (symmetry; exact Hload)
      end.
      reflexivity. }
    rewrite Hparse. cbn [bind]. rewrite Hafter. now exists g.
Qed.

End Globals.

End Restoring.

Section RestoringTheorem.
Context {E : Externals}.
Variables (fs : FileSystem) (path : string).
Hypothesis format_token : forall x : number, is_token (format x) = true.
Hypothesis float_format : forall x : number, float (format x) = Ok x.

(** The text that [close] leaves in the file of a written session. *)
Lemma close_restorable (before lib after : dict value) (table : dict Color)
    (item : Drawable * string * dict value)
    (items : list (Drawable * string * dict value)) :
  forallb inert_global before = true ->
  loadable fs (absdir fs path) lib table ->
  forallb inert_global after = true ->
  forallb (restorable table) (item :: items) = true ->
  close (mkObjFile (mkFile path "") "w" (descriptors_from 1 (item :: items))
                   (None :: map Some (all_points (item :: items)))
                   (before ++ lib ++ after))
  = (mkFile path (unlines (map vertex_line (all_points (item :: items))
                           ++ global_lines (before ++ lib ++ after)
                           ++ object_lines_from 1 (item :: items))),
     Ok tt).
Proof.
  intros Hb Hl Ha Hall. unfold close.
  cbn [mode _descriptors _vertices _globals file name text].
  unfold _dump_objs. cbn [tl].
  rewrite dump_vertices_lines.
  rewrite (@dump_globals _ fs (mkFile path "") table before lib after Hb Ha Hl).
  destruct (dump_restorable_objs fs (mkFile path "") table (item :: items) 1 Hall)
    as [-> _].
  rewrite !and_then_emit, !unlines_app. reflexivity.
Qed.

(** What the parser makes of that text. *)
Lemma parse_restorable (before lib after : dict value) (table : dict Color)
    (item : Drawable * string * dict value)
    (items : list (Drawable * string * dict value)) :
  forallb inert_global before = true ->
  loadable fs (absdir fs path) lib table ->
  forallb inert_global after = true ->
  forallb (restorable table) (item :: items) = true ->
  exists g',
    _parse_objs fs
      (mkFile path (unlines (map vertex_line (all_points (item :: items))
                             ++ global_lines (before ++ lib ++ after)
                             ++ object_lines_from 1 (item :: items))))
    = Ok (restored_from table 1 (item :: items),
          None :: map Some (map flat (all_points (item :: items))), g').
Proof.
  intros Hb Hl Ha Hall. unfold _parse_objs. cbn [text].
  set (file := mkFile path _).
  rewrite lines_unlines.
  2:{ rewrite !forallb_app.
      rewrite (@global_lines_one_line _ fs file table before lib after Hb Ha Hl).
      destruct (dump_restorable_objs fs file table (item :: items) 1 Hall) as [_ ->].
      rewrite !andb_true_r.
      apply forallb_forall. intros ln Hln. apply in_map_iff in Hln as (p & <- & _).
      now apply vertex_line_one_line. }
  rewrite for_each_app, (parse_vertex_lines fs file format_token float_format).
  cbn [bind]. rewrite for_each_app.
  destruct (@parse_global_lines _ fs file table before lib after Hb Ha Hl
              (mkParser (descriptors (parser_init file))
                 (vertices (parser_init file)
                  ++ map (fun p => Some (flat p)) (all_points (item :: items)))
                 (globals_ (parser_init file)) (materials (parser_init file))
                 (current_obj (parser_init file))) eq_refl eq_refl)
    as [g' ->].
  cbn [bind descriptors vertices current_obj].
  destruct (@parse_restorable_objs _ fs file table items item 1
              (mkParser (descriptors (parser_init file))
                 (vertices (parser_init file)
                  ++ map (fun p => Some (flat p)) (all_points (item :: items)))
                 g' table (current_obj (parser_init file))) Hall eq_refl)
    as (st' & -> & Hres).
  cbn [bind]. rewrite Hres. exists g'.
  cbn [parser_init closed_by_o current_obj descriptors vertices globals_
       new_ObjDescriptor kind app].
  now rewrite map_map.
Qed.


End RestoringTheorem.

